(** * Energy management utilities

    A shallow embedding of [src/utils/energy-management.ts] together with the
    type declarations of [types-user-experience.ts], and the properties of
    the analytics functions that the specification states.

    Conventions of the embedding:
    - a JavaScript [number] that is always finite is a rational [Q]; counters
      and sums of energy values are integers [Z]; the metrics aggregator,
      which divides by an array length that may be zero, uses [JSNumber.t],
      which adds [NaN] and the infinities;
    - an ISO time stamp produced by [toISOString] and read back by [new Date]
      is the number of milliseconds since the epoch, a [Z];
    - a [Map] is a list of entries in insertion order;
    - every reading of the wall clock ([Date.now()], [new Date()]) is an
      effect of the clock monad [Clk]. *)

From Stdlib Require Import ZArith QArith Qminmax Qround List String Ascii Bool Lia DecimalString.
From Stdlib Require Import DecimalZ Sorted Permutation.
Import ListNotations.

Open Scope Z_scope.

(** ** Local time

    [Date.prototype.getHours] and [getDay] read the time stamp in the host's
    local time zone.  The zone is a function giving the offset from UTC, in
    milliseconds, at each instant (so that daylight saving is covered). *)

Definition msPerHour : Z := 60 * 60 * 1000.
Definition msPerDay : Z := 24 * 60 * 60 * 1000.

Definition TimeZone : Type := Z -> Z.

Definition UTC : TimeZone := fun _ => 0.

Definition getHours (tz : TimeZone) (t : Z) : Z :=
  ((t + tz t) / msPerHour) mod 24.

(** Day of the week, 0 = Sunday; the epoch was a Thursday. *)
Definition getDay (tz : TimeZone) (t : Z) : Z :=
  ((t + tz t) / msPerDay + 4) mod 7.

(** ** The wall clock

    The [k]-th reading of the clock made by the program is [clock k]; a
    computation threads the number of readings made so far. *)

Definition Clock : Type := nat -> Z.

Definition Clk (A : Type) : Type := Clock -> nat -> A * nat.

Definition ret {A} (a : A) : Clk A := fun _ n => (a, n).

Definition bind {A B} (c : Clk A) (k : A -> Clk B) : Clk B :=
  fun clock n => let (a, n') := c clock n in k a clock n'.

Definition Date_now : Clk Z := fun clock n => (clock n, S n).

Notation "x <- c ;; k" := (bind c (fun x => k))
  (at level 61, c at next level, right associativity).

(** A clock that shows the same instant at every reading. *)
Definition frozen (now : Z) : Clock := fun _ => now.

(** [Array.prototype.filter] with a callback that reads the clock. *)
Fixpoint filterM {A} (p : A -> Clk bool) (l : list A) : Clk (list A) :=
  match l with
  | [] => ret []
  | x :: r =>
      b <- p x ;;
      r' <- filterM p r ;;
      ret (if b then x :: r' else r')
  end.

(** ** Numbers *)

Definition Qgtb (a b : Q) : bool := negb (Qle_bool a b).
Definition Qgeb (a b : Q) : bool := Qle_bool b a.

(** [x || 0] on a number: zero is falsy. *)
Definition orZero (x : Q) : Q := if Qeq_bool x 0 then 0%Q else x.

(** Template-literal rendering of an integer. *)
Definition showZ (n : Z) : string := NilZero.string_of_int (Z.to_int n).

(** ** Maps in insertion order *)

Module JSMap.
Section Ops.
Context {V : Type}.

Definition t : Type := list (Z * V).

Definition empty : t := [].

Fixpoint get (m : t) (k : Z) : option V :=
  match m with
  | [] => None
  | (k', v) :: r => if k' =? k then Some v else get r k
  end.

Definition has (m : t) (k : Z) : bool :=
  match get m k with Some _ => true | None => false end.

(** [set] keeps the position of a key that is present and appends a new
    key at the end. *)
Fixpoint set (m : t) (k : Z) (v : V) : t :=
  match m with
  | [] => [(k, v)]
  | (k', v') :: r => if k' =? k then (k, v) :: r else (k', v') :: set r k v
  end.

Definition entries (m : t) : list (Z * V) := m.

Definition keys (m : t) : list Z := map fst m.
End Ops.
Arguments t : clear implicits.
End JSMap.

(** ** Data model ([types-user-experience.ts]) *)

Inductive EnergyLevel : Type := VeryLow | Low | Medium | High | VeryHigh.

Definition EnergyLevel_eqb (a b : EnergyLevel) : bool :=
  match a, b with
  | VeryLow, VeryLow | Low, Low | Medium, Medium
  | High, High | VeryHigh, VeryHigh => true
  | _, _ => false
  end.

Inductive SleepQuality : Type := Poor | Fair | Good | Excellent.
Inductive Meals : Type := MealsEmpty | MealsLight | MealsFull.
Inductive Stress : Type := StressLow | StressMedium | StressHigh.

Module EnergyContext.
Record t : Type := mk {
  timeOfDay : string;
  dayOfWeek : Z;
  weather : option string;
  sleepQuality : option SleepQuality;
  caffeine : option bool;
  exercise : option bool;
  meals : option Meals;
  stress : option Stress
}.
End EnergyContext.

Module EnergyDataPoint.
Record t : Type := mk {
  timestamp : Z;
  energyLevel : EnergyLevel;
  context : option EnergyContext.t;
  productivity : option Q;
  sessionCompleted : option bool
}.
End EnergyDataPoint.

Inductive PatternType : Type := Daily | Weekly | Monthly.

Definition PatternType_eqb (a b : PatternType) : bool :=
  match a, b with
  | Daily, Daily | Weekly, Weekly | Monthly, Monthly => true
  | _, _ => false
  end.

Module PatternEntry.
Record t : Type := mk {
  timeSlot : string;
  averageEnergy : Q;
  confidence : Q
}.
End PatternEntry.

Module EnergyPattern.
Record t : Type := mk {
  type : PatternType;
  pattern : list PatternEntry.t;
  recommendations : list string
}.
End EnergyPattern.

Module SuitabilityScores.
Record t : Type := mk {
  reading : Q;
  writing : Q;
  problemSolving : Q;
  creative : Q;
  review : Q
}.
End SuitabilityScores.

Module TimeSlot.
Record t : Type := mk {
  startHour : Z;
  endHour : Z;
  energyLevel : Q;
  suitabilityScores : SuitabilityScores.t
}.
End TimeSlot.

Inductive TaskType : Type :=
  | Reading | Writing | ProblemSolving | Creative
  | Review | Research | Practice | Memorization.

Module AdaptivePreferences.
Record t : Type := mk {
  adjustDifficultyByEnergy : bool;
  suggestBreaksBasedOnEnergy : bool;
  adaptSessionLengthByEnergy : bool;
  enableEnergyNotifications : bool;
  autoRescheduleOnLowEnergy : bool;
  preferredLowEnergyActivities : list TaskType;
  preferredHighEnergyActivities : list TaskType
}.
End AdaptivePreferences.

Module UserEnergyProfile.
Record t : Type := mk {
  currentEnergyLevel : EnergyLevel;
  energyHistory : list EnergyDataPoint.t;
  optimalStudyTimes : list TimeSlot.t;
  energyPatterns : list EnergyPattern.t;
  lastUpdated : Z;
  adaptivePreferences : AdaptivePreferences.t
}.
End UserEnergyProfile.

Definition defaultAdaptivePreferences : AdaptivePreferences.t :=
  {| AdaptivePreferences.adjustDifficultyByEnergy := true;
     AdaptivePreferences.suggestBreaksBasedOnEnergy := true;
     AdaptivePreferences.adaptSessionLengthByEnergy := true;
     AdaptivePreferences.enableEnergyNotifications := true;
     AdaptivePreferences.autoRescheduleOnLowEnergy := false;
     AdaptivePreferences.preferredLowEnergyActivities := [Reading; Review];
     AdaptivePreferences.preferredHighEnergyActivities :=
       [ProblemSolving; Creative; Writing] |}.

Definition initializeEnergyProfile : Clk UserEnergyProfile.t :=
  now <- Date_now ;;
  ret {| UserEnergyProfile.currentEnergyLevel := Medium;
         UserEnergyProfile.energyHistory := [];
         UserEnergyProfile.optimalStudyTimes := [];
         UserEnergyProfile.energyPatterns := [];
         UserEnergyProfile.lastUpdated := now;
         UserEnergyProfile.adaptivePreferences := defaultAdaptivePreferences |}.

(** ** Helper functions *)

Definition energyLevelToNumber (level : EnergyLevel) : Z :=
  match level with
  | VeryLow => 1 | Low => 2 | Medium => 3 | High => 4 | VeryHigh => 5
  end.

(** [days[dayIndex]]; an index outside the array reads [undefined], which a
    template literal renders as the word. *)
Definition getDayName (dayIndex : Z) : string :=
  if (dayIndex <? 0) then "undefined"%string
  else nth (Z.to_nat dayIndex)
         ["Sunday"; "Monday"; "Tuesday"; "Wednesday"; "Thursday"; "Friday";
          "Saturday"]%string "undefined"%string.

Definition calculateSuitabilityScores (energy productivity : Q) : SuitabilityScores.t :=
  {| SuitabilityScores.reading := Qmin 100 (energy * 20 + productivity * 5);
     SuitabilityScores.writing := Qmin 100 (energy * 25 + productivity * 10);
     SuitabilityScores.problemSolving := Qmin 100 (energy * 30 + productivity * 15);
     SuitabilityScores.creative := Qmin 100 (energy * 25 + productivity * 12);
     SuitabilityScores.review := Qmin 100 (energy * 15 + productivity * 8) |}.

(** The quotient [sum / count] of two integer counters. *)
Definition ratio (sum count : Z) : Q := (inject_Z sum / inject_Z count)%Q.


(** ** Pattern analyzer ([analyzePatternsFromHistory]) *)

Module HourlyData.
Record t : Type := mk { total : Z; count : Z; energySum : Z }.
End HourlyData.

Module WeeklyData.
Record t : Type := mk { energySum : Z; count : Z }.
End WeeklyData.

(** The body of the first [history.forEach]: the entry of the hour is
    created when absent, and the object stored in the map is then updated
    in place, which is a write to the same key. *)
Definition hourlyStep (tz : TimeZone) (hourlyData : JSMap.t HourlyData.t)
    (point : EnergyDataPoint.t) : JSMap.t HourlyData.t :=
  let hour := getHours tz (EnergyDataPoint.timestamp point) in
  let energyValue := energyLevelToNumber (EnergyDataPoint.energyLevel point) in
  let m :=
    if negb (JSMap.has hourlyData hour)
    then JSMap.set hourlyData hour
           {| HourlyData.total := 0; HourlyData.count := 0; HourlyData.energySum := 0 |}
    else hourlyData in
  match JSMap.get m hour with
  | Some data =>
      JSMap.set m hour
        {| HourlyData.total := HourlyData.total data;
           HourlyData.count := HourlyData.count data + 1;
           HourlyData.energySum := HourlyData.energySum data + energyValue |}
  | None => m
  end.

Definition hourlyDataOf (tz : TimeZone) (history : list EnergyDataPoint.t)
    : JSMap.t HourlyData.t :=
  fold_left (hourlyStep tz) history JSMap.empty.

Definition weeklyStep (tz : TimeZone) (weeklyData : JSMap.t WeeklyData.t)
    (point : EnergyDataPoint.t) : JSMap.t WeeklyData.t :=
  let dayOfWeek := getDay tz (EnergyDataPoint.timestamp point) in
  let energyValue := energyLevelToNumber (EnergyDataPoint.energyLevel point) in
  let m :=
    if negb (JSMap.has weeklyData dayOfWeek)
    then JSMap.set weeklyData dayOfWeek
           {| WeeklyData.energySum := 0; WeeklyData.count := 0 |}
    else weeklyData in
  match JSMap.get m dayOfWeek with
  | Some data =>
      JSMap.set m dayOfWeek
        {| WeeklyData.energySum := WeeklyData.energySum data + energyValue;
           WeeklyData.count := WeeklyData.count data + 1 |}
  | None => m
  end.

Definition weeklyDataOf (tz : TimeZone) (history : list EnergyDataPoint.t)
    : JSMap.t WeeklyData.t :=
  fold_left (weeklyStep tz) history JSMap.empty.

(** [obj?.[0]] on the value returned by [Map.get]: [undefined] when the key
    is absent, and [undefined] as well when it is present, because the
    aggregate objects have the properties [total], [count] and [energySum]
    (or [energySum] and [count]) and no property named [0]. *)
Definition optionalIndex0 {A} (obj : option A) : option Q :=
  match obj with
  | None => None
  | Some _ => None
  end.

(** [v || 0] where [v] may be [undefined]. *)
Definition undefinedOrZero (v : option Q) : Q :=
  match v with
  | None => 0%Q
  | Some q => orZero q
  end.

Definition peakHourOf (hourlyData : JSMap.t HourlyData.t) : Z :=
  fold_left
    (fun max '(hour, data) =>
       if Qgtb (ratio (HourlyData.energySum data) (HourlyData.count data))
               (undefinedOrZero (optionalIndex0 (JSMap.get hourlyData max)))
       then hour else max)
    (JSMap.entries hourlyData) 0.

Definition generateDailyRecommendations (hourlyData : JSMap.t HourlyData.t)
    : list string :=
  let peakHour := peakHourOf hourlyData in
  [ ("Your peak energy hour is " ++ showZ peakHour
      ++ ":00 - schedule important tasks then")%string ].

Definition bestDayOf (weeklyData : JSMap.t WeeklyData.t) : Z :=
  fold_left
    (fun max '(day, data) =>
       if Qgtb (ratio (WeeklyData.energySum data) (WeeklyData.count data))
               (undefinedOrZero (optionalIndex0 (JSMap.get weeklyData max)))
       then day else max)
    (JSMap.entries weeklyData) 0.

Definition generateWeeklyRecommendations (weeklyData : JSMap.t WeeklyData.t)
    : list string :=
  let bestDay := bestDayOf weeklyData in
  [ (getDayName bestDay ++ " is your most productive day")%string ].

Definition dailyEntry (e : Z * HourlyData.t) : PatternEntry.t :=
  let (hour, data) := e in
  {| PatternEntry.timeSlot := (showZ hour ++ ":00")%string;
     PatternEntry.averageEnergy :=
       ratio (HourlyData.energySum data) (HourlyData.count data);
     PatternEntry.confidence := Qmin (inject_Z (HourlyData.count data) / 7) 1 |}.

Definition weeklyEntry (e : Z * WeeklyData.t) : PatternEntry.t :=
  let (day, data) := e in
  {| PatternEntry.timeSlot := getDayName day;
     PatternEntry.averageEnergy :=
       ratio (WeeklyData.energySum data) (WeeklyData.count data);
     PatternEntry.confidence := Qmin (inject_Z (WeeklyData.count data) / 4) 1 |}.

Definition analyzePatternsFromHistory (tz : TimeZone)
    (history : list EnergyDataPoint.t) : list EnergyPattern.t :=
  if (Z.of_nat (List.length history) <? 7) then []
  else
    let hourlyData := hourlyDataOf tz history in
    let dailyPattern :=
      {| EnergyPattern.type := Daily;
         EnergyPattern.pattern := map dailyEntry (JSMap.entries hourlyData);
         EnergyPattern.recommendations := generateDailyRecommendations hourlyData |} in
    let weeklyData := weeklyDataOf tz history in
    let weeklyPattern :=
      {| EnergyPattern.type := Weekly;
         EnergyPattern.pattern := map weeklyEntry (JSMap.entries weeklyData);
         EnergyPattern.recommendations := generateWeeklyRecommendations weeklyData |} in
    [dailyPattern; weeklyPattern].

(** ** Optimal-window selector ([calculateOptimalStudyTimes]) *)

Module HourlyPerformance.
Record t : Type := mk {
  energySum : Z;
  productivitySum : Q;
  count : Z;
  completionRate : Z
}.
End HourlyPerformance.

(** Truthiness of an optional flag: [undefined] and [false] are falsy.  An
    optional number is truthy when it is present and not zero. *)
Definition truthyFlag (b : option bool) : bool :=
  match b with
  | Some true => true
  | _ => false
  end.

Definition performanceStep (tz : TimeZone)
    (hourlyPerformance : JSMap.t HourlyPerformance.t)
    (point : EnergyDataPoint.t) : JSMap.t HourlyPerformance.t :=
  let hour := getHours tz (EnergyDataPoint.timestamp point) in
  let energyValue := energyLevelToNumber (EnergyDataPoint.energyLevel point) in
  let m :=
    if negb (JSMap.has hourlyPerformance hour)
    then JSMap.set hourlyPerformance hour
           {| HourlyPerformance.energySum := 0;
              HourlyPerformance.productivitySum := 0;
              HourlyPerformance.count := 0;
              HourlyPerformance.completionRate := 0 |}
    else hourlyPerformance in
  match JSMap.get m hour with
  | Some data =>
      JSMap.set m hour
        {| HourlyPerformance.energySum :=
             HourlyPerformance.energySum data + energyValue;
           HourlyPerformance.productivitySum :=
             match EnergyDataPoint.productivity point with
             | Some q =>
                 if negb (Qeq_bool q 0)
                 then (HourlyPerformance.productivitySum data + q)%Q
                 else HourlyPerformance.productivitySum data
             | None => HourlyPerformance.productivitySum data
             end;
           HourlyPerformance.count := HourlyPerformance.count data + 1;
           HourlyPerformance.completionRate :=
             if truthyFlag (EnergyDataPoint.sessionCompleted point)
             then HourlyPerformance.completionRate data + 1
             else HourlyPerformance.completionRate data |}
  | None => m
  end.

Definition hourlyPerformanceOf (tz : TimeZone)
    (history : list EnergyDataPoint.t) : JSMap.t HourlyPerformance.t :=
  fold_left (performanceStep tz) history JSMap.empty.

(** The body of [hourlyPerformance.forEach]: the slot pushed for an hour,
    if any. *)
Definition slotOf (e : Z * HourlyPerformance.t) : option TimeSlot.t :=
  let (hour, data) := e in
  let avgEnergy :=
    ratio (HourlyPerformance.energySum data) (HourlyPerformance.count data) in
  let avgProductivity :=
    orZero (HourlyPerformance.productivitySum data
            / inject_Z (HourlyPerformance.count data))%Q in
  let completionRate :=
    ratio (HourlyPerformance.completionRate data) (HourlyPerformance.count data) in
  if Qgeb avgEnergy 3 && Qgeb completionRate (7 # 10)
  then Some {| TimeSlot.startHour := hour;
               TimeSlot.endHour := hour + 1;
               TimeSlot.energyLevel := avgEnergy;
               TimeSlot.suitabilityScores :=
                 calculateSuitabilityScores avgEnergy avgProductivity |}
  else None.

Fixpoint pushSlots (es : list (Z * HourlyPerformance.t)) (timeSlots : list TimeSlot.t)
    : list TimeSlot.t :=
  match es with
  | [] => timeSlots
  | e :: r =>
      match slotOf e with
      | Some slot => pushSlots r (timeSlots ++ [slot])
      | None => pushSlots r timeSlots
      end
  end.

(** [Array.prototype.sort] with the comparator
    [(a, b) => b.energyLevel - a.energyLevel]: a stable sort, descending in
    [energyLevel]. *)
Fixpoint insertSlot (x : TimeSlot.t) (l : list TimeSlot.t) : list TimeSlot.t :=
  match l with
  | [] => [x]
  | y :: r =>
      if Qle_bool (TimeSlot.energyLevel y - TimeSlot.energyLevel x) 0
      then x :: y :: r
      else y :: insertSlot x r
  end.

Definition sortSlots (l : list TimeSlot.t) : list TimeSlot.t :=
  fold_right insertSlot [] l.

Definition calculateOptimalStudyTimes (tz : TimeZone)
    (history : list EnergyDataPoint.t) : list TimeSlot.t :=
  if (Z.of_nat (List.length history) <? 7) then []
  else
    let hourlyPerformance := hourlyPerformanceOf tz history in
    let timeSlots := pushSlots (JSMap.entries hourlyPerformance) [] in
    sortSlots timeSlots.

(** ** Energy sample store ([recordEnergyData]) *)

Definition thirtyDaysMs : Z := 30 * 24 * 60 * 60 * 1000.

Definition recordEnergyData (tz : TimeZone)
    (currentProfile : UserEnergyProfile.t)
    (energyLevel : EnergyLevel)
    (context : option EnergyContext.t)
    (productivity : option Q)
    (sessionCompleted : option bool) : Clk UserEnergyProfile.t :=
  stamp <- Date_now ;;
  let dataPoint :=
    {| EnergyDataPoint.timestamp := stamp;
       EnergyDataPoint.energyLevel := energyLevel;
       EnergyDataPoint.context := context;
       EnergyDataPoint.productivity := productivity;
       EnergyDataPoint.sessionCompleted := sessionCompleted |} in
  let updatedHistory :=
    UserEnergyProfile.energyHistory currentProfile ++ [dataPoint] in
  now <- Date_now ;;
  let thirtyDaysAgo := now - thirtyDaysMs in
  let filteredHistory :=
    filter (fun point => thirtyDaysAgo <? EnergyDataPoint.timestamp point)
           updatedHistory in
  updated <- Date_now ;;
  ret {| UserEnergyProfile.currentEnergyLevel := energyLevel;
         UserEnergyProfile.energyHistory := filteredHistory;
         UserEnergyProfile.optimalStudyTimes :=
           calculateOptimalStudyTimes tz filteredHistory;
         UserEnergyProfile.energyPatterns :=
           analyzePatternsFromHistory tz filteredHistory;
         UserEnergyProfile.lastUpdated := updated;
         UserEnergyProfile.adaptivePreferences :=
           UserEnergyProfile.adaptivePreferences currentProfile |}.

(** ** Suggestion generator ([generateSmartSuggestions]) *)

Inductive SuggestionType : Type := EnergyBased | ContextBased | PatternBased | Urgent.
Inductive Priority : Type := PriorityLow | PriorityMedium | PriorityHigh | PriorityCritical.
Inductive Category : Type :=
  | CatScheduling | CatEnergy | CatProductivity | CatBreak | CatSession.

(** The two callbacks of a suggestion are closures that write one fixed
    message to the console; a callback is represented by that message. *)
Module SmartSuggestion.
Record t : Type := mk {
  id : string;
  type : SuggestionType;
  priority : Priority;
  title : string;
  description : string;
  actionText : string;
  onAccept : string;
  onDismiss : string;
  expiresAt : option string;
  icon : string;
  category : Category
}.
End SmartSuggestion.

Inductive UserPresence : Type := PresenceActive | PresenceIdle | PresenceAway.
Inductive DeviceType : Type := Mobile | Tablet | Desktop.
Inductive NetworkStatus : Type := Online | Offline | Slow.
Inductive AmbientLight : Type := LightBright | LightMedium | LightDim.
Inductive LocationContext : Type :=
  | AtHome | AtLibrary | AtCafe | InTransport | Elsewhere.

Module RealTimeContext.
Record t : Type := mk {
  currentTime : Z;
  dayOfWeek : Z;
  userPresence : UserPresence;
  deviceType : DeviceType;
  networkStatus : NetworkStatus;
  batteryLevel : option Q;
  ambientLight : option AmbientLight;
  locationContext : option LocationContext
}.
End RealTimeContext.

(** Modelled from the spec: the declaration of [Task] lives in [../types],
    which is not among the sources.  The generator reads two properties of a
    task, its [status] (compared with the word completed) and its
    [taskType] (compared with two task types); the record has these two. *)
Module Task.
Record t : Type := mk {
  status : string;
  taskType : option TaskType
}.
End Task.

(** Of [RealTimeUserExperience] the generator destructures [energyProfile]
    and [currentContext]; the other properties, which no function below
    reads, are left out of the record. *)
Module RealTimeUserExperience.
Record t : Type := mk {
  energyProfile : UserEnergyProfile.t;
  currentContext : RealTimeContext.t
}.
End RealTimeUserExperience.

Definition lowEnergySuggestion (now : Z) : SmartSuggestion.t :=
  {| SmartSuggestion.id := ("energy-low-" ++ showZ now)%string;
     SmartSuggestion.type := EnergyBased;
     SmartSuggestion.priority := PriorityHigh;
     SmartSuggestion.title := "Low Energy Detected";
     SmartSuggestion.description :=
       "Consider taking a break or switching to lighter tasks like reading or review.";
     SmartSuggestion.actionText := "Suggest Light Tasks";
     SmartSuggestion.onAccept := "Suggesting light tasks";
     SmartSuggestion.onDismiss := "Dismissed";
     SmartSuggestion.expiresAt := None;
     SmartSuggestion.icon := "😴";
     SmartSuggestion.category := CatEnergy |}.

Definition highEnergySuggestion (now : Z) : SmartSuggestion.t :=
  {| SmartSuggestion.id := ("energy-high-" ++ showZ now)%string;
     SmartSuggestion.type := EnergyBased;
     SmartSuggestion.priority := PriorityMedium;
     SmartSuggestion.title := "High Energy - Perfect for Challenging Tasks!";
     SmartSuggestion.description :=
       "You have high energy right now. Great time for problem-solving or creative work.";
     SmartSuggestion.actionText := "Start Difficult Task";
     SmartSuggestion.onAccept := "Starting difficult task";
     SmartSuggestion.onDismiss := "Dismissed";
     SmartSuggestion.expiresAt := None;
     SmartSuggestion.icon := "⚡";
     SmartSuggestion.category := CatScheduling |}.

Definition optimalTimeSuggestion (now : Z) : SmartSuggestion.t :=
  {| SmartSuggestion.id := ("optimal-time-" ++ showZ now)%string;
     SmartSuggestion.type := PatternBased;
     SmartSuggestion.priority := PriorityMedium;
     SmartSuggestion.title := "This is your optimal study time!";
     SmartSuggestion.description :=
       "Based on your patterns, you're most productive at this time.";
     SmartSuggestion.actionText := "Start Study Session";
     SmartSuggestion.onAccept := "Starting optimal session";
     SmartSuggestion.onDismiss := "Dismissed";
     SmartSuggestion.expiresAt := None;
     SmartSuggestion.icon := "🎯";
     SmartSuggestion.category := CatScheduling |}.

Definition breakSuggestion (now : Z) : SmartSuggestion.t :=
  {| SmartSuggestion.id := ("break-suggestion-" ++ showZ now)%string;
     SmartSuggestion.type := ContextBased;
     SmartSuggestion.priority := PriorityMedium;
     SmartSuggestion.title := "Time for a break?";
     SmartSuggestion.description :=
       "You've been working for a while. A short break might help maintain your energy.";
     SmartSuggestion.actionText := "Take Break";
     SmartSuggestion.onAccept := "Taking break";
     SmartSuggestion.onDismiss := "Dismissed";
     SmartSuggestion.expiresAt := None;
     SmartSuggestion.icon := "☕";
     SmartSuggestion.category := CatBreak |}.

Definition isDifficultTask (task : Task.t) : bool :=
  negb (String.eqb (Task.status task) "completed")
  && match Task.taskType task with
     | Some ProblemSolving | Some Creative => true
     | _ => false
     end.

Definition oneHourMs : Z := 60 * 60 * 1000.

(** The callback of the [filter] over the history: one clock reading per
    sample. *)
Definition isRecent (point : EnergyDataPoint.t) : Clk bool :=
  now <- Date_now ;;
  let pointTime := EnergyDataPoint.timestamp point in
  let hourAgo := now - oneHourMs in
  ret (hourAgo <? pointTime).

Definition isLow (point : EnergyDataPoint.t) : bool :=
  EnergyLevel_eqb (EnergyDataPoint.energyLevel point) Low.

Definition generateSmartSuggestions {StudyPlan : Type} (tz : TimeZone)
    (userExperience : RealTimeUserExperience.t)
    (tasks : list Task.t) (studyPlans : list StudyPlan)
    : Clk (list SmartSuggestion.t) :=
  let suggestions : list SmartSuggestion.t := [] in
  let energyProfile := RealTimeUserExperience.energyProfile userExperience in
  let currentContext := RealTimeUserExperience.currentContext userExperience in
  let level := UserEnergyProfile.currentEnergyLevel energyProfile in
  suggestions <-
    (if EnergyLevel_eqb level VeryLow || EnergyLevel_eqb level Low
     then now <- Date_now ;; ret (suggestions ++ [lowEnergySuggestion now])
     else ret suggestions) ;;
  suggestions <-
    (if EnergyLevel_eqb level High || EnergyLevel_eqb level VeryHigh
     then
       let difficultTasks := filter isDifficultTask tasks in
       if (0 <? Z.of_nat (List.length difficultTasks))
       then now <- Date_now ;; ret (suggestions ++ [highEnergySuggestion now])
       else ret suggestions
     else ret suggestions) ;;
  let currentHour := getHours tz (RealTimeContext.currentTime currentContext) in
  let optimalTime :=
    find (fun slot => (TimeSlot.startHour slot <=? currentHour)
                      && (currentHour <? TimeSlot.endHour slot))
         (UserEnergyProfile.optimalStudyTimes energyProfile) in
  suggestions <-
    (match optimalTime with
     | Some _ => now <- Date_now ;; ret (suggestions ++ [optimalTimeSuggestion now])
     | None => ret suggestions
     end) ;;
  recentActivity <-
    filterM isRecent (UserEnergyProfile.energyHistory energyProfile) ;;
  suggestions <-
    (if (4 <=? Z.of_nat (List.length recentActivity))
        && negb (existsb isLow recentActivity)
     then now <- Date_now ;; ret (suggestions ++ [breakSuggestion now])
     else ret suggestions) ;;
  ret suggestions.

(** ** Persona classifier ([determineUserPersona]) *)

Inductive PersonaType : Type := EarlyBird | NightOwl | Flexible | Inconsistent.

Module UserPersona.
Record t : Type := mk {
  type : PersonaType;
  characteristics : list string;
  optimalScheduling : list string;
  challenges : list string;
  recommendations : list string;
  confidenceLevel : Q
}.
End UserPersona.

(** [a <= s && s <= b] on strings: the comparison of JavaScript is the
    lexicographic order of the code units, which on the ASCII labels at hand
    is the order of [String.leb]. *)
Definition labelBetween (a b s : string) : bool :=
  String.leb a s && String.leb s b.

Definition sumAverageEnergy (l : list PatternEntry.t) : Q :=
  fold_left (fun sum p => (sum + PatternEntry.averageEnergy p)%Q) l 0%Q.

Definition morningEnergyOf (dailyPattern : EnergyPattern.t) : Q :=
  (sumAverageEnergy
     (filter (fun p => labelBetween "06:00" "10:00" (PatternEntry.timeSlot p))
             (EnergyPattern.pattern dailyPattern)) / 4)%Q.

Definition eveningEnergyOf (dailyPattern : EnergyPattern.t) : Q :=
  (sumAverageEnergy
     (filter (fun p => labelBetween "18:00" "22:00" (PatternEntry.timeSlot p))
             (EnergyPattern.pattern dailyPattern)) / 4)%Q.

Definition inconsistentPersona : UserPersona.t :=
  {| UserPersona.type := Inconsistent;
     UserPersona.characteristics := ["Insufficient data for pattern recognition"%string];
     UserPersona.optimalScheduling := ["Start with flexible scheduling"%string];
     UserPersona.challenges := ["Building consistent habits"%string];
     UserPersona.recommendations := ["Track energy levels for a few more days"%string];
     UserPersona.confidenceLevel := 1 # 10 |}.

Definition earlyBirdPersona : UserPersona.t :=
  {| UserPersona.type := EarlyBird;
     UserPersona.characteristics :=
       ["High morning energy"; "Prefers early starts";
        "Productive in first half of day"]%string;
     UserPersona.optimalScheduling :=
       ["Schedule important tasks 6-10 AM"; "Light tasks in afternoon"]%string;
     UserPersona.challenges :=
       ["Maintaining energy in evenings"; "Late deadlines"]%string;
     UserPersona.recommendations :=
       ["Front-load your day"; "Plan easier tasks for afternoons"]%string;
     UserPersona.confidenceLevel := 8 # 10 |}.

Definition nightOwlPersona : UserPersona.t :=
  {| UserPersona.type := NightOwl;
     UserPersona.characteristics :=
       ["Higher evening energy"; "Slow morning starts";
        "Peak performance later"]%string;
     UserPersona.optimalScheduling :=
       ["Light tasks in morning"; "Important work 6-10 PM"]%string;
     UserPersona.challenges := ["Morning commitments"; "Early deadlines"]%string;
     UserPersona.recommendations :=
       ["Save challenging work for evening"; "Use mornings for routine tasks"]%string;
     UserPersona.confidenceLevel := 8 # 10 |}.

Definition flexiblePersona : UserPersona.t :=
  {| UserPersona.type := Flexible;
     UserPersona.characteristics :=
       ["Consistent energy throughout day"; "Adaptable to schedules"]%string;
     UserPersona.optimalScheduling :=
       ["Balanced throughout day"; "Can adapt to constraints"]%string;
     UserPersona.challenges := ["May lack strong optimization opportunities"%string];
     UserPersona.recommendations :=
       ["Focus on task prioritization"; "Optimize based on other factors"]%string;
     UserPersona.confidenceLevel := 7 # 10 |}.

Definition isDaily (p : EnergyPattern.t) : bool :=
  PatternType_eqb (EnergyPattern.type p) Daily.

Definition determineUserPersona (energyProfile : UserEnergyProfile.t) : UserPersona.t :=
  let energyPatterns := UserEnergyProfile.energyPatterns energyProfile in
  match find isDaily energyPatterns with
  | None => inconsistentPersona
  | Some dailyPattern =>
      let morningEnergy := morningEnergyOf dailyPattern in
      let eveningEnergy := eveningEnergyOf dailyPattern in
      if Qgtb morningEnergy (eveningEnergy + (1 # 2))
      then earlyBirdPersona
      else if Qgtb eveningEnergy (morningEnergy + (1 # 2))
      then nightOwlPersona
      else flexiblePersona
  end.

(** ** Metrics aggregator ([calculateProductivityMetrics]) *)

(** Numbers with the special values of IEEE arithmetic.  Finite values are
    exact rationals. *)
Module JSNumber.
Inductive t : Type :=
  | Fin (q : Q)
  | PosInf
  | NegInf
  | NaN.

Definition ofZ (z : Z) : t := Fin (inject_Z z).

Definition neg (a : t) : t :=
  match a with
  | Fin q => Fin (- q)
  | PosInf => NegInf
  | NegInf => PosInf
  | NaN => NaN
  end.

Definition add (a b : t) : t :=
  match a, b with
  | NaN, _ | _, NaN => NaN
  | Fin x, Fin y => Fin (x + y)
  | PosInf, NegInf | NegInf, PosInf => NaN
  | PosInf, _ | _, PosInf => PosInf
  | NegInf, _ | _, NegInf => NegInf
  end.

Definition sub (a b : t) : t := add a (neg b).

(** Sign of a finite value, as a comparison with zero. *)
Definition sign (q : Q) : comparison := (q ?= 0)%Q.

Definition infOfSign (c : comparison) : t :=
  match c with
  | Gt => PosInf
  | Lt => NegInf
  | Eq => NaN
  end.

Definition mul (a b : t) : t :=
  match a, b with
  | NaN, _ | _, NaN => NaN
  | Fin x, Fin y => Fin (x * y)
  | Fin x, PosInf | PosInf, Fin x => infOfSign (sign x)
  | Fin x, NegInf | NegInf, Fin x => infOfSign (CompOpp (sign x))
  | PosInf, PosInf | NegInf, NegInf => PosInf
  | PosInf, NegInf | NegInf, PosInf => NegInf
  end.

(** Division by the length of an array, a non-negative integer: a finite
    numerator over a zero length gives [NaN] when the numerator is zero and
    an infinity of its sign otherwise. *)
Definition divLength (a : t) (n : nat) : t :=
  match a with
  | NaN => NaN
  | PosInf => PosInf
  | NegInf => NegInf
  | Fin x =>
      match n with
      | O => infOfSign (sign x)
      | S _ => Fin (x / inject_Z (Z.of_nat n))
      end
  end.

(** [Math.pow(x, 2)]. *)
Definition square (a : t) : t := mul a a.

(** [Math.max]: [NaN] when an argument is [NaN]. *)
Definition max (a b : t) : t :=
  match a, b with
  | NaN, _ | _, NaN => NaN
  | PosInf, _ | _, PosInf => PosInf
  | NegInf, x | x, NegInf => x
  | Fin x, Fin y => if Qle_bool x y then Fin y else Fin x
  end.

(** [Math.round]: the nearest integer, halves rounded up. *)
Definition round (a : t) : t :=
  match a with
  | Fin q => ofZ (Qfloor (q + (1 # 2)))
  | other => other
  end.
End JSNumber.

Module ProductivityMetrics.
Record t : Type := mk {
  focusScore : JSNumber.t;
  completionRate : JSNumber.t;
  consistencyScore : JSNumber.t;
  energyUtilization : JSNumber.t;
  adaptationSuccess : JSNumber.t;
  streakQuality : JSNumber.t;
  timeOptimization : JSNumber.t
}.
End ProductivityMetrics.

(** The ratings are the literals 1 to 5. *)
Module SessionFeedback.
Record t : Type := mk {
  sessionId : string;
  timestamp : Z;
  difficultyRating : Z;
  energyBefore : Z;
  energyAfter : Z;
  focusRating : Z;
  environmentRating : Z;
  satisfaction : Z;
  distractions : list string;
  notes : option string;
  recommendNextSession : option bool
}.
End SessionFeedback.

(** [array.slice(-k)]: the last [k] elements. *)
Definition sliceLast {A} (k : nat) (l : list A) : list A :=
  skipn (List.length l - k) l.

Definition isCompleted (d : EnergyDataPoint.t) : bool :=
  truthyFlag (EnergyDataPoint.sessionCompleted d).

Definition isHighEnergy (d : EnergyDataPoint.t) : bool :=
  EnergyLevel_eqb (EnergyDataPoint.energyLevel d) High
  || EnergyLevel_eqb (EnergyDataPoint.energyLevel d) VeryHigh.

Definition calculateEnergyUtilization (profile : UserEnergyProfile.t)
    (recentData : list EnergyDataPoint.t) : JSNumber.t :=
  let highEnergyData := filter isHighEnergy recentData in
  let utilizedHighEnergy := List.length (filter isCompleted highEnergyData) in
  if (0 <? Z.of_nat (List.length highEnergyData))
  then JSNumber.mul
         (JSNumber.divLength (JSNumber.ofZ (Z.of_nat utilizedHighEnergy))
                             (List.length highEnergyData))
         (JSNumber.ofZ 100)
  else JSNumber.ofZ 50.

Definition calculateProductivityMetrics {StudyPlan : Type}
    (energyProfile : UserEnergyProfile.t)
    (recentFeedback : list SessionFeedback.t)
    (studyPlans : list StudyPlan) : ProductivityMetrics.t :=
  let recentData := sliceLast 14 (UserEnergyProfile.energyHistory energyProfile) in
  let focusScore :=
    if (0 <? Z.of_nat (List.length recentFeedback))
    then JSNumber.divLength
           (fold_left
              (fun sum f =>
                 JSNumber.add sum (JSNumber.ofZ (SessionFeedback.focusRating f * 20)))
              recentFeedback (JSNumber.ofZ 0))
           (List.length recentFeedback)
    else JSNumber.ofZ 50 in
  let completedSessions := List.length (filter isCompleted recentData) in
  let completionRate :=
    if (0 <? Z.of_nat (List.length recentData))
    then JSNumber.mul
           (JSNumber.divLength (JSNumber.ofZ (Z.of_nat completedSessions))
                               (List.length recentData))
           (JSNumber.ofZ 100)
    else JSNumber.ofZ 0 in
  let energyValues :=
    map (fun d => energyLevelToNumber (EnergyDataPoint.energyLevel d)) recentData in
  let avgEnergy :=
    JSNumber.divLength
      (fold_left (fun sum e => JSNumber.add sum (JSNumber.ofZ e))
                 energyValues (JSNumber.ofZ 0))
      (List.length energyValues) in
  let variance :=
    JSNumber.divLength
      (fold_left
         (fun sum e =>
            JSNumber.add sum (JSNumber.square (JSNumber.sub (JSNumber.ofZ e) avgEnergy)))
         energyValues (JSNumber.ofZ 0))
      (List.length energyValues) in
  let consistencyScore :=
    JSNumber.max (JSNumber.ofZ 0)
      (JSNumber.sub (JSNumber.ofZ 100) (JSNumber.mul variance (JSNumber.ofZ 20))) in
  let energyUtilization := calculateEnergyUtilization energyProfile recentData in
  {| ProductivityMetrics.focusScore := JSNumber.round focusScore;
     ProductivityMetrics.completionRate := JSNumber.round completionRate;
     ProductivityMetrics.consistencyScore := JSNumber.round consistencyScore;
     ProductivityMetrics.energyUtilization := JSNumber.round energyUtilization;
     ProductivityMetrics.adaptationSuccess := JSNumber.ofZ 75;
     ProductivityMetrics.streakQuality := JSNumber.ofZ 80;
     ProductivityMetrics.timeOptimization := JSNumber.ofZ 70 |}.

(** ** Notions used in the statements *)

(** The sample that [recordEnergyData] appends when the clock shows [stamp]. *)
Definition dataPointAt (stamp : Z) (energyLevel : EnergyLevel)
    (context : option EnergyContext.t) (productivity : option Q)
    (sessionCompleted : option bool) : EnergyDataPoint.t :=
  {| EnergyDataPoint.timestamp := stamp;
     EnergyDataPoint.energyLevel := energyLevel;
     EnergyDataPoint.context := context;
     EnergyDataPoint.productivity := productivity;
     EnergyDataPoint.sessionCompleted := sessionCompleted |}.

(** The arguments of one call of [recordEnergyData]. *)
Module Recording.
Record t : Type := mk {
  energyLevel : EnergyLevel;
  context : option EnergyContext.t;
  productivity : option Q;
  sessionCompleted : option bool
}.
End Recording.

(** Successive recordings, as the tracker component makes them: each call
    receives the profile that the call before it returned. *)
Fixpoint recordSequence (tz : TimeZone) (profile : UserEnergyProfile.t)
    (rs : list Recording.t) : Clk UserEnergyProfile.t :=
  match rs with
  | [] => ret profile
  | r :: rest =>
      profile' <- recordEnergyData tz profile
                    (Recording.energyLevel r) (Recording.context r)
                    (Recording.productivity r) (Recording.sessionCompleted r) ;;
      recordSequence tz profile' rest
  end.

(** The three [forEach] loops over the history share one shape: the entry
    of the key is created when absent and the stored object is then updated
    in place. *)
Definition upsert {V : Type} (m : JSMap.t V) (k : Z) (zero : V) (f : V -> V)
    : JSMap.t V :=
  let m1 := if negb (JSMap.has m k) then JSMap.set m k zero else m in
  match JSMap.get m1 k with
  | Some data => JSMap.set m1 k (f data)
  | None => m1
  end.

(** The value of an optional entry, with a default. *)
Definition valueOr {V : Type} (zero : V) (o : option V) : V :=
  match o with Some v => v | None => zero end.

(** The samples of a history that fall in a given hour of the day, and the
    averages over them that the selector's thresholds are about. *)
Definition samplesAt (tz : TimeZone) (hour : Z) (history : list EnergyDataPoint.t)
    : list EnergyDataPoint.t :=
  filter (fun p => getHours tz (EnergyDataPoint.timestamp p) =? hour) history.

Definition energyTotal (ps : list EnergyDataPoint.t) : Z :=
  fold_right Z.add 0
    (map (fun p => energyLevelToNumber (EnergyDataPoint.energyLevel p)) ps).

Definition countOf (ps : list EnergyDataPoint.t) : Z := Z.of_nat (List.length ps).

Definition averageEnergyAt (tz : TimeZone) (hour : Z)
    (history : list EnergyDataPoint.t) : Q :=
  ratio (energyTotal (samplesAt tz hour history)) (countOf (samplesAt tz hour history)).

(** Fraction of the samples of the hour whose session was completed. *)
Definition completionRateAt (tz : TimeZone) (hour : Z)
    (history : list EnergyDataPoint.t) : Q :=
  ratio (countOf (filter isCompleted (samplesAt tz hour history)))
        (countOf (samplesAt tz hour history)).

(** What the selector's map holds for an hour: nothing when the history has
    no sample in that hour, and otherwise the number of samples of the hour,
    the sum of their energy values and the number of completed ones. *)
Definition performanceAgrees (tz : TimeZone) (history : list EnergyDataPoint.t)
    (m : JSMap.t HourlyPerformance.t) : Prop :=
  forall k,
    match JSMap.get m k with
    | None => samplesAt tz k history = []
    | Some data =>
        samplesAt tz k history <> []
        /\ HourlyPerformance.count data = countOf (samplesAt tz k history)
        /\ HourlyPerformance.energySum data = energyTotal (samplesAt tz k history)
        /\ HourlyPerformance.completionRate data
           = countOf (filter isCompleted (samplesAt tz k history))
    end.

(** ** The four suggestion rules

    The samples stamped within the last 60 minutes before [now], and what
    each of the four rules contributes when its clock reading is [now]. *)

Definition recentAt (now : Z) (history : list EnergyDataPoint.t)
    : list EnergyDataPoint.t :=
  filter (fun point => now - oneHourMs <? EnergyDataPoint.timestamp point) history.

Definition lowEnergyRule (now : Z) (level : EnergyLevel) : list SmartSuggestion.t :=
  if EnergyLevel_eqb level VeryLow || EnergyLevel_eqb level Low
  then [lowEnergySuggestion now] else [].

Definition highEnergyRule (now : Z) (level : EnergyLevel) (tasks : list Task.t)
    : list SmartSuggestion.t :=
  if (EnergyLevel_eqb level High || EnergyLevel_eqb level VeryHigh)
     && (0 <? Z.of_nat (List.length (filter isDifficultTask tasks)))
  then [highEnergySuggestion now] else [].

Definition optimalTimeRule (now : Z) (currentHour : Z) (times : list TimeSlot.t)
    : list SmartSuggestion.t :=
  match find (fun slot => (TimeSlot.startHour slot <=? currentHour)
                          && (currentHour <? TimeSlot.endHour slot)) times with
  | Some _ => [optimalTimeSuggestion now]
  | None => []
  end.

(** The fourth rule on the list of recent samples that the filter returned. *)
Definition breakRuleOn (now : Z) (recentActivity : list EnergyDataPoint.t)
    : list SmartSuggestion.t :=
  if (4 <=? Z.of_nat (List.length recentActivity))
     && negb (existsb isLow recentActivity)
  then [breakSuggestion now] else [].

Definition breakRule (now : Z) (history : list EnergyDataPoint.t)
    : list SmartSuggestion.t :=
  breakRuleOn now (recentAt now history).

(** ** The peak hour and the morning range, in the specification's words *)

(** Following the specification's words: the key of an aggregate map whose
    average is maximal, a plain maximum by average over the entries in
    iteration order, in which a later entry replaces the best one only when
    its average is strictly greater, so that ties go to the entry seen
    first. *)
Definition maxByAverage {V : Type} (average : V -> Q) (entries : list (Z * V))
    : option Z :=
  match entries with
  | [] => None
  | (k0, d0) :: rest =>
      Some (fst (fold_left
                   (fun best '(k, d) =>
                      if Qgtb (average d) (snd best) then (k, average d) else best)
                   rest (k0, average d0)))
  end.

Definition hourlyAverage (data : HourlyData.t) : Q :=
  ratio (HourlyData.energySum data) (HourlyData.count data).

Definition weeklyAverage (data : WeeklyData.t) : Q :=
  ratio (WeeklyData.energySum data) (WeeklyData.count data).

(** Following the specification's words: the hour of the day that a label
    of the form H:00 stands for, read as a number. *)
Fixpoint beforeColon (s : string) : string :=
  match s with
  | EmptyString => EmptyString
  | String c r => if Ascii.eqb c ":"%char then EmptyString else String c (beforeColon r)
  end.

Definition hourOfLabel (label : string) : option Z :=
  match NilZero.uint_of_string (beforeColon label) with
  | Some u => Some (Z.of_uint u)
  | None => None
  end.

Definition hourBetween (lo hi : Z) (label : string) : bool :=
  match hourOfLabel label with
  | Some h => (lo <=? h) && (h <=? hi)
  | None => false
  end.

(** Following the specification's words: the morning energy is the sum of
    the average energy of the entries whose hour lies in 06:00 to 10:00,
    over the fixed divisor 4; the evening energy likewise over 18:00 to
    22:00. *)
Definition morningEnergyByHour (dailyPattern : EnergyPattern.t) : Q :=
  (sumAverageEnergy
     (filter (fun p => hourBetween 6 10 (PatternEntry.timeSlot p))
             (EnergyPattern.pattern dailyPattern)) / 4)%Q.

Definition eveningEnergyByHour (dailyPattern : EnergyPattern.t) : Q :=
  (sumAverageEnergy
     (filter (fun p => hourBetween 18 22 (PatternEntry.timeSlot p))
             (EnergyPattern.pattern dailyPattern)) / 4)%Q.

Definition personaByHour (energyProfile : UserEnergyProfile.t) : UserPersona.t :=
  match find isDaily (UserEnergyProfile.energyPatterns energyProfile) with
  | None => inconsistentPersona
  | Some dailyPattern =>
      let morningEnergy := morningEnergyByHour dailyPattern in
      let eveningEnergy := eveningEnergyByHour dailyPattern in
      if Qgtb morningEnergy (eveningEnergy + (1 # 2))
      then earlyBirdPersona
      else if Qgtb eveningEnergy (morningEnergy + (1 # 2))
      then nightOwlPersona
      else flexiblePersona
  end.

(** ** Sample inputs *)

Definition samplePoint (t : Z) (level : EnergyLevel) (completed : option bool)
    : EnergyDataPoint.t :=
  {| EnergyDataPoint.timestamp := t;
     EnergyDataPoint.energyLevel := level;
     EnergyDataPoint.context := None;
     EnergyDataPoint.productivity := None;
     EnergyDataPoint.sessionCompleted := completed |}.

(** Six samples at nine in the morning, UTC. *)
Definition sixSamples : list EnergyDataPoint.t :=
  repeat (samplePoint (9 * msPerHour) High (Some true)) 6.

(** Seven completed samples at nine in the morning, UTC, all at level high,
    and the slot that the selector returns for them. *)
Definition sevenSamples : list EnergyDataPoint.t :=
  repeat (samplePoint (9 * msPerHour) High (Some true)) 7.

Definition nineOClockSlot : TimeSlot.t :=
  {| TimeSlot.startHour := 9;
     TimeSlot.endHour := 10;
     TimeSlot.energyLevel := 28 # 7;
     TimeSlot.suitabilityScores :=
       {| SuitabilityScores.reading := 560 # 7;
          SuitabilityScores.writing := 100;
          SuitabilityScores.problemSolving := 100;
          SuitabilityScores.creative := 100;
          SuitabilityScores.review := 420 # 7 |} |}.

Definition profileWithPatterns (patterns : list EnergyPattern.t)
    : UserEnergyProfile.t :=
  {| UserEnergyProfile.currentEnergyLevel := Medium;
     UserEnergyProfile.energyHistory := [];
     UserEnergyProfile.optimalStudyTimes := [];
     UserEnergyProfile.energyPatterns := patterns;
     UserEnergyProfile.lastUpdated := 0;
     UserEnergyProfile.adaptivePreferences := defaultAdaptivePreferences |}.

Definition weeklyOnly : list EnergyPattern.t :=
  [ {| EnergyPattern.type := Weekly;
       EnergyPattern.pattern :=
         [ {| PatternEntry.timeSlot := "Monday";
              PatternEntry.averageEnergy := 4;
              PatternEntry.confidence := 1 |} ];
       EnergyPattern.recommendations := [] |} ].

Definition thirtyOneDaysMs : Z := 31 * 24 * 60 * 60 * 1000.

(** A clock that advances by one millisecond per reading and jumps ahead by
    31 days at its [k0]-th reading. *)
Definition jumpClock (k0 : nat) : Clock :=
  fun k => if (k <? k0)%nat then Z.of_nat k else thirtyOneDaysMs + Z.of_nat k.

Definition twoRecordings : list Recording.t :=
  [ Recording.mk High None None (Some true);
    Recording.mk Low None (Some 6%Q) None ].

(** A profile whose only sample was stamped at the epoch. *)
Definition epochSample : EnergyDataPoint.t := samplePoint 0 Medium None.

Definition epochProfile : UserEnergyProfile.t :=
  {| UserEnergyProfile.currentEnergyLevel := Medium;
     UserEnergyProfile.energyHistory := [epochSample];
     UserEnergyProfile.optimalStudyTimes := [];
     UserEnergyProfile.energyPatterns := [];
     UserEnergyProfile.lastUpdated := 0;
     UserEnergyProfile.adaptivePreferences := defaultAdaptivePreferences |}.

(** An instant in November 2023. *)
Definition t0 : Z := 1700000000000.

Definition contextAt (now : Z) : RealTimeContext.t :=
  {| RealTimeContext.currentTime := now;
     RealTimeContext.dayOfWeek := getDay UTC now;
     RealTimeContext.userPresence := PresenceActive;
     RealTimeContext.deviceType := Desktop;
     RealTimeContext.networkStatus := Online;
     RealTimeContext.batteryLevel := None;
     RealTimeContext.ambientLight := None;
     RealTimeContext.locationContext := None |}.

(** A user at level very-low, without optimal study times and with an
    empty history. *)
Definition quietProfile : UserEnergyProfile.t :=
  {| UserEnergyProfile.currentEnergyLevel := VeryLow;
     UserEnergyProfile.energyHistory := [];
     UserEnergyProfile.optimalStudyTimes := [];
     UserEnergyProfile.energyPatterns := [];
     UserEnergyProfile.lastUpdated := t0;
     UserEnergyProfile.adaptivePreferences := defaultAdaptivePreferences |}.

Definition quietExperience : RealTimeUserExperience.t :=
  {| RealTimeUserExperience.energyProfile := quietProfile;
     RealTimeUserExperience.currentContext := contextAt t0 |}.

(** The same user after four samples at level medium recorded at the
    instant [t0]. *)
Definition busyProfile : UserEnergyProfile.t :=
  {| UserEnergyProfile.currentEnergyLevel := VeryLow;
     UserEnergyProfile.energyHistory := repeat (samplePoint t0 Medium None) 4;
     UserEnergyProfile.optimalStudyTimes := [];
     UserEnergyProfile.energyPatterns := [];
     UserEnergyProfile.lastUpdated := t0;
     UserEnergyProfile.adaptivePreferences := defaultAdaptivePreferences |}.

Definition busyExperience : RealTimeUserExperience.t :=
  {| RealTimeUserExperience.energyProfile := busyProfile;
     RealTimeUserExperience.currentContext := contextAt t0 |}.

(** A user who recorded four samples at level very-low at the instant [t0]. *)
Definition fourVeryLowProfile : UserEnergyProfile.t :=
  {| UserEnergyProfile.currentEnergyLevel := Medium;
     UserEnergyProfile.energyHistory := repeat (samplePoint t0 VeryLow None) 4;
     UserEnergyProfile.optimalStudyTimes := [];
     UserEnergyProfile.energyPatterns := [];
     UserEnergyProfile.lastUpdated := t0;
     UserEnergyProfile.adaptivePreferences := defaultAdaptivePreferences |}.

Definition fourVeryLowExperience : RealTimeUserExperience.t :=
  {| RealTimeUserExperience.energyProfile := fourVeryLowProfile;
     RealTimeUserExperience.currentContext := contextAt t0 |}.

(** One sample at level very-high on Thursday 1 January 1970 at 09:00 UTC,
    then six samples at level very-low on the Friday at 14:00 UTC. *)
Definition peakHistory : list EnergyDataPoint.t :=
  samplePoint (9 * msPerHour) VeryHigh None
  :: repeat (samplePoint (msPerDay + 14 * msPerHour) VeryLow None) 6.

(** Seven samples at level very-high at 09:00 UTC, and the profile that
    holds the patterns the analyzer derives from them. *)
Definition morningHistory : list EnergyDataPoint.t :=
  repeat (samplePoint (9 * msPerHour) VeryHigh None) 7.

Definition morningProfile : UserEnergyProfile.t :=
  profileWithPatterns (analyzePatternsFromHistory UTC morningHistory).

Definition hoursOfDay : list Z := map Z.of_nat (seq 0 24).

(** ** The analyzer's patterns, stated on the history *)

(** The keys of a list in the order of their first occurrence. *)
Definition firstSeen (keys : list Z) : list Z :=
  fold_left (fun seen k => if existsb (Z.eqb k) seen then seen else seen ++ [k])
            keys [].

Definition hourOf (tz : TimeZone) (p : EnergyDataPoint.t) : Z :=
  getHours tz (EnergyDataPoint.timestamp p).

Definition dayOf (tz : TimeZone) (p : EnergyDataPoint.t) : Z :=
  getDay tz (EnergyDataPoint.timestamp p).

(** The samples of a history that fall on a given day of the week. *)
Definition samplesOn (tz : TimeZone) (day : Z) (history : list EnergyDataPoint.t)
    : list EnergyDataPoint.t :=
  filter (fun p => getDay tz (EnergyDataPoint.timestamp p) =? day) history.

(** The value of an aggregate after the updates of a list of samples. *)
Definition aggregate {V : Type} (zero : V) (upd : EnergyDataPoint.t -> V -> V)
    (ps : list EnergyDataPoint.t) : V :=
  fold_left (fun d p => upd p d) ps zero.

(** The entry of the daily pattern for an hour: the mean energy value of the
    samples of that hour and the confidence their number gives. *)
Definition dailyEntryAt (tz : TimeZone) (history : list EnergyDataPoint.t)
    (hour : Z) : PatternEntry.t :=
  {| PatternEntry.timeSlot := (showZ hour ++ ":00")%string;
     PatternEntry.averageEnergy :=
       ratio (energyTotal (samplesAt tz hour history))
             (countOf (samplesAt tz hour history));
     PatternEntry.confidence :=
       Qmin (inject_Z (countOf (samplesAt tz hour history)) / 7) 1 |}.

Definition weeklyEntryOn (tz : TimeZone) (history : list EnergyDataPoint.t)
    (day : Z) : PatternEntry.t :=
  {| PatternEntry.timeSlot := getDayName day;
     PatternEntry.averageEnergy :=
       ratio (energyTotal (samplesOn tz day history))
             (countOf (samplesOn tz day history));
     PatternEntry.confidence :=
       Qmin (inject_Z (countOf (samplesOn tz day history)) / 4) 1 |}.

(** The daily pattern that the analyzer derives from [sevenSamples]. *)
Definition sevenSamplesDaily : EnergyPattern.t :=
  hd {| EnergyPattern.type := Monthly;
        EnergyPattern.pattern := [];
        EnergyPattern.recommendations := [] |}
     (analyzePatternsFromHistory UTC sevenSamples).

(** The order of the selector's result: a slot comes before the slots of
    lower or equal energy level. *)
Definition byEnergyDescending (a b : TimeSlot.t) : Prop :=
  (TimeSlot.energyLevel b <= TimeSlot.energyLevel a)%Q.

(** ** Scores *)

(** A score: an integer between 0 and 100. *)
Definition isScore (x : JSNumber.t) : Prop :=
  exists z, x = JSNumber.ofZ z /\ 0 <= z <= 100.

Definition sumQ (l : list Q) : Q := fold_right Qplus 0%Q l.

(** A profile with another history. *)
Definition withHistory (p : UserEnergyProfile.t) (history : list EnergyDataPoint.t)
    : UserEnergyProfile.t :=
  {| UserEnergyProfile.currentEnergyLevel := UserEnergyProfile.currentEnergyLevel p;
     UserEnergyProfile.energyHistory := history;
     UserEnergyProfile.optimalStudyTimes := UserEnergyProfile.optimalStudyTimes p;
     UserEnergyProfile.energyPatterns := UserEnergyProfile.energyPatterns p;
     UserEnergyProfile.lastUpdated := UserEnergyProfile.lastUpdated p;
     UserEnergyProfile.adaptivePreferences := UserEnergyProfile.adaptivePreferences p |}.

(** A feedback entry with the given focus rating. *)
Definition feedbackWithFocus (rating : Z) : SessionFeedback.t :=
  {| SessionFeedback.sessionId := "s1";
     SessionFeedback.timestamp := 0;
     SessionFeedback.difficultyRating := 3;
     SessionFeedback.energyBefore := 3;
     SessionFeedback.energyAfter := 3;
     SessionFeedback.focusRating := rating;
     SessionFeedback.environmentRating := 3;
     SessionFeedback.satisfaction := 3;
     SessionFeedback.distractions := [];
     SessionFeedback.notes := None;
     SessionFeedback.recommendNextSession := None |}.

(** A profile that holds [sevenSamples] as its history. *)
Definition sevenSamplesProfile : UserEnergyProfile.t :=
  withHistory (profileWithPatterns []) sevenSamples.

(** Fourteen completed samples, preceded by three older ones that were not
    completed. *)
Definition fourteenCompleted : list EnergyDataPoint.t :=
  repeat (samplePoint (9 * msPerHour) High (Some true)) 14.

Definition threeOlder : list EnergyDataPoint.t :=
  repeat (samplePoint 0 VeryLow (Some false)) 3.

(** Chronological order of a history. *)
Definition chronological (a b : EnergyDataPoint.t) : Prop :=
  EnergyDataPoint.timestamp a <= EnergyDataPoint.timestamp b.

(** A clock that advances by one second per reading. *)
Definition tickingClock : Clock := fun k => t0 + 1000 * Z.of_nat k.




(** * Context provider ([components/RealTimeContextProvider.tsx])

    The provider keeps its state in React state cells and changes it in
    callbacks, timers and effects.  Each of these is a transition of the
    state record below; a functional update [setX(prev => ...)] is the
    function applied to the cell.  The callback properties [onSuggestion]
    and [onContextChange], which hand values to the parent component and do
    not touch the state, are left out. *)

(** ** A stable sort with a comparator

    [Array.prototype.sort] is stable; [before x y] says that the comparator
    does not put [y] in front of [x], that is [compare(x, y) <= 0]. *)
Section StableSort.
Context {A : Type}.
Variable before : A -> A -> bool.

Fixpoint insertBy (x : A) (l : list A) : list A :=
  match l with
  | [] => [x]
  | y :: r => if before x y then x :: y :: r else y :: insertBy x r
  end.

Definition sortBy (l : list A) : list A := fold_right insertBy [] l.
End StableSort.

(** ** Suggestions of the provider *)

(** What a callback of a suggestion does when it is invoked: the provider's
    closures call [startSession], [endSession] and
    [dismissSuggestion(`prefix${Date.now()}`)], where the clock is read when
    the callback runs. *)
Inductive Action : Type :=
  | StartSession
  | EndSession
  | DismissStamped (prefix : string).

(** The interface [SmartSuggestion], with an expiry in epoch milliseconds
    and the callbacks as the actions they perform, in order. *)
Module ProviderSuggestion.
Record t : Type := mk {
  id : string;
  type : SuggestionType;
  priority : Priority;
  title : string;
  description : string;
  actionText : string;
  onAccept : list Action;
  onDismiss : list Action;
  expiresAt : option Z;
  icon : string;
  category : Category
}.
End ProviderSuggestion.

Definition priorityOrder (p : Priority) : Z :=
  match p with
  | PriorityCritical => 4
  | PriorityHigh => 3
  | PriorityMedium => 2
  | PriorityLow => 1
  end.

(** The comparator [(a, b) => priorityOrder[b.priority] - priorityOrder[a.priority]]. *)
Definition priorityBefore (a b : ProviderSuggestion.t) : bool :=
  priorityOrder (ProviderSuggestion.priority b)
  - priorityOrder (ProviderSuggestion.priority a) <=? 0.

Definition hasId (id : string) (s : ProviderSuggestion.t) : bool :=
  String.eqb (ProviderSuggestion.id s) id.

(** The state update of [addSuggestion]. *)
Definition addToSuggestions (suggestion : ProviderSuggestion.t)
    (prev : list ProviderSuggestion.t) : list ProviderSuggestion.t :=
  if existsb (hasId (ProviderSuggestion.id suggestion)) prev then prev
  else
    let newSuggestions := sortBy priorityBefore (prev ++ [suggestion]) in
    firstn 5 newSuggestions.

(** The state update of [dismissSuggestion]. *)
Definition removeSuggestion (id : string) (prev : list ProviderSuggestion.t)
    : list ProviderSuggestion.t :=
  filter (fun s => negb (hasId id s)) prev.

(** The state update of the clean-up timer: a suggestion stays when it has
    no expiry or expires after [now]. *)
Definition dropExpired (now : Z) (prev : list ProviderSuggestion.t)
    : list ProviderSuggestion.t :=
  filter (fun s => match ProviderSuggestion.expiresAt s with
                   | None => true
                   | Some t => now <? t
                   end) prev.

(** ** State of the provider *)

Module ProviderState.
Record t : Type := mk {
  context : RealTimeContext.t;
  isUserActive : bool;
  idleTime : Z;
  sessionDuration : Z;
  isInSession : bool;
  suggestions : list ProviderSuggestion.t;
  lastActivity : Z
}.
End ProviderState.

(** What the browser reports: [navigator.userAgent] and [navigator.onLine]. *)
Module Host.
Record t : Type := mk {
  userAgent : string;
  onLine : bool
}.
End Host.

(** [needle] occurs in [hay]: the test of a regular expression that is an
    alternative of literal words. *)
Definition occursIn (needle hay : string) : bool :=
  match String.index 0 needle hay with
  | Some _ => true
  | None => false
  end.

(** [getCurrentContext] of [utils/energy-management.ts]. *)
Definition getCurrentContext (tz : TimeZone) (host : Host.t) : Clk RealTimeContext.t :=
  currentTime <- Date_now ;;
  today <- Date_now ;;
  ret {| RealTimeContext.currentTime := currentTime;
         RealTimeContext.dayOfWeek := getDay tz today;
         RealTimeContext.userPresence := PresenceActive;
         RealTimeContext.deviceType :=
           if occursIn "Mobile" (Host.userAgent host)
              || occursIn "Tablet" (Host.userAgent host)
           then Mobile else Desktop;
         RealTimeContext.networkStatus :=
           if Host.onLine host then Online else Offline;
         RealTimeContext.batteryLevel := None;
         RealTimeContext.ambientLight := None;
         RealTimeContext.locationContext := None |}.

(** [{ ...prev, userPresence }], [{ ...prev, networkStatus }] and
    [{ ...prev, batteryLevel }]. *)
Definition withPresence (prev : RealTimeContext.t) (presence : UserPresence)
    : RealTimeContext.t :=
  {| RealTimeContext.currentTime := RealTimeContext.currentTime prev;
     RealTimeContext.dayOfWeek := RealTimeContext.dayOfWeek prev;
     RealTimeContext.userPresence := presence;
     RealTimeContext.deviceType := RealTimeContext.deviceType prev;
     RealTimeContext.networkStatus := RealTimeContext.networkStatus prev;
     RealTimeContext.batteryLevel := RealTimeContext.batteryLevel prev;
     RealTimeContext.ambientLight := RealTimeContext.ambientLight prev;
     RealTimeContext.locationContext := RealTimeContext.locationContext prev |}.

Definition withNetwork (prev : RealTimeContext.t) (status : NetworkStatus)
    : RealTimeContext.t :=
  {| RealTimeContext.currentTime := RealTimeContext.currentTime prev;
     RealTimeContext.dayOfWeek := RealTimeContext.dayOfWeek prev;
     RealTimeContext.userPresence := RealTimeContext.userPresence prev;
     RealTimeContext.deviceType := RealTimeContext.deviceType prev;
     RealTimeContext.networkStatus := status;
     RealTimeContext.batteryLevel := RealTimeContext.batteryLevel prev;
     RealTimeContext.ambientLight := RealTimeContext.ambientLight prev;
     RealTimeContext.locationContext := RealTimeContext.locationContext prev |}.

Definition withBattery (prev : RealTimeContext.t) (level : Q) : RealTimeContext.t :=
  {| RealTimeContext.currentTime := RealTimeContext.currentTime prev;
     RealTimeContext.dayOfWeek := RealTimeContext.dayOfWeek prev;
     RealTimeContext.userPresence := RealTimeContext.userPresence prev;
     RealTimeContext.deviceType := RealTimeContext.deviceType prev;
     RealTimeContext.networkStatus := RealTimeContext.networkStatus prev;
     RealTimeContext.batteryLevel := Some level;
     RealTimeContext.ambientLight := RealTimeContext.ambientLight prev;
     RealTimeContext.locationContext := RealTimeContext.locationContext prev |}.

(** Updates of single cells of the state. *)
Definition setContext (f : RealTimeContext.t -> RealTimeContext.t)
    (st : ProviderState.t) : ProviderState.t :=
  {| ProviderState.context := f (ProviderState.context st);
     ProviderState.isUserActive := ProviderState.isUserActive st;
     ProviderState.idleTime := ProviderState.idleTime st;
     ProviderState.sessionDuration := ProviderState.sessionDuration st;
     ProviderState.isInSession := ProviderState.isInSession st;
     ProviderState.suggestions := ProviderState.suggestions st;
     ProviderState.lastActivity := ProviderState.lastActivity st |}.

Definition setIsUserActive (b : bool) (st : ProviderState.t) : ProviderState.t :=
  {| ProviderState.context := ProviderState.context st;
     ProviderState.isUserActive := b;
     ProviderState.idleTime := ProviderState.idleTime st;
     ProviderState.sessionDuration := ProviderState.sessionDuration st;
     ProviderState.isInSession := ProviderState.isInSession st;
     ProviderState.suggestions := ProviderState.suggestions st;
     ProviderState.lastActivity := ProviderState.lastActivity st |}.

Definition setIdleTime (minutes : Z) (st : ProviderState.t) : ProviderState.t :=
  {| ProviderState.context := ProviderState.context st;
     ProviderState.isUserActive := ProviderState.isUserActive st;
     ProviderState.idleTime := minutes;
     ProviderState.sessionDuration := ProviderState.sessionDuration st;
     ProviderState.isInSession := ProviderState.isInSession st;
     ProviderState.suggestions := ProviderState.suggestions st;
     ProviderState.lastActivity := ProviderState.lastActivity st |}.

Definition setSessionDuration (f : Z -> Z) (st : ProviderState.t) : ProviderState.t :=
  {| ProviderState.context := ProviderState.context st;
     ProviderState.isUserActive := ProviderState.isUserActive st;
     ProviderState.idleTime := ProviderState.idleTime st;
     ProviderState.sessionDuration := f (ProviderState.sessionDuration st);
     ProviderState.isInSession := ProviderState.isInSession st;
     ProviderState.suggestions := ProviderState.suggestions st;
     ProviderState.lastActivity := ProviderState.lastActivity st |}.

Definition setIsInSession (b : bool) (st : ProviderState.t) : ProviderState.t :=
  {| ProviderState.context := ProviderState.context st;
     ProviderState.isUserActive := ProviderState.isUserActive st;
     ProviderState.idleTime := ProviderState.idleTime st;
     ProviderState.sessionDuration := ProviderState.sessionDuration st;
     ProviderState.isInSession := b;
     ProviderState.suggestions := ProviderState.suggestions st;
     ProviderState.lastActivity := ProviderState.lastActivity st |}.

Definition setSuggestions
    (f : list ProviderSuggestion.t -> list ProviderSuggestion.t)
    (st : ProviderState.t) : ProviderState.t :=
  {| ProviderState.context := ProviderState.context st;
     ProviderState.isUserActive := ProviderState.isUserActive st;
     ProviderState.idleTime := ProviderState.idleTime st;
     ProviderState.sessionDuration := ProviderState.sessionDuration st;
     ProviderState.isInSession := ProviderState.isInSession st;
     ProviderState.suggestions := f (ProviderState.suggestions st);
     ProviderState.lastActivity := ProviderState.lastActivity st |}.

Definition setLastActivity (t : Z) (st : ProviderState.t) : ProviderState.t :=
  {| ProviderState.context := ProviderState.context st;
     ProviderState.isUserActive := ProviderState.isUserActive st;
     ProviderState.idleTime := ProviderState.idleTime st;
     ProviderState.sessionDuration := ProviderState.sessionDuration st;
     ProviderState.isInSession := ProviderState.isInSession st;
     ProviderState.suggestions := ProviderState.suggestions st;
     ProviderState.lastActivity := t |}.

(** The state of the first render. *)
Definition initialProviderState (tz : TimeZone) (host : Host.t) : Clk ProviderState.t :=
  context <- getCurrentContext tz host ;;
  lastActivity <- Date_now ;;
  ret {| ProviderState.context := context;
         ProviderState.isUserActive := true;
         ProviderState.idleTime := 0;
         ProviderState.sessionDuration := 0;
         ProviderState.isInSession := false;
         ProviderState.suggestions := [];
         ProviderState.lastActivity := lastActivity |}.

(** ** Actions of the provider *)

Definition recordActivity (st : ProviderState.t) : Clk ProviderState.t :=
  now <- Date_now ;;
  ret (setIdleTime 0 (setIsUserActive true (setLastActivity now st))).

Definition startSession (st : ProviderState.t) : Clk ProviderState.t :=
  recordActivity (setSessionDuration (fun _ => 0) (setIsInSession true st)).

Definition endSession (st : ProviderState.t) : ProviderState.t :=
  setSessionDuration (fun _ => 0) (setIsInSession false st).

Definition addSuggestion (suggestion : ProviderSuggestion.t) (st : ProviderState.t)
    : ProviderState.t :=
  setSuggestions (addToSuggestions suggestion) st.

Definition dismissSuggestion (id : string) (st : ProviderState.t) : ProviderState.t :=
  setSuggestions (removeSuggestion id) st.

(** Running a callback of a suggestion. *)
Definition runAction (a : Action) (st : ProviderState.t) : Clk ProviderState.t :=
  match a with
  | StartSession => startSession st
  | EndSession => ret (endSession st)
  | DismissStamped prefix =>
      now <- Date_now ;;
      ret (dismissSuggestion (prefix ++ showZ now)%string st)
  end.

Fixpoint runCallback (actions : list Action) (st : ProviderState.t)
    : Clk ProviderState.t :=
  match actions with
  | [] => ret st
  | a :: rest => st' <- runAction a st ;; runCallback rest st'
  end.

(** ** Timers and effects of the provider *)

(** The minute timer that refreshes the context. *)
Definition contextTick (tz : TimeZone) (host : Host.t) (st : ProviderState.t)
    : Clk ProviderState.t :=
  newContext <- getCurrentContext tz host ;;
  ret (setContext (fun _ => newContext) st).

Definition msPerMinute : Z := 60000.

(** The ten-second timer that tracks idle time. *)
Definition idleTick (st : ProviderState.t) : Clk ProviderState.t :=
  now <- Date_now ;;
  let timeSinceActivity := now - ProviderState.lastActivity st in
  let idleMinutes := timeSinceActivity / msPerMinute in
  let st1 := setIdleTime idleMinutes st in
  ret (if 5 <? idleMinutes
       then setContext (fun prev => withPresence prev PresenceIdle)
              (setIsUserActive false st1)
       else if 15 <? idleMinutes
       then setContext (fun prev => withPresence prev PresenceAway) st1
       else setContext (fun prev => withPresence prev PresenceActive) st1).

(** The minute timer that runs while a session is on. *)
Definition sessionTick (st : ProviderState.t) : ProviderState.t :=
  if ProviderState.isInSession st
  then setSessionDuration (fun prev => prev + 1) st
  else st.

(** The minute timer that removes expired suggestions. *)
Definition cleanupTick (st : ProviderState.t) : Clk ProviderState.t :=
  now <- Date_now ;;
  ret (setSuggestions (dropExpired now) st).

Definition tenMinutesMs : Z := 10 * 60 * 1000.

Definition idleSuggestion (now expires : Z) : ProviderSuggestion.t :=
  {| ProviderSuggestion.id := ("idle-suggest-" ++ showZ now)%string;
     ProviderSuggestion.type := ContextBased;
     ProviderSuggestion.priority := PriorityLow;
     ProviderSuggestion.title := "Ready to start studying?";
     ProviderSuggestion.description :=
       "You've been active but not studying. Perfect time to begin a session!";
     ProviderSuggestion.actionText := "Start Session";
     ProviderSuggestion.onAccept := [StartSession; DismissStamped "idle-suggest-"];
     ProviderSuggestion.onDismiss := [DismissStamped "idle-suggest-"];
     ProviderSuggestion.expiresAt := Some expires;
     ProviderSuggestion.icon := "📚";
     ProviderSuggestion.category := CatSession |}.

Definition sessionBreakSuggestion (now sessionDuration : Z) : ProviderSuggestion.t :=
  {| ProviderSuggestion.id := ("break-suggest-" ++ showZ now)%string;
     ProviderSuggestion.type := ContextBased;
     ProviderSuggestion.priority := PriorityMedium;
     ProviderSuggestion.title := "Time for a break?";
     ProviderSuggestion.description :=
       ("You've been studying for " ++ showZ sessionDuration
        ++ " minutes. Consider taking a short break.")%string;
     ProviderSuggestion.actionText := "Take Break";
     ProviderSuggestion.onAccept := [EndSession; DismissStamped "break-suggest-"];
     ProviderSuggestion.onDismiss := [DismissStamped "break-suggest-"];
     ProviderSuggestion.expiresAt := None;
     ProviderSuggestion.icon := "☕";
     ProviderSuggestion.category := CatBreak |}.

Definition idleEndSuggestion (now : Z) : ProviderSuggestion.t :=
  {| ProviderSuggestion.id := ("idle-end-" ++ showZ now)%string;
     ProviderSuggestion.type := ContextBased;
     ProviderSuggestion.priority := PriorityHigh;
     ProviderSuggestion.title := "Still studying?";
     ProviderSuggestion.description :=
       "You seem to be away. Would you like to end this session?";
     ProviderSuggestion.actionText := "End Session";
     ProviderSuggestion.onAccept := [EndSession; DismissStamped "idle-end-"];
     ProviderSuggestion.onDismiss := [DismissStamped "idle-end-"];
     ProviderSuggestion.expiresAt := None;
     ProviderSuggestion.icon := "💤";
     ProviderSuggestion.category := CatSession |}.

Definition batteryLowSuggestion (now : Z) : ProviderSuggestion.t :=
  {| ProviderSuggestion.id := ("battery-low-" ++ showZ now)%string;
     ProviderSuggestion.type := ContextBased;
     ProviderSuggestion.priority := PriorityHigh;
     ProviderSuggestion.title := "Low Battery Detected";
     ProviderSuggestion.description :=
       "Your device battery is low. Consider shorter sessions or finding a charger.";
     ProviderSuggestion.actionText := "Got it";
     ProviderSuggestion.onAccept := [DismissStamped "battery-low-"];
     ProviderSuggestion.onDismiss := [DismissStamped "battery-low-"];
     ProviderSuggestion.expiresAt := None;
     ProviderSuggestion.icon := "🔋";
     ProviderSuggestion.category := CatSession |}.

Definition offlineSuggestion (now : Z) : ProviderSuggestion.t :=
  {| ProviderSuggestion.id := ("offline-" ++ showZ now)%string;
     ProviderSuggestion.type := ContextBased;
     ProviderSuggestion.priority := PriorityMedium;
     ProviderSuggestion.title := "You're offline";
     ProviderSuggestion.description :=
       "No internet connection. Focus on offline tasks or review materials.";
     ProviderSuggestion.actionText := "Continue offline";
     ProviderSuggestion.onAccept := [DismissStamped "offline-"];
     ProviderSuggestion.onDismiss := [DismissStamped "offline-"];
     ProviderSuggestion.expiresAt := None;
     ProviderSuggestion.icon := "📡";
     ProviderSuggestion.category := CatSession |}.

Definition lateNightSuggestion (now : Z) : ProviderSuggestion.t :=
  {| ProviderSuggestion.id := ("late-night-" ++ showZ now)%string;
     ProviderSuggestion.type := ContextBased;
     ProviderSuggestion.priority := PriorityMedium;
     ProviderSuggestion.title := "It's getting late";
     ProviderSuggestion.description :=
       "Consider wrapping up for better sleep and tomorrow's productivity.";
     ProviderSuggestion.actionText := "Finish up";
     ProviderSuggestion.onAccept := [EndSession; DismissStamped "late-night-"];
     ProviderSuggestion.onDismiss := [DismissStamped "late-night-"];
     ProviderSuggestion.expiresAt := None;
     ProviderSuggestion.icon := "🌙";
     ProviderSuggestion.category := CatSession |}.

Definition mealTimeSuggestion (now : Z) : ProviderSuggestion.t :=
  {| ProviderSuggestion.id := ("meal-time-" ++ showZ now)%string;
     ProviderSuggestion.type := ContextBased;
     ProviderSuggestion.priority := PriorityLow;
     ProviderSuggestion.title := "Meal time!";
     ProviderSuggestion.description :=
       "Don't forget to eat. Proper nutrition helps maintain energy levels.";
     ProviderSuggestion.actionText := "Take break";
     ProviderSuggestion.onAccept := [DismissStamped "meal-time-"];
     ProviderSuggestion.onDismiss := [DismissStamped "meal-time-"];
     ProviderSuggestion.expiresAt := None;
     ProviderSuggestion.icon := "🍽️";
     ProviderSuggestion.category := CatBreak |}.

(** The effect that offers suggestions from the activity and session
    state.  The three tests read the values of the render in which the
    effect was created. *)
Definition contextualEffect (st : ProviderState.t) : Clk ProviderState.t :=
  let isUserActive := ProviderState.isUserActive st in
  let isInSession := ProviderState.isInSession st in
  let idleTime := ProviderState.idleTime st in
  let sessionDuration := ProviderState.sessionDuration st in
  st1 <-
    (if isUserActive && negb isInSession
     then
       if (2 <=? idleTime) && (idleTime <? 5)
       then
         now <- Date_now ;;
         later <- Date_now ;;
         ret (addSuggestion (idleSuggestion now (later + tenMinutesMs)) st)
       else ret st
     else ret st) ;;
  st2 <-
    (if isInSession && (45 <=? sessionDuration)
     then
       now <- Date_now ;;
       ret (addSuggestion (sessionBreakSuggestion now sessionDuration) st1)
     else ret st1) ;;
  (if isInSession && negb isUserActive
   then
     now <- Date_now ;;
     ret (addSuggestion (idleEndSuggestion now) st2)
   else ret st2).

(** [Math.round] of a finite number. *)
Definition roundQ (q : Q) : Z := Qfloor (q + (1 # 2)).

(** The handler of the battery level, with the level that the battery
    reports, between 0 and 1. *)
Definition updateBatteryInfo (level : Q) (st : ProviderState.t) : Clk ProviderState.t :=
  let st1 :=
    setContext (fun prev => withBattery prev (inject_Z (roundQ (level * 100)))) st in
  if Qle_bool (2 # 10) level then ret st1
  else
    now <- Date_now ;;
    ret (addSuggestion (batteryLowSuggestion now) st1).

(** The handler of the [online] and [offline] events. *)
Definition updateOnlineStatus (host : Host.t) (st : ProviderState.t)
    : Clk ProviderState.t :=
  let st1 :=
    setContext (fun prev =>
                  withNetwork prev (if Host.onLine host then Online else Offline))
               st in
  if negb (Host.onLine host)
  then
    now <- Date_now ;;
    ret (addSuggestion (offlineSuggestion now) st1)
  else ret st1.

(** The half-hour timer of the suggestions that depend on the time of day. *)
Definition timeBasedTick (tz : TimeZone) (st : ProviderState.t) : Clk ProviderState.t :=
  date <- Date_now ;;
  let currentHour := getHours tz date in
  st1 <-
    (if (23 <=? currentHour) || (currentHour <=? 5)
     then
       now <- Date_now ;;
       ret (addSuggestion (lateNightSuggestion now) st)
     else ret st) ;;
  (if existsb (Z.eqb currentHour) [12; 18]
   then
     now <- Date_now ;;
     ret (addSuggestion (mealTimeSuggestion now) st1)
   else ret st1).

(** ** Runs of the provider

    What can happen to a mounted provider, one event at a time. *)
Inductive ProviderEvent : Type :=
  | EvActivity
  | EvStartSession
  | EvEndSession
  | EvAddSuggestion (suggestion : ProviderSuggestion.t)
  | EvDismissSuggestion (id : string)
  | EvAccept (suggestion : ProviderSuggestion.t)
  | EvDismiss (suggestion : ProviderSuggestion.t)
  | EvContextTick (host : Host.t)
  | EvIdleTick
  | EvSessionTick
  | EvCleanupTick
  | EvContextualEffect
  | EvBattery (level : Q)
  | EvNetwork (host : Host.t)
  | EvTimeTick.

Definition handleEvent (tz : TimeZone) (e : ProviderEvent) (st : ProviderState.t)
    : Clk ProviderState.t :=
  match e with
  | EvActivity => recordActivity st
  | EvStartSession => startSession st
  | EvEndSession => ret (endSession st)
  | EvAddSuggestion suggestion => ret (addSuggestion suggestion st)
  | EvDismissSuggestion id => ret (dismissSuggestion id st)
  | EvAccept suggestion => runCallback (ProviderSuggestion.onAccept suggestion) st
  | EvDismiss suggestion => runCallback (ProviderSuggestion.onDismiss suggestion) st
  | EvContextTick host => contextTick tz host st
  | EvIdleTick => idleTick st
  | EvSessionTick => ret (sessionTick st)
  | EvCleanupTick => cleanupTick st
  | EvContextualEffect => contextualEffect st
  | EvBattery level => updateBatteryInfo level st
  | EvNetwork host => updateOnlineStatus host st
  | EvTimeTick => timeBasedTick tz st
  end.

Fixpoint runProvider (tz : TimeZone) (events : list ProviderEvent)
    (st : ProviderState.t) : Clk ProviderState.t :=
  match events with
  | [] => ret st
  | e :: rest => st' <- handleEvent tz e st ;; runProvider tz rest st'
  end.

(** A provider from its first render through a list of events. *)
Definition mountedProvider (tz : TimeZone) (host : Host.t)
    (events : list ProviderEvent) : Clk ProviderState.t :=
  st <- initialProviderState tz host ;;
  runProvider tz events st.

(** ** Well-formed suggestion lists *)

Definition byPriority (a b : ProviderSuggestion.t) : Prop :=
  priorityOrder (ProviderSuggestion.priority b)
  <= priorityOrder (ProviderSuggestion.priority a).

Definition suggestionIds (l : list ProviderSuggestion.t) : list string :=
  map ProviderSuggestion.id l.

Definition wellFormedSuggestions (l : list ProviderSuggestion.t) : Prop :=
  (List.length l <= 5)%nat
  /\ NoDup (suggestionIds l)
  /\ StronglySorted byPriority l.

(** The values of the context that the provider produces. *)
Definition producedContext (c : RealTimeContext.t) : Prop :=
  RealTimeContext.userPresence c <> PresenceAway
  /\ RealTimeContext.deviceType c <> Tablet
  /\ RealTimeContext.networkStatus c <> Slow.

Definition providerInvariant (st : ProviderState.t) : Prop :=
  wellFormedSuggestions (ProviderState.suggestions st)
  /\ producedContext (ProviderState.context st).


Definition sampleEvents : list ProviderEvent :=
  [EvStartSession; EvSessionTick; EvIdleTick; EvContextualEffect;
   EvBattery (1 # 10); EvTimeTick; EvCleanupTick].

(** [y] has at least the priority of [s]. *)
Definition atLeastPriority (s y : ProviderSuggestion.t) : bool :=
  priorityOrder (ProviderSuggestion.priority s)
  <=? priorityOrder (ProviderSuggestion.priority y).

(** A state that holds the suggestion to end an idle session, made at the
    instant [t0]. *)
Definition idleSessionState : ProviderState.t :=
  {| ProviderState.context := contextAt t0;
     ProviderState.isUserActive := false;
     ProviderState.idleTime := 6;
     ProviderState.sessionDuration := 10;
     ProviderState.isInSession := true;
     ProviderState.suggestions := [idleEndSuggestion t0];
     ProviderState.lastActivity := t0 - 7 * msPerMinute |}.

(** * Personalized insights ([generatePersonalizedInsights]) *)

Inductive InsightType : Type :=
  | EnergyPatternInsight | ProductivityTrend | OptimizationOpportunity
  | StreakAnalysis.

(** The [data] of an insight, of type [any] in the interface: the function
    stores the listed peak hours or the completion rate. *)
Inductive InsightData : Type :=
  | PeakHoursData (peakHours : list PatternEntry.t)
  | CompletionRateData (completionRate : JSNumber.t).

Module PersonalizedInsight.
Record t : Type := mk {
  id : string;
  type : InsightType;
  insight : string;
  data : InsightData;
  actionable : bool;
  actions : option (list SmartSuggestion.t);
  confidence : Q;
  timestamp : Z
}.
End PersonalizedInsight.

(** The two properties of [userExperience] that the function destructures. *)
Module InsightInput.
Record t : Type := mk {
  energyProfile : UserEnergyProfile.t;
  productivityMetrics : ProductivityMetrics.t
}.
End InsightInput.

(** [x < y] on numbers: false when an operand is [NaN]. *)
Definition numberLtb (x y : JSNumber.t) : bool :=
  match x, y with
  | JSNumber.NaN, _ | _, JSNumber.NaN => false
  | JSNumber.Fin a, JSNumber.Fin b => negb (Qle_bool b a)
  | JSNumber.NegInf, JSNumber.Fin _
  | JSNumber.NegInf, JSNumber.PosInf
  | JSNumber.Fin _, JSNumber.PosInf => true
  | _, _ => false
  end.

(** The comparator [(a, b) => b.averageEnergy - a.averageEnergy]. *)
Definition energyBefore (a b : PatternEntry.t) : bool :=
  Qle_bool (PatternEntry.averageEnergy b - PatternEntry.averageEnergy a) 0.

Definition peakHoursOf (dailyPattern : EnergyPattern.t) : list PatternEntry.t :=
  firstn 3
    (sortBy energyBefore
       (filter (fun p => Qgeb (PatternEntry.averageEnergy p) 4)
               (EnergyPattern.pattern dailyPattern))).

Definition peakHoursInsight (now stamp : Z) (peakHours : list PatternEntry.t)
    : PersonalizedInsight.t :=
  {| PersonalizedInsight.id := ("peak-hours-" ++ showZ now)%string;
     PersonalizedInsight.type := EnergyPatternInsight;
     PersonalizedInsight.insight :=
       ("Your peak energy hours are "
        ++ String.concat ", " (map PatternEntry.timeSlot peakHours)
        ++ ". Schedule your most important tasks during these times.")%string;
     PersonalizedInsight.data := PeakHoursData peakHours;
     PersonalizedInsight.actionable := true;
     PersonalizedInsight.actions := None;
     PersonalizedInsight.confidence := 8 # 10;
     PersonalizedInsight.timestamp := stamp |}.

Definition completionRateInsight (showNumber : JSNumber.t -> string)
    (now stamp : Z) (completionRate : JSNumber.t) : PersonalizedInsight.t :=
  {| PersonalizedInsight.id := ("completion-rate-" ++ showZ now)%string;
     PersonalizedInsight.type := ProductivityTrend;
     PersonalizedInsight.insight :=
       ("Your task completion rate is " ++ showNumber completionRate
        ++ "%. Consider breaking larger tasks into smaller chunks or adjusting time estimates.")%string;
     PersonalizedInsight.data := CompletionRateData completionRate;
     PersonalizedInsight.actionable := true;
     PersonalizedInsight.actions := None;
     PersonalizedInsight.confidence := 9 # 10;
     PersonalizedInsight.timestamp := stamp |}.

(** [showNumber] is the rendering of a number in a template literal. *)
Definition generatePersonalizedInsights (showNumber : JSNumber.t -> string)
    (userExperience : InsightInput.t) (tasks : list Task.t)
    : Clk (list PersonalizedInsight.t) :=
  let insights : list PersonalizedInsight.t := [] in
  let energyProfile := InsightInput.energyProfile userExperience in
  let productivityMetrics := InsightInput.productivityMetrics userExperience in
  insights <-
    (match find isDaily (UserEnergyProfile.energyPatterns energyProfile) with
     | Some dailyPattern =>
         let peakHours := peakHoursOf dailyPattern in
         if (0 <? Z.of_nat (List.length peakHours))
         then
           now <- Date_now ;;
           stamp <- Date_now ;;
           ret (insights ++ [peakHoursInsight now stamp peakHours])
         else ret insights
     | None => ret insights
     end) ;;
  (if numberLtb (ProductivityMetrics.completionRate productivityMetrics)
                (JSNumber.ofZ 70)
   then
     now <- Date_now ;;
     stamp <- Date_now ;;
     ret (insights
          ++ [completionRateInsight showNumber now stamp
                (ProductivityMetrics.completionRate productivityMetrics)])
   else ret insights).

(** The order of the listed peak hours. *)
Definition byAverageDescending (a b : PatternEntry.t) : Prop :=
  (PatternEntry.averageEnergy b <= PatternEntry.averageEnergy a)%Q.

(** The metrics that the tracker component passes around. *)
Definition sampleMetrics : ProductivityMetrics.t :=
  {| ProductivityMetrics.focusScore := JSNumber.ofZ 75;
     ProductivityMetrics.completionRate := JSNumber.ofZ 80;
     ProductivityMetrics.consistencyScore := JSNumber.ofZ 70;
     ProductivityMetrics.energyUtilization := JSNumber.ofZ 85;
     ProductivityMetrics.adaptationSuccess := JSNumber.ofZ 75;
     ProductivityMetrics.streakQuality := JSNumber.ofZ 80;
     ProductivityMetrics.timeOptimization := JSNumber.ofZ 70 |}.

Definition morningInsightInput : InsightInput.t :=
  {| InsightInput.energyProfile := morningProfile;
     InsightInput.productivityMetrics := sampleMetrics |}.

Definition morningDaily : EnergyPattern.t :=
  hd {| EnergyPattern.type := Monthly;
        EnergyPattern.pattern := [];
        EnergyPattern.recommendations := [] |}
     (analyzePatternsFromHistory UTC morningHistory).

(** * Properties *)

(** ** The clock monad *)

Lemma filterM_frozen {A} (p : A -> Clk bool) (q : A -> bool) (now : Z) :
  (forall x n, p x (frozen now) n = (q x, S n)) ->
  forall l n,
    filterM p l (frozen now) n = (filter q l, (n + List.length l)%nat).
Proof.
  intros Hp l; induction l as [|x r IH]; intros n; simpl.
  - unfold ret. f_equal. lia.
  - unfold bind. rewrite Hp, IH. unfold ret.
    destruct (q x); f_equal; lia.
Qed.

Lemma isRecent_frozen (now : Z) (point : EnergyDataPoint.t) (n : nat) :
  isRecent point (frozen now) n
  = (now - oneHourMs <? EnergyDataPoint.timestamp point, S n).
Proof. reflexivity. Qed.

(** ** Maps *)

Section JSMapFacts.
Context {V : Type}.
Implicit Types (m : JSMap.t V) (k : Z) (v : V).

Lemma get_set_same m k v : JSMap.get (JSMap.set m k v) k = Some v.
Proof.
  induction m as [|[k' v'] r IH]; simpl.
  - now rewrite Z.eqb_refl.
  - destruct (k' =? k) eqn:E; simpl.
    + now rewrite Z.eqb_refl.
    + now rewrite E.
Qed.

Lemma get_set_other m k k' v :
  k <> k' -> JSMap.get (JSMap.set m k v) k' = JSMap.get m k'.
Proof.
  intros Hne. induction m as [|[k0 v0] r IH]; simpl.
  - destruct (k =? k') eqn:E; [apply Z.eqb_eq in E; contradiction | reflexivity].
  - destruct (k0 =? k) eqn:E; simpl.
    + apply Z.eqb_eq in E; subst k0.
      destruct (k =? k') eqn:E'; [apply Z.eqb_eq in E'; contradiction | reflexivity].
    + now rewrite IH.
Qed.

Lemma keys_set_present m k v :
  JSMap.has m k = true -> JSMap.keys (JSMap.set m k v) = JSMap.keys m.
Proof.
  unfold JSMap.has, JSMap.keys.
  induction m as [|[k0 v0] r IH]; simpl; [discriminate|].
  destruct (k0 =? k) eqn:E; simpl.
  - apply Z.eqb_eq in E. now subst.
  - intros H. now rewrite IH.
Qed.

Lemma keys_set_absent m k v :
  JSMap.has m k = false -> JSMap.keys (JSMap.set m k v) = JSMap.keys m ++ [k].
Proof.
  unfold JSMap.has, JSMap.keys.
  induction m as [|[k0 v0] r IH]; simpl; [reflexivity|].
  destruct (k0 =? k) eqn:E; simpl; [discriminate|].
  intros H. now rewrite IH.
Qed.

Lemma has_set m k v : JSMap.has (JSMap.set m k v) k = true.
Proof. unfold JSMap.has. now rewrite get_set_same. Qed.

Lemma has_false_not_in_keys m k :
  JSMap.has m k = false -> ~ In k (JSMap.keys m).
Proof.
  unfold JSMap.has, JSMap.keys.
  induction m as [|[k0 v0] r IH]; simpl; [tauto|].
  destruct (k0 =? k) eqn:E; [discriminate|].
  intros H [H0|H0].
  - subst. now rewrite Z.eqb_refl in E.
  - now apply IH.
Qed.

Lemma in_get m k v :
  NoDup (JSMap.keys m) -> In (k, v) m -> JSMap.get m k = Some v.
Proof.
  unfold JSMap.keys.
  induction m as [|[k0 v0] r IH]; simpl; [tauto|].
  intros Hnd [H|H].
  - inversion H; subst. now rewrite Z.eqb_refl.
  - inversion Hnd as [|? ? Hnotin Hnd']; subst.
    destruct (k0 =? k) eqn:E.
    + apply Z.eqb_eq in E; subst k0. exfalso. apply Hnotin.
      change k with (fst (k, v)). now apply in_map.
    + now apply IH.
Qed.

Lemma in_set_inv m k v k' v' :
  In (k', v') (JSMap.set m k v) -> (k' = k /\ v' = v) \/ In (k', v') m.
Proof.
  induction m as [|[k0 v0] r IH]; simpl.
  - intros [H|[]]. inversion H; auto.
  - destruct (k0 =? k) eqn:E; simpl.
    + intros [H|H]; [inversion H; auto | auto].
    + intros [H|H]; [auto|]. destruct (IH H); auto.
Qed.

End JSMapFacts.

(** ** Insufficient data *)

(** C4.  A history with fewer than seven samples makes both the pattern
    analyzer and the optimal-window selector return the empty list; both are
    total functions, so the result is a value and not a failure. *)
Theorem insufficient_data_returns_empty
    (tz : TimeZone) (history : list EnergyDataPoint.t)
    (Hshort : (List.length history < 7)%nat) :
  analyzePatternsFromHistory tz history = []
  /\ calculateOptimalStudyTimes tz history = [].
Proof.
  unfold analyzePatternsFromHistory, calculateOptimalStudyTimes.
  assert (E : (Z.of_nat (List.length history) <? 7) = true)
    by (apply Z.ltb_lt; lia).
  now rewrite E.
Qed.

Lemma insufficient_data_returns_empty_witness :
  (List.length sixSamples < 7)%nat
  /\ analyzePatternsFromHistory UTC sixSamples = []
  /\ calculateOptimalStudyTimes UTC sixSamples = [].
Proof.
  split; [simpl; lia|].
  apply (insufficient_data_returns_empty UTC sixSamples). simpl; lia.
Defined.

(** ** Persona classifier *)

Lemma find_none_iff {A} (f : A -> bool) (l : list A) :
  find f l = None <-> forall x, In x l -> f x = false.
Proof.
  split.
  - apply find_none.
  - induction l as [|a r IH]; simpl; [reflexivity|].
    intros H. rewrite (H a (or_introl eq_refl)). apply IH. auto.
Qed.

(** C9.  When the pattern list of the profile holds no daily pattern, the
    classifier returns the persona [inconsistent] with confidence level
    exactly 0.1. *)
Theorem no_daily_pattern_is_inconsistent
    (energyProfile : UserEnergyProfile.t)
    (Hnone : forall p, In p (UserEnergyProfile.energyPatterns energyProfile) ->
                       EnergyPattern.type p <> Daily) :
  UserPersona.type (determineUserPersona energyProfile) = Inconsistent
  /\ UserPersona.confidenceLevel (determineUserPersona energyProfile) = 1 # 10.
Proof.
  unfold determineUserPersona.
  assert (E : find isDaily (UserEnergyProfile.energyPatterns energyProfile) = None).
  { apply find_none_iff. intros p Hp. specialize (Hnone p Hp).
    unfold isDaily. destruct (EnergyPattern.type p); simpl; congruence. }
  rewrite E. split; reflexivity.
Qed.

Lemma no_daily_pattern_is_inconsistent_witness :
  UserPersona.type (determineUserPersona (profileWithPatterns weeklyOnly))
    = Inconsistent
  /\ UserPersona.confidenceLevel
       (determineUserPersona (profileWithPatterns weeklyOnly)) = 1 # 10.
Proof.
  apply (no_daily_pattern_is_inconsistent (profileWithPatterns weeklyOnly)).
  simpl. intros p [Hp|[]]. subst p. simpl. discriminate.
Defined.

(** ** Energy sample store *)

Lemma recordEnergyData_run
    (tz : TimeZone) (p : UserEnergyProfile.t) (level : EnergyLevel)
    (context : option EnergyContext.t) (productivity : option Q)
    (completed : option bool) (clock : Clock) (n : nat) :
  recordEnergyData tz p level context productivity completed clock n
  = (let filteredHistory :=
       filter (fun point =>
                 clock (S n) - thirtyDaysMs <? EnergyDataPoint.timestamp point)
              (UserEnergyProfile.energyHistory p
               ++ [dataPointAt (clock n) level context productivity completed]) in
     {| UserEnergyProfile.currentEnergyLevel := level;
        UserEnergyProfile.energyHistory := filteredHistory;
        UserEnergyProfile.optimalStudyTimes :=
          calculateOptimalStudyTimes tz filteredHistory;
        UserEnergyProfile.energyPatterns :=
          analyzePatternsFromHistory tz filteredHistory;
        UserEnergyProfile.lastUpdated := clock (S (S n));
        UserEnergyProfile.adaptivePreferences :=
          UserEnergyProfile.adaptivePreferences p |},
     S (S (S n))).
Proof. reflexivity. Qed.

(** C10.  The profile returned by [recordEnergyData] keeps the adaptive
    preferences of the profile passed in, has the recorded level as its
    current level, and has its patterns and optimal study times recomputed
    from the pruned history, which is the old history with the new sample
    appended, filtered.  The embedding is a pure function: the body of the
    source copies the history with a spread and builds a new object, and
    writes to no property of its argument, so the profile passed in is the
    same value after the call. *)
Theorem recordEnergyData_frame
    (tz : TimeZone) (p : UserEnergyProfile.t) (level : EnergyLevel)
    (context : option EnergyContext.t) (productivity : option Q)
    (completed : option bool) (clock : Clock) (n : nat) :
  let p' := fst (recordEnergyData tz p level context productivity completed clock n) in
  UserEnergyProfile.adaptivePreferences p' = UserEnergyProfile.adaptivePreferences p
  /\ UserEnergyProfile.currentEnergyLevel p' = level
  /\ UserEnergyProfile.energyHistory p'
     = filter (fun point =>
                 clock (S n) - thirtyDaysMs <? EnergyDataPoint.timestamp point)
              (UserEnergyProfile.energyHistory p
               ++ [dataPointAt (clock n) level context productivity completed])
  /\ UserEnergyProfile.energyPatterns p'
     = analyzePatternsFromHistory tz (UserEnergyProfile.energyHistory p')
  /\ UserEnergyProfile.optimalStudyTimes p'
     = calculateOptimalStudyTimes tz (UserEnergyProfile.energyHistory p').
Proof.
  rewrite recordEnergyData_run. simpl. repeat split; reflexivity.
Qed.

Lemma record_history_stamps
    (tz : TimeZone) (p : UserEnergyProfile.t) (level : EnergyLevel)
    (context : option EnergyContext.t) (productivity : option Q)
    (completed : option bool) (clock : Clock) (n : nat) (s : EnergyDataPoint.t) :
  In s (UserEnergyProfile.energyHistory
          (fst (recordEnergyData tz p level context productivity completed clock n))) ->
  In s (UserEnergyProfile.energyHistory p)
  \/ EnergyDataPoint.timestamp s = clock n.
Proof.
  rewrite recordEnergyData_run. simpl. rewrite filter_In, in_app_iff. simpl.
  intros [[H|[H|[]]] _]; [now left | right; now subst s].
Qed.

Lemma recordEnergyData_counter
    (tz : TimeZone) (p : UserEnergyProfile.t) (level : EnergyLevel)
    (context : option EnergyContext.t) (productivity : option Q)
    (completed : option bool) (clock : Clock) (n : nat) :
  snd (recordEnergyData tz p level context productivity completed clock n)
  = (n + 3)%nat.
Proof. rewrite recordEnergyData_run. simpl. lia. Qed.

(** Every sample held after a sequence of recordings is a sample of the
    starting profile or was stamped by one of the clock readings made during
    the sequence. *)
Lemma recordSequence_stamps (tz : TimeZone) (clock : Clock)
    (rs : list Recording.t) :
  forall (p : UserEnergyProfile.t) (n : nat),
    snd (recordSequence tz p rs clock n) = (n + 3 * List.length rs)%nat
    /\ forall s,
         In s (UserEnergyProfile.energyHistory
                 (fst (recordSequence tz p rs clock n))) ->
         In s (UserEnergyProfile.energyHistory p)
         \/ exists k, (n <= k < n + 3 * List.length rs)%nat
                      /\ EnergyDataPoint.timestamp s = clock k.
Proof.
  induction rs as [|r rest IH]; intros p n.
  - simpl. split; [lia | auto].
  - cbn [recordSequence]. unfold bind.
    destruct (recordEnergyData tz p (Recording.energyLevel r) (Recording.context r)
                (Recording.productivity r) (Recording.sessionCompleted r) clock n)
      as [p1 n1] eqn:E.
    assert (Hn1 : n1 = (n + 3)%nat).
    { pose proof (recordEnergyData_counter tz p (Recording.energyLevel r)
                    (Recording.context r) (Recording.productivity r)
                    (Recording.sessionCompleted r) clock n) as H.
      now rewrite E in H. }
    destruct (IH p1 n1) as [Hc Hs]. split.
    + rewrite Hc. simpl List.length. lia.
    + intros s Hin. destruct (Hs s Hin) as [H1|[k [Hk Hts]]].
      * pose proof (record_history_stamps tz p (Recording.energyLevel r)
                      (Recording.context r) (Recording.productivity r)
                      (Recording.sessionCompleted r) clock n s) as H.
        rewrite E in H. destruct (H H1) as [H2|H2]; [now left|].
        right. exists n. split; [simpl List.length; lia | exact H2].
      * right. exists k. split; [simpl List.length; lia | exact Hts].
Qed.

Lemma filter_all_false {A} (f : A -> bool) (l : list A) :
  (forall x, In x l -> f x = false) -> filter f l = [].
Proof.
  induction l as [|a r IH]; simpl; [reflexivity|].
  intros H. rewrite (H a (or_introl eq_refl)). apply IH. auto.
Qed.

(** A recording made when every sample held is at least 30 days older than
    the clock leaves the new sample alone. *)
Lemma record_after_gap
    (tz : TimeZone) (p : UserEnergyProfile.t) (level : EnergyLevel)
    (context : option EnergyContext.t) (productivity : option Q)
    (completed : option bool) (clock : Clock) (n : nat) :
  (forall s, In s (UserEnergyProfile.energyHistory p) ->
             EnergyDataPoint.timestamp s <= clock (S n) - thirtyDaysMs) ->
  clock (S n) - thirtyDaysMs < clock n ->
  UserEnergyProfile.energyHistory
    (fst (recordEnergyData tz p level context productivity completed clock n))
  = [dataPointAt (clock n) level context productivity completed].
Proof.
  intros Hold Hnew. rewrite recordEnergyData_run. simpl.
  rewrite filter_app. rewrite filter_all_false.
  - simpl. apply Z.ltb_lt in Hnew. now rewrite Hnew.
  - intros s Hs. apply Z.ltb_ge. now apply Hold.
Qed.

(** C3, as amended.  After [recordEnergyData], with [now] the reading of
    the clock from which the thirty days are counted: every sample of the
    returned history is stamped strictly later than [now] minus 30 days, so
    that a sample exactly 30 days old is removed like the older ones; every
    sample of the old history, and the new sample, that is stamped strictly
    later than [now] minus 30 days is retained; and when the profile comes
    from N successive recordings that started from an empty history, the
    clock has since advanced by 31 days and the call itself takes less than
    30 days, the returned history holds the newest sample and nothing else. *)
Theorem record_keeps_samples_newer_than_thirty_days
    (tz : TimeZone) (p : UserEnergyProfile.t) (level : EnergyLevel)
    (context : option EnergyContext.t) (productivity : option Q)
    (completed : option bool) (clock : Clock) (n : nat) :
  let newest := dataPointAt (clock n) level context productivity completed in
  let now := clock (S n) in
  let result :=
    fst (recordEnergyData tz p level context productivity completed clock n) in
  (forall s, In s (UserEnergyProfile.energyHistory result) ->
             now - thirtyDaysMs < EnergyDataPoint.timestamp s)
  /\ (forall s, In s (UserEnergyProfile.energyHistory p ++ [newest]) ->
                now - thirtyDaysMs < EnergyDataPoint.timestamp s ->
                In s (UserEnergyProfile.energyHistory result))
  /\ (forall (rs : list Recording.t) (p0 : UserEnergyProfile.t) (n0 : nat),
        UserEnergyProfile.energyHistory p0 = [] ->
        p = fst (recordSequence tz p0 rs clock n0) ->
        n = (n0 + 3 * List.length rs)%nat ->
        (forall k, (n0 <= k < n)%nat -> clock k + thirtyOneDaysMs <= clock n) ->
        clock n <= clock (S n) < clock n + thirtyDaysMs ->
        UserEnergyProfile.energyHistory result = [newest]).
Proof.
  cbv zeta. split; [|split].
  - intros s. rewrite recordEnergyData_run. simpl. rewrite filter_In.
    intros [_ H]. now apply Z.ltb_lt.
  - intros s Hin Hts. rewrite recordEnergyData_run. simpl. rewrite filter_In.
    split; [exact Hin | now apply Z.ltb_lt].
  - intros rs p0 n0 Hempty Hp Hn Hgap Hcall.
    apply record_after_gap; [|lia].
    intros s Hs. subst p.
    destruct (recordSequence_stamps tz clock rs p0 n0) as [_ Hst].
    destruct (Hst s Hs) as [H|[k [Hk Hts]]].
    + rewrite Hempty in H. contradiction.
    + rewrite Hts. specialize (Hgap k). unfold thirtyOneDaysMs, thirtyDaysMs in *.
      lia.
Qed.

Lemma record_keeps_samples_newer_than_thirty_days_witness :
  UserEnergyProfile.energyHistory
    (fst (recordEnergyData UTC
            (fst (recordSequence UTC (profileWithPatterns []) twoRecordings
                    (jumpClock 6) 0%nat))
            Medium None None None (jumpClock 6) 6%nat))
  = [dataPointAt (jumpClock 6 6%nat) Medium None None None].
Proof.
  refine (proj2 (proj2 (record_keeps_samples_newer_than_thirty_days UTC
            (fst (recordSequence UTC (profileWithPatterns []) twoRecordings
                    (jumpClock 6) 0%nat))
            Medium None None None (jumpClock 6) 6%nat))
          twoRecordings (profileWithPatterns []) 0%nat _ _ _ _ _).
  - reflexivity.
  - reflexivity.
  - reflexivity.
  - intros k Hk. unfold jumpClock.
    destruct (Nat.ltb_spec k 6) as [Hlt|Hge]; [|lia].
    simpl. unfold thirtyOneDaysMs. lia.
  - unfold jumpClock. simpl. unfold thirtyDaysMs. lia.
Defined.

(** C3, the claim as stated fails at the boundary: a sample stamped exactly
    30 days before the append, which is not strictly older than 30 days, is
    removed. *)
Lemma record_drops_sample_exactly_thirty_days_old :
  In epochSample
     (UserEnergyProfile.energyHistory epochProfile
      ++ [dataPointAt thirtyDaysMs High None None None])
  /\ ~ (EnergyDataPoint.timestamp epochSample < thirtyDaysMs - thirtyDaysMs)
  /\ ~ In epochSample
         (UserEnergyProfile.energyHistory
            (fst (recordEnergyData UTC epochProfile High None None None
                    (frozen thirtyDaysMs) 0%nat))).
Proof.
  split; [left; reflexivity|]. split.
  - simpl. lia.
  - rewrite recordEnergyData_run. simpl. vm_compute.
    intros [H|[]]. discriminate H.
Qed.

(** ** Metrics aggregator *)

(** C7.  With the single feedback entry of focus rating 5 and an empty
    history, the aggregator returns the focus score 100 and the completion
    rate 0; the consistency score is [NaN], the rounding of the maximum of 0
    and a difference with the variance 0/0 of the empty window, and not 0. *)
Theorem metrics_of_empty_history_with_one_feedback
    (StudyPlan : Type) (studyPlans : list StudyPlan)
    (level : EnergyLevel) (times : list TimeSlot.t)
    (patterns : list EnergyPattern.t) (updated : Z)
    (prefs : AdaptivePreferences.t)
    (sessionId : string) (stamp difficulty before after environment satisfaction : Z)
    (distractions : list string) (notes : option string)
    (recommend : option bool) :
  calculateProductivityMetrics
    {| UserEnergyProfile.currentEnergyLevel := level;
       UserEnergyProfile.energyHistory := [];
       UserEnergyProfile.optimalStudyTimes := times;
       UserEnergyProfile.energyPatterns := patterns;
       UserEnergyProfile.lastUpdated := updated;
       UserEnergyProfile.adaptivePreferences := prefs |}
    [ {| SessionFeedback.sessionId := sessionId;
         SessionFeedback.timestamp := stamp;
         SessionFeedback.difficultyRating := difficulty;
         SessionFeedback.energyBefore := before;
         SessionFeedback.energyAfter := after;
         SessionFeedback.focusRating := 5;
         SessionFeedback.environmentRating := environment;
         SessionFeedback.satisfaction := satisfaction;
         SessionFeedback.distractions := distractions;
         SessionFeedback.notes := notes;
         SessionFeedback.recommendNextSession := recommend |} ]
    studyPlans
  = {| ProductivityMetrics.focusScore := JSNumber.Fin 100;
       ProductivityMetrics.completionRate := JSNumber.Fin 0;
       ProductivityMetrics.consistencyScore := JSNumber.NaN;
       ProductivityMetrics.energyUtilization := JSNumber.Fin 50;
       ProductivityMetrics.adaptationSuccess := JSNumber.Fin 75;
       ProductivityMetrics.streakQuality := JSNumber.Fin 80;
       ProductivityMetrics.timeOptimization := JSNumber.Fin 70 |}.
Proof. reflexivity. Qed.

(** ** Aggregation over the history *)

Section UpsertFacts.
Context {V : Type}.
Implicit Types (m : JSMap.t V) (k : Z) (zero : V) (f : V -> V).

Lemma upsert_get_same m k zero f :
  JSMap.get (upsert m k zero f) k = Some (f (valueOr zero (JSMap.get m k))).
Proof.
  unfold upsert, JSMap.has.
  destruct (JSMap.get m k) as [d|] eqn:E; simpl.
  - rewrite E. apply get_set_same.
  - rewrite get_set_same. apply get_set_same.
Qed.

Lemma upsert_get_other m k k' zero f :
  k <> k' -> JSMap.get (upsert m k zero f) k' = JSMap.get m k'.
Proof.
  intros Hne. unfold upsert, JSMap.has.
  destruct (JSMap.get m k) as [d|] eqn:E; simpl.
  - rewrite E. now apply get_set_other.
  - rewrite get_set_same. now rewrite !get_set_other.
Qed.

Lemma upsert_keys m k zero f :
  JSMap.keys (upsert m k zero f)
  = if JSMap.has m k then JSMap.keys m else JSMap.keys m ++ [k].
Proof.
  unfold upsert. destruct (JSMap.has m k) eqn:E; simpl.
  - unfold JSMap.has in E. destruct (JSMap.get m k) eqn:G; [|discriminate].
    apply keys_set_present. unfold JSMap.has. now rewrite G.
  - rewrite get_set_same. rewrite keys_set_present by apply has_set.
    now apply keys_set_absent.
Qed.

Lemma upsert_NoDup m k zero f :
  NoDup (JSMap.keys m) -> NoDup (JSMap.keys (upsert m k zero f)).
Proof.
  intros Hnd. rewrite upsert_keys. destruct (JSMap.has m k) eqn:E; [exact Hnd|].
  apply NoDup_app; [exact Hnd | repeat constructor; simpl; tauto |].
  intros x Hx [Hk|[]]. subst x. now apply (has_false_not_in_keys m k).
Qed.

End UpsertFacts.

Lemma hourlyStep_upsert (tz : TimeZone) (m : JSMap.t HourlyData.t)
    (point : EnergyDataPoint.t) :
  hourlyStep tz m point
  = upsert m (getHours tz (EnergyDataPoint.timestamp point))
      {| HourlyData.total := 0; HourlyData.count := 0; HourlyData.energySum := 0 |}
      (fun data =>
         {| HourlyData.total := HourlyData.total data;
            HourlyData.count := HourlyData.count data + 1;
            HourlyData.energySum :=
              HourlyData.energySum data
              + energyLevelToNumber (EnergyDataPoint.energyLevel point) |}).
Proof. reflexivity. Qed.

Lemma weeklyStep_upsert (tz : TimeZone) (m : JSMap.t WeeklyData.t)
    (point : EnergyDataPoint.t) :
  weeklyStep tz m point
  = upsert m (getDay tz (EnergyDataPoint.timestamp point))
      {| WeeklyData.energySum := 0; WeeklyData.count := 0 |}
      (fun data =>
         {| WeeklyData.energySum :=
              WeeklyData.energySum data
              + energyLevelToNumber (EnergyDataPoint.energyLevel point);
            WeeklyData.count := WeeklyData.count data + 1 |}).
Proof. reflexivity. Qed.

Lemma performanceStep_upsert (tz : TimeZone) (m : JSMap.t HourlyPerformance.t)
    (point : EnergyDataPoint.t) :
  performanceStep tz m point
  = upsert m (getHours tz (EnergyDataPoint.timestamp point))
      {| HourlyPerformance.energySum := 0;
         HourlyPerformance.productivitySum := 0;
         HourlyPerformance.count := 0;
         HourlyPerformance.completionRate := 0 |}
      (fun data =>
         {| HourlyPerformance.energySum :=
              HourlyPerformance.energySum data
              + energyLevelToNumber (EnergyDataPoint.energyLevel point);
            HourlyPerformance.productivitySum :=
              match EnergyDataPoint.productivity point with
              | Some q =>
                  if negb (Qeq_bool q 0)
                  then (HourlyPerformance.productivitySum data + q)%Q
                  else HourlyPerformance.productivitySum data
              | None => HourlyPerformance.productivitySum data
              end;
            HourlyPerformance.count := HourlyPerformance.count data + 1;
            HourlyPerformance.completionRate :=
              if truthyFlag (EnergyDataPoint.sessionCompleted point)
              then HourlyPerformance.completionRate data + 1
              else HourlyPerformance.completionRate data |}).
Proof. reflexivity. Qed.

Lemma fold_left_snoc {A B} (f : A -> B -> A) (l : list B) (x : B) (a : A) :
  fold_left f (l ++ [x]) a = f (fold_left f l a) x.
Proof. now rewrite fold_left_app. Qed.

Lemma energyTotal_app (l1 l2 : list EnergyDataPoint.t) :
  energyTotal (l1 ++ l2) = energyTotal l1 + energyTotal l2.
Proof.
  unfold energyTotal. induction l1 as [|a r IH]; simpl; [reflexivity|].
  rewrite IH. lia.
Qed.

Lemma countOf_app (l1 l2 : list EnergyDataPoint.t) :
  countOf (l1 ++ l2) = countOf l1 + countOf l2.
Proof. unfold countOf. rewrite length_app. lia. Qed.

Lemma energyTotal_ge_count (l : list EnergyDataPoint.t) :
  countOf l <= energyTotal l.
Proof.
  unfold countOf, energyTotal. induction l as [|a r IH]; simpl List.length; simpl map;
    simpl fold_right; [lia|].
  destruct (EnergyDataPoint.energyLevel a); simpl energyLevelToNumber; lia.
Qed.

Lemma countOf_pos (l : list EnergyDataPoint.t) : l <> [] -> 0 < countOf l.
Proof. destruct l; [congruence|]. unfold countOf. simpl List.length. lia. Qed.

Lemma hourlyPerformanceOf_agrees (tz : TimeZone) (history : list EnergyDataPoint.t) :
  NoDup (JSMap.keys (hourlyPerformanceOf tz history))
  /\ performanceAgrees tz history (hourlyPerformanceOf tz history).
Proof.
  unfold hourlyPerformanceOf.
  induction history as [|p h IH] using rev_ind.
  - simpl. split; [constructor | intros k; reflexivity].
  - destruct IH as [Hnd Hag]. rewrite fold_left_snoc, performanceStep_upsert.
    split; [now apply upsert_NoDup|].
    intros k. unfold samplesAt. rewrite filter_app. simpl filter.
    destruct (getHours tz (EnergyDataPoint.timestamp p) =? k) eqn:E.
    + apply Z.eqb_eq in E. subst k. rewrite upsert_get_same.
      specialize (Hag (getHours tz (EnergyDataPoint.timestamp p))).
      fold (samplesAt tz (getHours tz (EnergyDataPoint.timestamp p)) h) in *.
      rewrite filter_app, !countOf_app, energyTotal_app.
      simpl HourlyPerformance.count. simpl HourlyPerformance.energySum.
      simpl HourlyPerformance.completionRate.
      split; [intros H; apply app_eq_nil in H; destruct H; discriminate|].
      assert (C1 : countOf [p] = 1) by reflexivity.
      assert (E1 : energyTotal [p]
                   = energyLevelToNumber (EnergyDataPoint.energyLevel p))
        by (unfold energyTotal; simpl; lia).
      assert (R1 : countOf (filter isCompleted [p])
                   = if truthyFlag (EnergyDataPoint.sessionCompleted p)
                     then 1 else 0)
        by (simpl; unfold isCompleted; destruct (truthyFlag _); reflexivity).
      rewrite C1, E1, R1.
      destruct (JSMap.get (fold_left (performanceStep tz) h JSMap.empty)
                  (getHours tz (EnergyDataPoint.timestamp p))) as [d|];
        simpl valueOr.
      * destruct Hag as (_ & Hc & He & Hr). rewrite Hc, He, Hr.
        destruct (truthyFlag (EnergyDataPoint.sessionCompleted p));
          repeat split; lia.
      * rewrite Hag. simpl.
        destruct (truthyFlag (EnergyDataPoint.sessionCompleted p));
          repeat split; reflexivity.
    + rewrite upsert_get_other by (intros H; subst k; now rewrite Z.eqb_refl in E).
      rewrite app_nil_r. apply Hag.
Qed.

(** ** Optimal-window selector *)

Lemma insertSlot_in (x y : TimeSlot.t) (l : list TimeSlot.t) :
  In y (insertSlot x l) <-> y = x \/ In y l.
Proof.
  induction l as [|z r IH]; simpl.
  - intuition.
  - destruct (Qle_bool (TimeSlot.energyLevel z - TimeSlot.energyLevel x) 0); simpl.
    + intuition.
    + rewrite IH. intuition.
Qed.

Lemma sortSlots_in (y : TimeSlot.t) (l : list TimeSlot.t) :
  In y (sortSlots l) <-> In y l.
Proof.
  unfold sortSlots. induction l as [|x r IH]; simpl; [tauto|].
  rewrite insertSlot_in, IH. intuition.
Qed.

Lemma pushSlots_in (es : list (Z * HourlyPerformance.t)) :
  forall (acc : list TimeSlot.t) (y : TimeSlot.t),
    In y (pushSlots es acc) <->
    In y acc \/ exists e, In e es /\ slotOf e = Some y.
Proof.
  induction es as [|e r IH]; intros acc y; simpl.
  - split; [auto | intros [H|[e [[] _]]]; exact H].
  - destruct (slotOf e) as [slot|] eqn:E; rewrite IH.
    + rewrite in_app_iff. simpl. split.
      * intros [[H|[H|[]]]|[e' [He' Hs]]].
        -- now left.
        -- right. exists e. subst. auto.
        -- right. exists e'. auto.
      * intros [H|[e' [[He'|He'] Hs]]].
        -- left. now left.
        -- subst e'. rewrite E in Hs. inversion Hs. left. right. now left.
        -- right. exists e'. auto.
    + split.
      * intros [H|[e' [He' Hs]]]; [now left | right; exists e'; auto].
      * intros [H|[e' [[He'|He'] Hs]]].
        -- now left.
        -- subst e'. rewrite E in Hs. discriminate.
        -- right. exists e'. auto.
Qed.

(** C5.  Every time slot returned by the optimal-window selector stands for
    an hour in which the history has samples, carries the average energy of
    the samples of that hour, which is at least 3, and the fraction of those
    samples whose session was completed is at least 0.7. *)
Theorem optimal_slots_meet_thresholds
    (tz : TimeZone) (history : list EnergyDataPoint.t) (slot : TimeSlot.t)
    (Hin : In slot (calculateOptimalStudyTimes tz history)) :
  samplesAt tz (TimeSlot.startHour slot) history <> []
  /\ TimeSlot.energyLevel slot
     = averageEnergyAt tz (TimeSlot.startHour slot) history
  /\ (3 <= TimeSlot.energyLevel slot)%Q
  /\ (7 # 10 <= completionRateAt tz (TimeSlot.startHour slot) history)%Q.
Proof.
  unfold calculateOptimalStudyTimes in Hin.
  destruct (Z.of_nat (List.length history) <? 7); [contradiction|].
  apply (proj1 (sortSlots_in _ _)) in Hin.
  apply (proj1 (pushSlots_in _ _ _)) in Hin.
  destruct Hin as [[]|[[hour data] [He Hs]]].
  destruct (hourlyPerformanceOf_agrees tz history) as [Hnd Hag].
  unfold JSMap.entries in He.
  pose proof (in_get _ _ _ Hnd He) as Hget.
  specialize (Hag hour). rewrite Hget in Hag.
  destruct Hag as (Hne & Hc & Hsum & Hr).
  unfold slotOf in Hs.
  destruct (Qgeb (ratio (HourlyPerformance.energySum data)
                        (HourlyPerformance.count data)) 3) eqn:E1;
    [|discriminate].
  destruct (Qgeb (ratio (HourlyPerformance.completionRate data)
                        (HourlyPerformance.count data)) (7 # 10)) eqn:E2;
    [|discriminate].
  simpl in Hs. inversion Hs; subst slot; clear Hs. simpl.
  unfold averageEnergyAt, completionRateAt. rewrite <- Hc, <- Hsum, <- Hr.
  unfold Qgeb in E1, E2. apply Qle_bool_iff in E1. apply Qle_bool_iff in E2.
  repeat split; assumption.
Qed.

Lemma optimal_slots_meet_thresholds_witness :
  In nineOClockSlot (calculateOptimalStudyTimes UTC sevenSamples)
  /\ samplesAt UTC 9 sevenSamples <> []
  /\ TimeSlot.energyLevel nineOClockSlot = averageEnergyAt UTC 9 sevenSamples
  /\ (3 <= TimeSlot.energyLevel nineOClockSlot)%Q
  /\ (7 # 10 <= completionRateAt UTC 9 sevenSamples)%Q.
Proof.
  assert (Hin : In nineOClockSlot (calculateOptimalStudyTimes UTC sevenSamples))
    by (vm_compute; left; reflexivity).
  split; [exact Hin|].
  exact (optimal_slots_meet_thresholds UTC sevenSamples nineOClockSlot Hin).
Defined.

(** ** Suggestion generator *)

Lemma recentActivity_frozen (now : Z) (history : list EnergyDataPoint.t) (n : nat) :
  filterM isRecent history (frozen now) n
  = (recentAt now history, (n + List.length history)%nat).
Proof.
  apply (filterM_frozen isRecent
           (fun point => now - oneHourMs <? EnergyDataPoint.timestamp point)).
  intros x k. apply isRecent_frozen.
Qed.

Lemma filterM_isRecent_cons (x : EnergyDataPoint.t) (r : list EnergyDataPoint.t)
    (clock : Clock) (n : nat) :
  filterM isRecent (x :: r) clock n
  = (if clock n - oneHourMs <? EnergyDataPoint.timestamp x
     then x :: fst (filterM isRecent r clock (S n))
     else fst (filterM isRecent r clock (S n)),
     snd (filterM isRecent r clock (S n))).
Proof.
  cbn [filterM]. generalize (filterM isRecent r). intros rest.
  cbv [bind isRecent Date_now ret].
  now destruct (rest clock (S n)).
Qed.

(** When every reading of the clock lies between [lo] and [hi], the filter
    keeps every sample that is recent with respect to [hi] and keeps only
    samples that are recent with respect to [lo]. *)
Section BoundedClock.
Variables (clock : Clock) (lo hi : Z).
Hypothesis Hclock : forall k, lo <= clock k <= hi.

Lemma recentActivity_bounds (history : list EnergyDataPoint.t) :
  forall n,
    (forall s, In s (recentAt hi history) ->
               In s (fst (filterM isRecent history clock n)))
    /\ (forall s, In s (fst (filterM isRecent history clock n)) ->
                  In s (recentAt lo history))
    /\ (List.length (recentAt hi history)
        <= List.length (fst (filterM isRecent history clock n))
        <= List.length (recentAt lo history))%nat.
Proof.
  induction history as [|x r IH]; intros n.
  - simpl. repeat split; auto.
  - rewrite filterM_isRecent_cons. cbn [fst].
    destruct (IH (S n)) as (Hhi & Hlo & Hlen).
    pose proof (Hclock n) as Hn.
    unfold recentAt in *. simpl filter.
    destruct (clock n - oneHourMs <? EnergyDataPoint.timestamp x) eqn:Eb;
      destruct (hi - oneHourMs <? EnergyDataPoint.timestamp x) eqn:Eh;
      destruct (lo - oneHourMs <? EnergyDataPoint.timestamp x) eqn:El;
      try (apply Z.ltb_lt in Eb); try (apply Z.ltb_ge in Eb);
      try (apply Z.ltb_lt in Eh); try (apply Z.ltb_ge in Eh);
      try (apply Z.ltb_lt in El); try (apply Z.ltb_ge in El);
      try lia; simpl; repeat split; intros; intuition (auto; lia).
Qed.

End BoundedClock.

(** Closes one branch of the case analysis below, given the readings at
    which the second and third rule and the filter start. *)
Ltac shape_with na nb nc h clock :=
  exists na, nb, nc;
  destruct (filterM isRecent h clock nc) as [recent n'];
  cbn [fst snd];
  destruct ((4 <=? Z.of_nat (List.length recent))
            && negb (existsb isLow recent));
  reflexivity.

(** The shape of the result under any clock: the four rules contribute
    independently, in their order, each with the clock reading it made. *)
Lemma generateSmartSuggestions_shape {StudyPlan : Type}
    (tz : TimeZone) (ux : RealTimeUserExperience.t) (tasks : list Task.t)
    (studyPlans : list StudyPlan) (clock : Clock) (n : nat) :
  exists na nb nc,
    fst (generateSmartSuggestions tz ux tasks studyPlans clock n)
    = lowEnergyRule (clock n)
        (UserEnergyProfile.currentEnergyLevel (RealTimeUserExperience.energyProfile ux))
      ++ highEnergyRule (clock na)
           (UserEnergyProfile.currentEnergyLevel (RealTimeUserExperience.energyProfile ux))
           tasks
      ++ optimalTimeRule (clock nb)
           (getHours tz
              (RealTimeContext.currentTime (RealTimeUserExperience.currentContext ux)))
           (UserEnergyProfile.optimalStudyTimes (RealTimeUserExperience.energyProfile ux))
      ++ breakRuleOn
           (clock (snd (filterM isRecent
                          (UserEnergyProfile.energyHistory
                             (RealTimeUserExperience.energyProfile ux)) clock nc)))
           (fst (filterM isRecent
                   (UserEnergyProfile.energyHistory
                      (RealTimeUserExperience.energyProfile ux)) clock nc)).
Proof.
  unfold generateSmartSuggestions, lowEnergyRule, highEnergyRule, optimalTimeRule,
    breakRuleOn.
  destruct (UserEnergyProfile.currentEnergyLevel
              (RealTimeUserExperience.energyProfile ux));
    cbn [EnergyLevel_eqb orb andb];
    destruct (0 <? Z.of_nat (List.length (filter isDifficultTask tasks)));
    destruct (find _ (UserEnergyProfile.optimalStudyTimes
                        (RealTimeUserExperience.energyProfile ux)));
    unfold bind, ret, Date_now; cbn [app];
    match goal with
    | |- context [filterM isRecent ?h clock ?N] =>
        first [ solve [shape_with n (S n) N h clock]
              | solve [shape_with n n N h clock] ]
    end.
Qed.

(** Under a clock that stands still every rule reads the same instant. *)
Lemma generateSmartSuggestions_frozen {StudyPlan : Type}
    (tz : TimeZone) (ux : RealTimeUserExperience.t) (tasks : list Task.t)
    (studyPlans : list StudyPlan) (now : Z) (n : nat) :
  fst (generateSmartSuggestions tz ux tasks studyPlans (frozen now) n)
  = lowEnergyRule now
      (UserEnergyProfile.currentEnergyLevel (RealTimeUserExperience.energyProfile ux))
    ++ highEnergyRule now
         (UserEnergyProfile.currentEnergyLevel (RealTimeUserExperience.energyProfile ux))
         tasks
    ++ optimalTimeRule now
         (getHours tz
            (RealTimeContext.currentTime (RealTimeUserExperience.currentContext ux)))
         (UserEnergyProfile.optimalStudyTimes (RealTimeUserExperience.energyProfile ux))
    ++ breakRule now
         (UserEnergyProfile.energyHistory (RealTimeUserExperience.energyProfile ux)).
Proof.
  destruct (generateSmartSuggestions_shape tz ux tasks studyPlans (frozen now) n)
    as (na & nb & nc & E).
  rewrite E, recentActivity_frozen. reflexivity.
Qed.

Lemma existsb_isLow_iff (l : list EnergyDataPoint.t) :
  existsb isLow l = true <->
  exists s, In s l /\ EnergyDataPoint.energyLevel s = Low.
Proof.
  rewrite existsb_exists. unfold isLow.
  split; intros [s [Hin Hs]]; exists s; split; auto.
  - destruct (EnergyDataPoint.energyLevel s); simpl in Hs; congruence.
  - now rewrite Hs.
Qed.

(** C6, as amended.  For a user whose current level is very-low, with an
    empty task list and no optimal study times, and whose history has fewer
    than four samples stamped within the last 60 minutes or has among those
    a sample at level low, the generator returns exactly one suggestion, the
    low-energy one, and its priority is high.  The readings of the clock
    made during the call lie between [lo] and [hi]; for a call that takes
    place at one instant the two are that instant. *)
Theorem very_low_energy_gives_one_suggestion {StudyPlan : Type}
    (tz : TimeZone) (ux : RealTimeUserExperience.t)
    (studyPlans : list StudyPlan) (clock : Clock) (n : nat) (lo hi : Z)
    (Hclock : forall k, lo <= clock k <= hi)
    (Hlevel : UserEnergyProfile.currentEnergyLevel
                (RealTimeUserExperience.energyProfile ux) = VeryLow)
    (Htimes : UserEnergyProfile.optimalStudyTimes
                (RealTimeUserExperience.energyProfile ux) = [])
    (Hquiet :
       (List.length
          (recentAt lo (UserEnergyProfile.energyHistory
                          (RealTimeUserExperience.energyProfile ux))) < 4)%nat
       \/ exists s,
            In s (recentAt hi (UserEnergyProfile.energyHistory
                                 (RealTimeUserExperience.energyProfile ux)))
            /\ EnergyDataPoint.energyLevel s = Low) :
  fst (generateSmartSuggestions tz ux [] studyPlans clock n)
  = [lowEnergySuggestion (clock n)]
  /\ SmartSuggestion.priority (lowEnergySuggestion (clock n)) = PriorityHigh.
Proof.
  split; [|reflexivity].
  destruct (generateSmartSuggestions_shape tz ux [] studyPlans clock n)
    as (na & nb & nc & E).
  rewrite E, Hlevel, Htimes.
  unfold lowEnergyRule, highEnergyRule, optimalTimeRule, breakRuleOn. simpl.
  destruct (recentActivity_bounds clock lo hi Hclock
              (UserEnergyProfile.energyHistory
                 (RealTimeUserExperience.energyProfile ux)) nc)
    as (Hhi & Hlo & Hlen).
  destruct Hquiet as [Hfew|[s [Hs Hlow]]].
  - assert (E4 : (4 <=? Z.of_nat
                    (List.length
                       (fst (filterM isRecent
                               (UserEnergyProfile.energyHistory
                                  (RealTimeUserExperience.energyProfile ux))
                               clock nc)))) = false)
      by (apply Z.leb_gt; lia).
    now rewrite E4.
  - assert (El : existsb isLow
                   (fst (filterM isRecent
                           (UserEnergyProfile.energyHistory
                              (RealTimeUserExperience.energyProfile ux))
                           clock nc)) = true)
      by (apply existsb_isLow_iff; exists s; auto).
    rewrite El. now rewrite andb_false_r.
Qed.

Lemma very_low_energy_gives_one_suggestion_witness :
  fst (generateSmartSuggestions UTC quietExperience [] (@nil unit) (frozen t0) 0%nat)
  = [lowEnergySuggestion t0]
  /\ SmartSuggestion.priority (lowEnergySuggestion t0) = PriorityHigh.
Proof.
  apply (very_low_energy_gives_one_suggestion UTC quietExperience (@nil unit)
           (frozen t0) 0%nat t0 t0).
  - intros k. unfold frozen. lia.
  - reflexivity.
  - reflexivity.
  - left. simpl. lia.
Defined.

(** C6, the claim as stated fails: with four samples recorded within the
    last 60 minutes, none at level low, a user at level very-low with no
    tasks and no optimal study times gets two suggestions, the low-energy
    one and the break suggestion. *)
Lemma very_low_energy_with_recent_samples_gives_two :
  UserEnergyProfile.currentEnergyLevel
    (RealTimeUserExperience.energyProfile busyExperience) = VeryLow
  /\ UserEnergyProfile.optimalStudyTimes
       (RealTimeUserExperience.energyProfile busyExperience) = []
  /\ fst (generateSmartSuggestions UTC busyExperience [] (@nil unit) (frozen t0) 0%nat)
     = [lowEnergySuggestion t0; breakSuggestion t0]
  /\ List.length
       (fst (generateSmartSuggestions UTC busyExperience [] (@nil unit)
               (frozen t0) 0%nat)) <> 1%nat.
Proof.
  split; [reflexivity|]. split; [reflexivity|].
  assert (E : fst (generateSmartSuggestions UTC busyExperience [] (@nil unit)
                     (frozen t0) 0%nat)
              = [lowEnergySuggestion t0; breakSuggestion t0]) by reflexivity.
  split; [exact E|]. rewrite E. simpl. discriminate.
Qed.

(** C8.  When at least four samples of the history are stamped within the
    last 60 minutes and none of the samples stamped within the last 60
    minutes is at the level low (samples at very-low among them do not
    matter), the result of the generator contains the break suggestion,
    whose priority is medium.  The readings of the clock made during the
    call lie between [lo] and [hi]; for a call that takes place at one
    instant the two are that instant. *)
Theorem break_suggested_after_four_recent_samples {StudyPlan : Type}
    (tz : TimeZone) (ux : RealTimeUserExperience.t) (tasks : list Task.t)
    (studyPlans : list StudyPlan) (clock : Clock) (n : nat) (lo hi : Z)
    (Hclock : forall k, lo <= clock k <= hi)
    (Hfour : (4 <= List.length
                     (recentAt hi (UserEnergyProfile.energyHistory
                                     (RealTimeUserExperience.energyProfile ux))))%nat)
    (Hnolow : forall s,
        In s (recentAt lo (UserEnergyProfile.energyHistory
                             (RealTimeUserExperience.energyProfile ux))) ->
        EnergyDataPoint.energyLevel s <> Low) :
  exists t,
    lo <= t <= hi
    /\ In (breakSuggestion t)
          (fst (generateSmartSuggestions tz ux tasks studyPlans clock n))
    /\ SmartSuggestion.priority (breakSuggestion t) = PriorityMedium
    /\ SmartSuggestion.category (breakSuggestion t) = CatBreak.
Proof.
  destruct (generateSmartSuggestions_shape tz ux tasks studyPlans clock n)
    as (na & nb & nc & E).
  destruct (recentActivity_bounds clock lo hi Hclock
              (UserEnergyProfile.energyHistory
                 (RealTimeUserExperience.energyProfile ux)) nc)
    as (Hhi & Hlo & Hlen).
  eexists. split; [apply Hclock|]. split; [|split; reflexivity].
  rewrite E, !in_app_iff. right. right. right. unfold breakRuleOn.
  assert (E1 : (4 <=? Z.of_nat
                  (List.length
                     (fst (filterM isRecent
                             (UserEnergyProfile.energyHistory
                                (RealTimeUserExperience.energyProfile ux))
                             clock nc)))) = true)
    by (apply Z.leb_le; lia).
  assert (E2 : existsb isLow
                 (fst (filterM isRecent
                         (UserEnergyProfile.energyHistory
                            (RealTimeUserExperience.energyProfile ux))
                         clock nc)) = false).
  { destruct (existsb isLow _) eqn:Ex; [|reflexivity].
    apply existsb_isLow_iff in Ex. destruct Ex as [s [Hin Hs]].
    exfalso. exact (Hnolow s (Hlo s Hin) Hs). }
  rewrite E1, E2. simpl. left. reflexivity.
Qed.

Lemma break_suggested_after_four_recent_samples_witness :
  exists t,
    t0 <= t <= t0
    /\ In (breakSuggestion t)
          (fst (generateSmartSuggestions UTC fourVeryLowExperience [] (@nil unit)
                  (frozen t0) 0%nat))
    /\ SmartSuggestion.priority (breakSuggestion t) = PriorityMedium
    /\ SmartSuggestion.category (breakSuggestion t) = CatBreak.
Proof.
  apply (break_suggested_after_four_recent_samples UTC fourVeryLowExperience []
           (@nil unit) (frozen t0) 0%nat t0 t0).
  - intros k. unfold frozen. lia.
  - simpl. lia.
  - intros s Hs. vm_compute in Hs.
    destruct Hs as [H|[H|[H|[H|[]]]]]; subst s; simpl; discriminate.
Defined.

(** ** Peak hour and best day *)

Section UpsertInvariant.
Context {V : Type}.
Implicit Types (m : JSMap.t V) (k : Z).

Lemma set_set m k (a b : V) :
  JSMap.set (JSMap.set m k a) k b = JSMap.set m k b.
Proof.
  induction m as [|[k0 v0] r IH]; simpl.
  - now rewrite Z.eqb_refl.
  - destruct (k0 =? k) eqn:E; simpl.
    + now rewrite Z.eqb_refl.
    + now rewrite E, IH.
Qed.

Lemma Forall_set (P : Z * V -> Prop) m k (v : V) :
  Forall P m -> P (k, v) -> Forall P (JSMap.set m k v).
Proof.
  intros Hm Hv. induction m as [|[k0 v0] r IH]; simpl.
  - now constructor.
  - inversion Hm; subst. destruct (k0 =? k); constructor; auto.
Qed.

Lemma get_in m k (v : V) : JSMap.get m k = Some v -> In (k, v) m.
Proof.
  induction m as [|[k0 v0] r IH]; simpl; [discriminate|].
  destruct (k0 =? k) eqn:E.
  - apply Z.eqb_eq in E. intros H. inversion H. subst. now left.
  - intros H. right. now apply IH.
Qed.

Lemma upsert_Forall (P : V -> Prop) m k (zero : V) (f : V -> V) :
  P (f zero) -> (forall d, P d -> P (f d)) ->
  Forall (fun e => P (snd e)) m ->
  Forall (fun e => P (snd e)) (upsert m k zero f).
Proof.
  intros Hz Hf Hm. unfold upsert, JSMap.has.
  destruct (JSMap.get m k) as [d|] eqn:E; simpl.
  - rewrite E. apply Forall_set; [exact Hm|]. simpl. apply Hf.
    apply get_in in E. rewrite Forall_forall in Hm. exact (Hm _ E).
  - rewrite get_set_same, set_set. now apply Forall_set.
Qed.

Lemma last_cons (k d : Z) (l : list Z) : last (k :: l) d = last l k.
Proof.
  revert k d. induction l as [|a r IH]; intros k d; [reflexivity|].
  change (last (k :: a :: r) d) with (last (a :: r) d).
  now rewrite (IH a d), (IH a k).
Qed.

(** A reduction whose test succeeds at every entry ends on the last key. *)
Lemma reduce_always_replaces (average : V -> Q) (threshold : Z -> Q)
    (l : list (Z * V)) :
  Forall (fun e => forall max, Qgtb (average (snd e)) (threshold max) = true) l ->
  forall init,
    fold_left (fun max '(k, d) =>
                 if Qgtb (average d) (threshold max) then k else max) l init
    = last (map fst l) init.
Proof.
  induction 1 as [|[k d] r Hk Hr IH]; intros init; [reflexivity|].
  simpl fold_left. simpl in Hk. rewrite Hk, IH. simpl map.
  now rewrite last_cons.
Qed.

End UpsertInvariant.

Lemma ratio_positive (sum count : Z) :
  0 < sum -> 0 < count -> Qgtb (ratio sum count) 0 = true.
Proof.
  intros Hs Hc. unfold Qgtb, ratio.
  destruct (Qle_bool (inject_Z sum / inject_Z count) 0) eqn:E; [|reflexivity].
  apply Qle_bool_iff in E. exfalso. revert E. apply Qlt_not_le.
  apply Qlt_shift_div_l.
  - change 0%Q with (inject_Z 0). rewrite <- Zlt_Qlt. exact Hc.
  - rewrite Qmult_0_l. change 0%Q with (inject_Z 0). rewrite <- Zlt_Qlt. exact Hs.
Qed.

Lemma energyLevelToNumber_positive (level : EnergyLevel) :
  0 < energyLevelToNumber level.
Proof. destruct level; simpl; lia. Qed.

Lemma hourlyDataOf_positive (tz : TimeZone) (history : list EnergyDataPoint.t) :
  Forall (fun e => 0 < HourlyData.count (snd e) /\ 0 < HourlyData.energySum (snd e))
         (hourlyDataOf tz history).
Proof.
  unfold hourlyDataOf. induction history as [|p h IH] using rev_ind.
  - constructor.
  - rewrite fold_left_snoc, hourlyStep_upsert.
    pose proof (energyLevelToNumber_positive (EnergyDataPoint.energyLevel p)).
    apply (upsert_Forall
             (fun d => 0 < HourlyData.count d /\ 0 < HourlyData.energySum d));
      [simpl; lia | intros d [Hc Hs]; simpl; lia | exact IH].
Qed.

Lemma weeklyDataOf_positive (tz : TimeZone) (history : list EnergyDataPoint.t) :
  Forall (fun e => 0 < WeeklyData.count (snd e) /\ 0 < WeeklyData.energySum (snd e))
         (weeklyDataOf tz history).
Proof.
  unfold weeklyDataOf. induction history as [|p h IH] using rev_ind.
  - constructor.
  - rewrite fold_left_snoc, weeklyStep_upsert.
    pose proof (energyLevelToNumber_positive (EnergyDataPoint.energyLevel p)).
    apply (upsert_Forall
             (fun d => 0 < WeeklyData.count d /\ 0 < WeeklyData.energySum d));
      [simpl; lia | intros d [Hc Hs]; simpl; lia | exact IH].
Qed.

(** The value that the reducers compare every average with is zero: the
    property read from the aggregate of the running best key does not
    exist. *)
Lemma reducer_threshold_zero {A} (obj : option A) :
  undefinedOrZero (optionalIndex0 obj) = 0%Q.
Proof. destruct obj; reflexivity. Qed.

(** Whatever the averages, the hour named by the daily recommendation is
    the last key of the hourly map, that is, the hour of the day that was
    seen first latest in the history. *)
Lemma peakHourOf_last_key (tz : TimeZone) (history : list EnergyDataPoint.t) :
  peakHourOf (hourlyDataOf tz history)
  = last (JSMap.keys (hourlyDataOf tz history)) 0.
Proof.
  unfold peakHourOf, JSMap.entries, JSMap.keys.
  apply (reduce_always_replaces
           (fun data => ratio (HourlyData.energySum data) (HourlyData.count data))
           (fun max => undefinedOrZero
                         (optionalIndex0 (JSMap.get (hourlyDataOf tz history) max)))).
  eapply Forall_impl; [|apply hourlyDataOf_positive].
  intros [k d] [Hc Hs] max. simpl in *. rewrite reducer_threshold_zero.
  now apply ratio_positive.
Qed.

Lemma bestDayOf_last_key (tz : TimeZone) (history : list EnergyDataPoint.t) :
  bestDayOf (weeklyDataOf tz history)
  = last (JSMap.keys (weeklyDataOf tz history)) 0.
Proof.
  unfold bestDayOf, JSMap.entries, JSMap.keys.
  apply (reduce_always_replaces
           (fun data => ratio (WeeklyData.energySum data) (WeeklyData.count data))
           (fun max => undefinedOrZero
                         (optionalIndex0 (JSMap.get (weeklyDataOf tz history) max)))).
  eapply Forall_impl; [|apply weeklyDataOf_positive].
  intros [k d] [Hc Hs] max. simpl in *. rewrite reducer_threshold_zero.
  now apply ratio_positive.
Qed.

(** C1.  On a history of seven samples whose first sample, at 09:00 on a
    Thursday, is at level very-high and whose six later samples, at 14:00
    on the Friday, are at level very-low, the hour of maximal average energy
    is 9 and the day of maximal average energy is Thursday, and the
    recommendations name 14:00 and Friday, the keys seen last. *)
Theorem recommendations_name_last_seen_key :
  (7 <= List.length peakHistory)%nat
  /\ maxByAverage hourlyAverage (JSMap.entries (hourlyDataOf UTC peakHistory))
     = Some 9
  /\ maxByAverage weeklyAverage (JSMap.entries (weeklyDataOf UTC peakHistory))
     = Some 4
  /\ getDayName 4 = "Thursday"%string
  /\ map EnergyPattern.recommendations (analyzePatternsFromHistory UTC peakHistory)
     = [ ["Your peak energy hour is 14:00 - schedule important tasks then"%string];
         ["Friday is your most productive day"%string] ].
Proof.
  split; [simpl; lia|]. repeat split; reflexivity.
Qed.

(** ** Morning and evening ranges *)

(** On the labels that the analyzer produces, the lexical test for the
    morning range holds for the hours 0 and 10 and no other, and the one for
    the evening range for the hours 1 and 18 to 22. *)
Lemma lexical_morning_hours :
  filter (fun h => labelBetween "06:00" "10:00" (showZ h ++ ":00")) hoursOfDay
  = [0; 10].
Proof. reflexivity. Qed.

Lemma lexical_evening_hours :
  filter (fun h => labelBetween "18:00" "22:00" (showZ h ++ ":00")) hoursOfDay
  = [1; 18; 19; 20; 21; 22].
Proof. reflexivity. Qed.

(** With a daily pattern present, the classifier compares the two sums over
    the fixed divisor 4 and answers with the confidence levels 0.8, 0.8 and
    0.7; the entries of each sum are chosen by the lexical test. *)
Lemma determineUserPersona_with_daily
    (energyProfile : UserEnergyProfile.t) (dailyPattern : EnergyPattern.t) :
  find isDaily (UserEnergyProfile.energyPatterns energyProfile) = Some dailyPattern ->
  determineUserPersona energyProfile
  = if Qgtb (morningEnergyOf dailyPattern) (eveningEnergyOf dailyPattern + (1 # 2))
    then earlyBirdPersona
    else if Qgtb (eveningEnergyOf dailyPattern) (morningEnergyOf dailyPattern + (1 # 2))
    then nightOwlPersona
    else flexiblePersona.
Proof. intros H. unfold determineUserPersona. now rewrite H. Qed.

(** C2.  For the profile whose patterns come from seven samples at level
    very-high at 09:00, the daily pattern has the single entry labelled
    9:00 with average energy 5; its hour, 9, lies in the range 06:00 to
    10:00, so that by hour the morning energy is 5/4 and the persona is
    early-bird with confidence 0.8; the classifier computes the morning
    energy 0 and returns flexible with confidence 0.7. *)
Theorem classifier_misses_nine_oclock :
  (exists dailyPattern,
      find isDaily (UserEnergyProfile.energyPatterns morningProfile)
        = Some dailyPattern
      /\ map PatternEntry.timeSlot (EnergyPattern.pattern dailyPattern)
         = ["9:00"%string]
      /\ map hourOfLabel (map PatternEntry.timeSlot (EnergyPattern.pattern dailyPattern))
         = [Some 9]
      /\ (morningEnergyByHour dailyPattern == 5 / 4)%Q
      /\ (morningEnergyOf dailyPattern == 0)%Q
      /\ (eveningEnergyOf dailyPattern == 0)%Q)
  /\ personaByHour morningProfile = earlyBirdPersona
  /\ determineUserPersona morningProfile = flexiblePersona
  /\ UserPersona.confidenceLevel (determineUserPersona morningProfile) = 7 # 10.
Proof.
  split.
  - eexists. split; [reflexivity|]. repeat split; reflexivity.
  - repeat split; reflexivity.
Qed.

(** * Further properties *)

(** ** The analyzer's maps, stated on the history *)

Section FoldUpsert.
Context {V : Type}.
Variables (key : EnergyDataPoint.t -> Z) (zero : V)
          (upd : EnergyDataPoint.t -> V -> V)
          (step : JSMap.t V -> EnergyDataPoint.t -> JSMap.t V).
Hypothesis step_upsert : forall m p, step m p = upsert m (key p) zero (upd p).

Lemma has_existsb_keys (m : JSMap.t V) (k : Z) :
  JSMap.has m k = existsb (Z.eqb k) (JSMap.keys m).
Proof.
  unfold JSMap.has, JSMap.keys. induction m as [|[k0 v0] r IH]; simpl; [reflexivity|].
  rewrite (Z.eqb_sym k k0). destruct (k0 =? k); simpl; [reflexivity | exact IH].
Qed.

Lemma fold_upsert_keys (history : list EnergyDataPoint.t) :
  JSMap.keys (fold_left step history JSMap.empty) = firstSeen (map key history).
Proof.
  unfold firstSeen. induction history as [|p h IH] using rev_ind; [reflexivity|].
  rewrite map_app, !fold_left_snoc. simpl map. rewrite fold_left_snoc.
  rewrite step_upsert, upsert_keys, has_existsb_keys, IH. reflexivity.
Qed.

Lemma fold_upsert_NoDup (history : list EnergyDataPoint.t) :
  NoDup (JSMap.keys (fold_left step history JSMap.empty)).
Proof.
  induction history as [|p h IH] using rev_ind; [constructor|].
  rewrite fold_left_snoc, step_upsert. now apply upsert_NoDup.
Qed.

Lemma aggregate_snoc (ps : list EnergyDataPoint.t) (p : EnergyDataPoint.t) :
  aggregate zero upd (ps ++ [p]) = upd p (aggregate zero upd ps).
Proof. unfold aggregate. now rewrite fold_left_snoc. Qed.

Lemma fold_upsert_get (history : list EnergyDataPoint.t) (k : Z) :
  JSMap.get (fold_left step history JSMap.empty) k
  = match filter (fun p => key p =? k) history with
    | [] => None
    | ps => Some (aggregate zero upd ps)
    end.
Proof.
  induction history as [|p h IH] using rev_ind; [reflexivity|].
  rewrite fold_left_snoc, step_upsert, filter_app. simpl filter.
  destruct (key p =? k) eqn:E.
  - apply Z.eqb_eq in E. subst k. rewrite upsert_get_same, IH.
    destruct (filter (fun p0 => key p0 =? key p) h) as [|a r] eqn:F.
    + reflexivity.
    + cbn [valueOr]. change ((a :: r) ++ [p]) with (a :: (r ++ [p])).
      cbv iota. now rewrite app_comm_cons, aggregate_snoc.
  - rewrite upsert_get_other by (intros H; subst k; now rewrite Z.eqb_refl in E).
    now rewrite app_nil_r.
Qed.

(** Every entry of the map holds the aggregate of the samples of its key,
    of which there is at least one. *)
Lemma fold_upsert_entry (history : list EnergyDataPoint.t) (k : Z) (d : V) :
  In (k, d) (fold_left step history JSMap.empty) ->
  filter (fun p => key p =? k) history <> []
  /\ d = aggregate zero upd (filter (fun p => key p =? k) history).
Proof.
  intros Hin. apply (in_get _ _ _ (fold_upsert_NoDup history)) in Hin.
  rewrite fold_upsert_get in Hin.
  destruct (filter (fun p => key p =? k) history); [discriminate|].
  inversion Hin. split; [discriminate | reflexivity].
Qed.

End FoldUpsert.

Lemma hourly_aggregate (ps : list EnergyDataPoint.t) :
  aggregate
    {| HourlyData.total := 0; HourlyData.count := 0; HourlyData.energySum := 0 |}
    (fun point data =>
       {| HourlyData.total := HourlyData.total data;
          HourlyData.count := HourlyData.count data + 1;
          HourlyData.energySum :=
            HourlyData.energySum data
            + energyLevelToNumber (EnergyDataPoint.energyLevel point) |})
    ps
  = {| HourlyData.total := 0;
       HourlyData.count := countOf ps;
       HourlyData.energySum := energyTotal ps |}.
Proof.
  induction ps as [|p r IH] using rev_ind; [reflexivity|].
  rewrite aggregate_snoc, IH, countOf_app, energyTotal_app. simpl.
  f_equal. unfold energyTotal. simpl. lia.
Qed.

Lemma weekly_aggregate (ps : list EnergyDataPoint.t) :
  aggregate
    {| WeeklyData.energySum := 0; WeeklyData.count := 0 |}
    (fun point data =>
       {| WeeklyData.energySum :=
            WeeklyData.energySum data
            + energyLevelToNumber (EnergyDataPoint.energyLevel point);
          WeeklyData.count := WeeklyData.count data + 1 |})
    ps
  = {| WeeklyData.energySum := energyTotal ps; WeeklyData.count := countOf ps |}.
Proof.
  induction ps as [|p r IH] using rev_ind; [reflexivity|].
  rewrite aggregate_snoc, IH, countOf_app, energyTotal_app. simpl.
  f_equal. unfold energyTotal. simpl. lia.
Qed.

Lemma map_entries_by_key {V : Type} (m : JSMap.t V)
    (f : Z * V -> PatternEntry.t) (g : Z -> PatternEntry.t) :
  (forall k d, In (k, d) m -> f (k, d) = g k) ->
  map f (JSMap.entries m) = map g (JSMap.keys m).
Proof.
  intros H. unfold JSMap.entries, JSMap.keys. rewrite map_map.
  apply map_ext_in. intros [k d] Hin. simpl. now apply H.
Qed.

Lemma daily_entries_on_history (tz : TimeZone) (history : list EnergyDataPoint.t) :
  map dailyEntry (JSMap.entries (hourlyDataOf tz history))
  = map (dailyEntryAt tz history) (firstSeen (map (hourOf tz) history)).
Proof.
  unfold hourlyDataOf.
  rewrite <- (fold_upsert_keys (hourOf tz) _ _ (hourlyStep tz) (hourlyStep_upsert tz)).
  apply map_entries_by_key. intros k d Hin.
  destruct (fold_upsert_entry (hourOf tz) _ _ (hourlyStep tz) (hourlyStep_upsert tz)
              history k d Hin) as [_ Hd].
  rewrite hourly_aggregate in Hd. subst d. reflexivity.
Qed.

Lemma weekly_entries_on_history (tz : TimeZone) (history : list EnergyDataPoint.t) :
  map weeklyEntry (JSMap.entries (weeklyDataOf tz history))
  = map (weeklyEntryOn tz history) (firstSeen (map (dayOf tz) history)).
Proof.
  unfold weeklyDataOf.
  rewrite <- (fold_upsert_keys (dayOf tz) _ _ (weeklyStep tz) (weeklyStep_upsert tz)).
  apply map_entries_by_key. intros k d Hin.
  destruct (fold_upsert_entry (dayOf tz) _ _ (weeklyStep tz) (weeklyStep_upsert tz)
              history k d Hin) as [_ Hd].
  rewrite weekly_aggregate in Hd. subst d. reflexivity.
Qed.

Lemma fold_upsert_key_seen {V : Type} (key : EnergyDataPoint.t -> Z) (zero : V)
    (upd : EnergyDataPoint.t -> V -> V)
    (step : JSMap.t V -> EnergyDataPoint.t -> JSMap.t V)
    (Hstep : forall m p, step m p = upsert m (key p) zero (upd p))
    (history : list EnergyDataPoint.t) (k : Z) :
  In k (JSMap.keys (fold_left step history JSMap.empty)) ->
  exists p, In p history /\ key p = k.
Proof.
  unfold JSMap.keys. rewrite in_map_iff. intros [[k' d] [Hk Hin]]. simpl in Hk.
  subst k'.
  destruct (fold_upsert_entry key zero upd step Hstep history k d Hin) as [Hne _].
  destruct (filter (fun p => key p =? k) history) as [|p r] eqn:F; [congruence|].
  assert (Hp : In p (filter (fun p => key p =? k) history))
    by (rewrite F; now left).
  apply filter_In in Hp. destruct Hp as [Hp Hk]. apply Z.eqb_eq in Hk.
  now exists p.
Qed.

Lemma analyzer_patterns_eq (tz : TimeZone) (history : list EnergyDataPoint.t) :
  analyzePatternsFromHistory tz history
  = if (Z.of_nat (List.length history) <? 7) then []
    else
      [ {| EnergyPattern.type := Daily;
           EnergyPattern.pattern :=
             map (dailyEntryAt tz history) (firstSeen (map (hourOf tz) history));
           EnergyPattern.recommendations :=
             generateDailyRecommendations (hourlyDataOf tz history) |};
        {| EnergyPattern.type := Weekly;
           EnergyPattern.pattern :=
             map (weeklyEntryOn tz history) (firstSeen (map (dayOf tz) history));
           EnergyPattern.recommendations :=
             generateWeeklyRecommendations (weeklyDataOf tz history) |} ].
Proof.
  unfold analyzePatternsFromHistory.
  destruct (Z.of_nat (List.length history) <? 7); [reflexivity|].
  now rewrite daily_entries_on_history, weekly_entries_on_history.
Qed.

(** X1.  With at least seven samples the analyzer returns the daily and the
    weekly pattern, in this order.  The daily pattern has one entry per hour
    of the day that occurs in the history, in the order in which the hours
    first occur, and the entry of an hour carries the mean energy value of
    the samples of that hour and the confidence min(count/7, 1); the weekly
    pattern has likewise one entry per day of the week, with the confidence
    min(count/4, 1). *)
Theorem analyzer_patterns_on_history
    (tz : TimeZone) (history : list EnergyDataPoint.t)
    (Hlong : (7 <= List.length history)%nat) :
  map EnergyPattern.type (analyzePatternsFromHistory tz history) = [Daily; Weekly]
  /\ map EnergyPattern.pattern (analyzePatternsFromHistory tz history)
     = [ map (dailyEntryAt tz history) (firstSeen (map (hourOf tz) history));
         map (weeklyEntryOn tz history) (firstSeen (map (dayOf tz) history)) ].
Proof.
  rewrite analyzer_patterns_eq.
  assert (E : (Z.of_nat (List.length history) <? 7) = false)
    by (apply Z.ltb_ge; lia).
  rewrite E. split; reflexivity.
Qed.

Lemma analyzer_patterns_on_history_witness :
  map EnergyPattern.type (analyzePatternsFromHistory UTC peakHistory) = [Daily; Weekly]
  /\ map EnergyPattern.pattern (analyzePatternsFromHistory UTC peakHistory)
     = [ map (dailyEntryAt UTC peakHistory) (firstSeen (map (hourOf UTC) peakHistory));
         map (weeklyEntryOn UTC peakHistory) (firstSeen (map (dayOf UTC) peakHistory)) ].
Proof.
  apply (analyzer_patterns_on_history UTC peakHistory). simpl. lia.
Defined.

(** ** Bounds on the analyzer's entries *)

Lemma ratio_bounds (sum count : Z) :
  0 < count -> count <= sum <= 5 * count ->
  (1 <= ratio sum count <= 5)%Q.
Proof.
  intros Hc [Hlo Hhi]. unfold ratio.
  assert (Hq : (0 < inject_Z count)%Q)
    by (change 0%Q with (inject_Z 0); now rewrite <- Zlt_Qlt).
  split.
  - apply Qle_shift_div_l; [exact Hq|]. rewrite Qmult_1_l.
    now rewrite <- Zle_Qle.
  - apply Qle_shift_div_r; [exact Hq|].
    change 5%Q with (inject_Z 5). rewrite <- inject_Z_mult, <- Zle_Qle. lia.
Qed.

Lemma confidence_bounds (count : Z) (threshold : Q) :
  0 < count -> (0 < threshold)%Q ->
  (0 < Qmin (inject_Z count / threshold) 1 <= 1)%Q.
Proof.
  intros Hc Ht. split; [|apply Q.le_min_r].
  apply Q.min_glb_lt; [|reflexivity].
  apply Qlt_shift_div_l; [exact Ht|]. rewrite Qmult_0_l.
  change 0%Q with (inject_Z 0). now rewrite <- Zlt_Qlt.
Qed.

Lemma samples_bounds (ps : list EnergyDataPoint.t) :
  ps <> [] -> 0 < countOf ps /\ countOf ps <= energyTotal ps <= 5 * countOf ps.
Proof.
  intros Hne. split; [now apply countOf_pos|]. clear Hne.
  unfold countOf, energyTotal. induction ps as [|a r IH];
    simpl List.length; simpl map; simpl fold_right; [lia|].
  destruct (EnergyDataPoint.energyLevel a); simpl energyLevelToNumber; lia.
Qed.

Lemma firstSeen_hours_seen (tz : TimeZone) (history : list EnergyDataPoint.t) (k : Z) :
  In k (firstSeen (map (hourOf tz) history)) ->
  samplesAt tz k history <> [] /\ 0 <= k < 24.
Proof.
  rewrite <- (fold_upsert_keys (hourOf tz) _ _ (hourlyStep tz) (hourlyStep_upsert tz)).
  intros Hk.
  destruct (fold_upsert_key_seen (hourOf tz) _ _ (hourlyStep tz) (hourlyStep_upsert tz)
              history k Hk) as [p [Hp Hkp]].
  split.
  - intros Hnil.
    assert (Hin : In p (samplesAt tz k history)).
    { unfold samplesAt. apply filter_In. split; [exact Hp|].
      apply Z.eqb_eq. exact Hkp. }
    rewrite Hnil in Hin. contradiction.
  - subst k. unfold hourOf, getHours. apply Z.mod_pos_bound. lia.
Qed.

Lemma firstSeen_days_seen (tz : TimeZone) (history : list EnergyDataPoint.t) (k : Z) :
  In k (firstSeen (map (dayOf tz) history)) ->
  samplesOn tz k history <> [] /\ 0 <= k < 7.
Proof.
  rewrite <- (fold_upsert_keys (dayOf tz) _ _ (weeklyStep tz) (weeklyStep_upsert tz)).
  intros Hk.
  destruct (fold_upsert_key_seen (dayOf tz) _ _ (weeklyStep tz) (weeklyStep_upsert tz)
              history k Hk) as [p [Hp Hkp]].
  split.
  - intros Hnil.
    assert (Hin : In p (samplesOn tz k history)).
    { unfold samplesOn. apply filter_In. split; [exact Hp|].
      apply Z.eqb_eq. exact Hkp. }
    rewrite Hnil in Hin. contradiction.
  - subst k. unfold dayOf, getDay. apply Z.mod_pos_bound. lia.
Qed.

Lemma firstSeen_NoDup_hours (tz : TimeZone) (history : list EnergyDataPoint.t) :
  NoDup (firstSeen (map (hourOf tz) history)).
Proof.
  rewrite <- (fold_upsert_keys (hourOf tz) _ _ (hourlyStep tz) (hourlyStep_upsert tz)).
  apply (fold_upsert_NoDup (hourOf tz) _ _ (hourlyStep tz) (hourlyStep_upsert tz)).
Qed.

Lemma firstSeen_NoDup_days (tz : TimeZone) (history : list EnergyDataPoint.t) :
  NoDup (firstSeen (map (dayOf tz) history)).
Proof.
  rewrite <- (fold_upsert_keys (dayOf tz) _ _ (weeklyStep tz) (weeklyStep_upsert tz)).
  apply (fold_upsert_NoDup (dayOf tz) _ _ (weeklyStep tz) (weeklyStep_upsert tz)).
Qed.

(** A list of distinct integers between 0 and [n] has at most [n] elements. *)
Lemma NoDup_range_length (l : list Z) (n : nat) :
  NoDup l -> (forall k, In k l -> 0 <= k < Z.of_nat n) ->
  (List.length l <= n)%nat.
Proof.
  intros Hnd Hrange.
  assert (Hincl : incl l (map Z.of_nat (seq 0 n))).
  { intros k Hk. specialize (Hrange k Hk). apply in_map_iff.
    exists (Z.to_nat k). split; [lia|]. apply in_seq. lia. }
  pose proof (NoDup_incl_length Hnd Hincl) as H.
  now rewrite length_map, length_seq in H.
Qed.

(** X2.  Whatever the history, every entry of a pattern that the analyzer
    returns has an average energy between 1 and 5 and a confidence greater
    than 0 and at most 1; a daily pattern has at most 24 entries and a
    weekly pattern at most 7. *)
Theorem analyzer_entries_bounded
    (tz : TimeZone) (history : list EnergyDataPoint.t) (p : EnergyPattern.t)
    (Hp : In p (analyzePatternsFromHistory tz history)) :
  (forall e, In e (EnergyPattern.pattern p) ->
             (1 <= PatternEntry.averageEnergy e <= 5)%Q
             /\ (0 < PatternEntry.confidence e <= 1)%Q)
  /\ (EnergyPattern.type p = Daily -> (List.length (EnergyPattern.pattern p) <= 24)%nat)
  /\ (EnergyPattern.type p = Weekly -> (List.length (EnergyPattern.pattern p) <= 7)%nat)
  /\ EnergyPattern.type p <> Monthly.
Proof.
  rewrite analyzer_patterns_eq in Hp.
  destruct (Z.of_nat (List.length history) <? 7); [contradiction|].
  destruct Hp as [Hp|[Hp|[]]]; subst p; simpl.
  - split; [|split; [|split]].
    + intros e He. apply in_map_iff in He. destruct He as [k [He Hk]]. subst e.
      destruct (firstSeen_hours_seen tz history k Hk) as [Hne _].
      destruct (samples_bounds _ Hne) as [Hc Hs]. simpl. split.
      * now apply ratio_bounds.
      * apply confidence_bounds; [exact Hc | reflexivity].
    + intros _. rewrite length_map.
      apply NoDup_range_length; [apply firstSeen_NoDup_hours|].
      intros k Hk. now destruct (firstSeen_hours_seen tz history k Hk).
    + discriminate.
    + discriminate.
  - split; [|split; [|split]].
    + intros e He. apply in_map_iff in He. destruct He as [k [He Hk]]. subst e.
      destruct (firstSeen_days_seen tz history k Hk) as [Hne _].
      destruct (samples_bounds _ Hne) as [Hc Hs]. simpl. split.
      * now apply ratio_bounds.
      * apply confidence_bounds; [exact Hc | reflexivity].
    + discriminate.
    + intros _. rewrite length_map.
      apply NoDup_range_length; [apply firstSeen_NoDup_days|].
      intros k Hk. now destruct (firstSeen_days_seen tz history k Hk).
    + discriminate.
Qed.

Lemma analyzer_entries_bounded_witness :
  (forall e, In e (EnergyPattern.pattern sevenSamplesDaily) ->
             (1 <= PatternEntry.averageEnergy e <= 5)%Q
             /\ (0 < PatternEntry.confidence e <= 1)%Q)
  /\ (EnergyPattern.type sevenSamplesDaily = Daily ->
      (List.length (EnergyPattern.pattern sevenSamplesDaily) <= 24)%nat)
  /\ (EnergyPattern.type sevenSamplesDaily = Weekly ->
      (List.length (EnergyPattern.pattern sevenSamplesDaily) <= 7)%nat)
  /\ EnergyPattern.type sevenSamplesDaily <> Monthly.
Proof.
  apply (analyzer_entries_bounded UTC sevenSamples sevenSamplesDaily).
  vm_compute. left. reflexivity.
Defined.

(** ** Order and completeness of the optimal windows *)

Lemma insertSlot_perm (x : TimeSlot.t) (l : list TimeSlot.t) :
  Permutation (insertSlot x l) (x :: l).
Proof.
  induction l as [|y r IH]; simpl; [reflexivity|].
  destruct (Qle_bool (TimeSlot.energyLevel y - TimeSlot.energyLevel x) 0).
  - reflexivity.
  - rewrite IH. apply perm_swap.
Qed.

Lemma sortSlots_perm (l : list TimeSlot.t) : Permutation (sortSlots l) l.
Proof.
  unfold sortSlots. induction l as [|x r IH]; simpl; [reflexivity|].
  rewrite insertSlot_perm. now constructor.
Qed.

Lemma comparator_le (x y : TimeSlot.t) :
  Qle_bool (TimeSlot.energyLevel y - TimeSlot.energyLevel x) 0 = true
  <-> byEnergyDescending x y.
Proof.
  unfold byEnergyDescending. rewrite Qle_bool_iff. split; intros H.
  - apply Qplus_le_l with (z := (- TimeSlot.energyLevel x)%Q).
    rewrite Qplus_opp_r. exact H.
  - apply Qplus_le_l with (z := TimeSlot.energyLevel x).
    rewrite Qplus_0_l. unfold Qminus. rewrite <- Qplus_assoc.
    rewrite (Qplus_comm (- TimeSlot.energyLevel x)), Qplus_opp_r, Qplus_0_r.
    exact H.
Qed.

Lemma insertSlot_sorted (x : TimeSlot.t) (l : list TimeSlot.t) :
  StronglySorted byEnergyDescending l ->
  StronglySorted byEnergyDescending (insertSlot x l).
Proof.
  induction 1 as [|y r Hr IH Hy]; simpl.
  - repeat constructor.
  - destruct (Qle_bool (TimeSlot.energyLevel y - TimeSlot.energyLevel x) 0) eqn:E.
    + apply comparator_le in E. constructor; [now constructor|].
      constructor; [exact E|].
      rewrite Forall_forall in *. intros z Hz. specialize (Hy z Hz).
      unfold byEnergyDescending in *. now apply Qle_trans with (TimeSlot.energyLevel y).
    + constructor; [exact IH|].
      rewrite Forall_forall in *. intros z Hz. apply insertSlot_in in Hz.
      destruct Hz as [->|Hz]; [|now apply Hy].
      unfold byEnergyDescending.
      destruct (Qlt_le_dec (TimeSlot.energyLevel x) (TimeSlot.energyLevel y))
        as [Hlt|Hle]; [now apply Qlt_le_weak|].
      apply (proj2 (comparator_le x y)) in Hle. congruence.
Qed.

Lemma sortSlots_sorted (l : list TimeSlot.t) :
  StronglySorted byEnergyDescending (sortSlots l).
Proof.
  unfold sortSlots. induction l as [|x r IH]; simpl; [constructor|].
  now apply insertSlot_sorted.
Qed.

Lemma pushSlots_acc (es : list (Z * HourlyPerformance.t)) :
  forall acc, pushSlots es acc = acc ++ pushSlots es [].
Proof.
  induction es as [|e r IH]; intros acc; simpl.
  - now rewrite app_nil_r.
  - destruct (slotOf e) as [slot|].
    + rewrite (IH (acc ++ [slot])). simpl app. rewrite (IH [slot]).
      now rewrite <- app_assoc.
    + apply IH.
Qed.

Lemma slotOf_startHour (e : Z * HourlyPerformance.t) (slot : TimeSlot.t) :
  slotOf e = Some slot ->
  TimeSlot.startHour slot = fst e
  /\ TimeSlot.endHour slot = fst e + 1.
Proof.
  destruct e as [hour data]. unfold slotOf.
  destruct (Qgeb _ 3 && Qgeb _ (7 # 10)); [|discriminate].
  intros H. inversion H. split; reflexivity.
Qed.

Lemma pushSlots_hours (es : list (Z * HourlyPerformance.t)) :
  NoDup (map fst es) ->
  NoDup (map TimeSlot.startHour (pushSlots es []))
  /\ forall k, In k (map TimeSlot.startHour (pushSlots es [])) -> In k (map fst es).
Proof.
  induction es as [|e r IH]; simpl; intros Hnd.
  - split; [constructor | tauto].
  - inversion Hnd as [|? ? Hnotin Hnd']; subst.
    destruct (IH Hnd') as [IHnd IHin].
    destruct (slotOf e) as [slot|] eqn:E.
    + rewrite pushSlots_acc. simpl.
      destruct (slotOf_startHour e slot E) as [Hs _]. rewrite Hs. split.
      * constructor; [|exact IHnd]. intros H. apply Hnotin. now apply IHin.
      * intros k [Hk|Hk]; [now left | right; now apply IHin].
    + split; [exact IHnd | intros k Hk; right; now apply IHin].
Qed.

(** X3.  The optimal windows come in descending order of energy level,
    stand for distinct hours of the day between 0 and 23, each ending one
    hour after it starts, so that there are at most 24 of them. *)
Theorem optimal_slots_ordered_and_distinct
    (tz : TimeZone) (history : list EnergyDataPoint.t) :
  StronglySorted byEnergyDescending (calculateOptimalStudyTimes tz history)
  /\ NoDup (map TimeSlot.startHour (calculateOptimalStudyTimes tz history))
  /\ (forall slot, In slot (calculateOptimalStudyTimes tz history) ->
        0 <= TimeSlot.startHour slot < 24
        /\ TimeSlot.endHour slot = TimeSlot.startHour slot + 1)
  /\ (List.length (calculateOptimalStudyTimes tz history) <= 24)%nat.
Proof.
  unfold calculateOptimalStudyTimes.
  destruct (Z.of_nat (List.length history) <? 7).
  { repeat split; try constructor; try contradiction. simpl. lia. }
  set (m := hourlyPerformanceOf tz history).
  assert (Hkeys : NoDup (map fst (JSMap.entries m)))
    by apply (fold_upsert_NoDup (hourOf tz) _ _ (performanceStep tz)
                (performanceStep_upsert tz)).
  destruct (pushSlots_hours (JSMap.entries m) Hkeys) as [Hnd Hin].
  assert (Hperm := sortSlots_perm (pushSlots (JSMap.entries m) [])).
  assert (Hrange : forall slot,
             In slot (sortSlots (pushSlots (JSMap.entries m) [])) ->
             0 <= TimeSlot.startHour slot < 24
             /\ TimeSlot.endHour slot = TimeSlot.startHour slot + 1).
  { intros slot Hs. apply (proj1 (sortSlots_in _ _)) in Hs.
    pose proof Hs as Hs'. apply (proj1 (pushSlots_in _ _ _)) in Hs'.
    destruct Hs' as [[]|[e [He Hslot]]].
    destruct (slotOf_startHour e slot Hslot) as [H1 H2]. rewrite H1, H2.
    split; [|reflexivity].
    assert (Hk : In (fst e) (JSMap.keys m)) by (now apply in_map).
    destruct (fold_upsert_key_seen (hourOf tz) _ _ (performanceStep tz)
                (performanceStep_upsert tz) history (fst e) Hk) as [p [_ Hp]].
    rewrite <- Hp. unfold hourOf, getHours. apply Z.mod_pos_bound. lia. }
  assert (Hnd' : NoDup (map TimeSlot.startHour
                          (sortSlots (pushSlots (JSMap.entries m) [])))).
  { apply (Permutation_NoDup (l := map TimeSlot.startHour
                                     (pushSlots (JSMap.entries m) [])));
      [|exact Hnd].
    apply Permutation_map. now symmetry. }
  split; [apply sortSlots_sorted|]. split; [exact Hnd'|]. split; [exact Hrange|].
  rewrite <- (length_map TimeSlot.startHour).
  apply NoDup_range_length; [exact Hnd'|].
  intros k Hk. apply in_map_iff in Hk. destruct Hk as [slot [<- Hs]].
  now destruct (Hrange slot Hs).
Qed.

(** X4.  With at least seven samples, every hour of the day whose samples
    have a mean energy value of at least 3 and of which at least seven in
    ten were completed gets a window: the result holds the slot of that
    hour, with the mean as its energy level. *)
Theorem qualifying_hour_gets_a_slot
    (tz : TimeZone) (history : list EnergyDataPoint.t) (hour : Z)
    (Hlong : (7 <= List.length history)%nat)
    (Hsamples : samplesAt tz hour history <> [])
    (Henergy : (3 <= averageEnergyAt tz hour history)%Q)
    (Hrate : (7 # 10 <= completionRateAt tz hour history)%Q) :
  exists slot,
    In slot (calculateOptimalStudyTimes tz history)
    /\ TimeSlot.startHour slot = hour
    /\ TimeSlot.endHour slot = hour + 1
    /\ TimeSlot.energyLevel slot = averageEnergyAt tz hour history.
Proof.
  unfold calculateOptimalStudyTimes.
  assert (E : (Z.of_nat (List.length history) <? 7) = false)
    by (apply Z.ltb_ge; lia).
  rewrite E.
  destruct (hourlyPerformanceOf_agrees tz history) as [_ Hag].
  specialize (Hag hour).
  destruct (JSMap.get (hourlyPerformanceOf tz history) hour) as [data|] eqn:G;
    [|contradiction].
  destruct Hag as (_ & Hc & Hs & Hr).
  assert (Hslot : exists slot,
             slotOf (hour, data) = Some slot
             /\ TimeSlot.startHour slot = hour
             /\ TimeSlot.endHour slot = hour + 1
             /\ TimeSlot.energyLevel slot = averageEnergyAt tz hour history).
  { unfold slotOf. unfold averageEnergyAt, completionRateAt in *.
    rewrite Hc, Hs, Hr. unfold Qgeb.
    rewrite (proj2 (Qle_bool_iff _ _) Henergy), (proj2 (Qle_bool_iff _ _) Hrate).
    simpl. eexists. repeat split; reflexivity. }
  destruct Hslot as (slot & Hslot & H1 & H2 & H3).
  exists slot. split; [|auto].
  apply sortSlots_in, pushSlots_in. right. exists (hour, data).
  split; [now apply get_in | exact Hslot].
Qed.

Lemma qualifying_hour_gets_a_slot_witness :
  exists slot,
    In slot (calculateOptimalStudyTimes UTC sevenSamples)
    /\ TimeSlot.startHour slot = 9
    /\ TimeSlot.endHour slot = 9 + 1
    /\ TimeSlot.energyLevel slot = averageEnergyAt UTC 9 sevenSamples.
Proof.
  apply (qualifying_hour_gets_a_slot UTC sevenSamples 9).
  - simpl. lia.
  - vm_compute. discriminate.
  - vm_compute. discriminate.
  - vm_compute. discriminate.
Defined.

(** ** Metrics aggregator: scores *)

Lemma fold_add_fin {A} (f : A -> JSNumber.t) (g : A -> Q) (l : list A) :
  (forall x, f x = JSNumber.Fin (g x)) ->
  forall a, exists q,
    fold_left (fun sum x => JSNumber.add sum (f x)) l (JSNumber.Fin a)
    = JSNumber.Fin q
    /\ (q == a + sumQ (map g l))%Q.
Proof.
  intros Hf. induction l as [|x r IH]; intros a; simpl.
  - exists a. split; [reflexivity | ring].
  - rewrite Hf. simpl. destruct (IH (a + g x)%Q) as [q [E Hq]].
    exists q. split; [exact E|]. rewrite Hq. ring.
Qed.

Lemma sumQ_bounds {A} (g : A -> Q) (lo hi : Q) (l : list A) :
  (forall x, In x l -> (lo <= g x <= hi)%Q) ->
  (inject_Z (Z.of_nat (List.length l)) * lo <= sumQ (map g l)
   <= inject_Z (Z.of_nat (List.length l)) * hi)%Q.
Proof.
  induction l as [|x r IH]; intros H.
  - simpl. split; rewrite Qmult_0_l; apply Qle_refl.
  - assert (Hx := H x (or_introl eq_refl)).
    assert (Hr : forall y, In y r -> (lo <= g y <= hi)%Q)
      by (intros y Hy; apply H; now right).
    specialize (IH Hr).
    replace (Z.of_nat (List.length (x :: r)))
      with (1 + Z.of_nat (List.length r)) by (simpl List.length; lia).
    rewrite inject_Z_plus. simpl map. simpl sumQ. split.
    + setoid_replace ((inject_Z 1 + inject_Z (Z.of_nat (List.length r))) * lo)%Q
        with (lo + inject_Z (Z.of_nat (List.length r)) * lo)%Q by ring.
      apply Qplus_le_compat; tauto.
    + setoid_replace ((inject_Z 1 + inject_Z (Z.of_nat (List.length r))) * hi)%Q
        with (hi + inject_Z (Z.of_nat (List.length r)) * hi)%Q by ring.
      apply Qplus_le_compat; tauto.
Qed.

Lemma length_pos_Q {A} (l : list A) :
  l <> [] -> (0 < inject_Z (Z.of_nat (List.length l)))%Q.
Proof.
  intros H. change 0%Q with (inject_Z 0). rewrite <- Zlt_Qlt.
  destruct l; [congruence | simpl List.length; lia].
Qed.

(** The mean of values between [lo] and [hi] lies between [lo] and [hi]. *)
Lemma mean_bounds {A} (g : A -> Q) (lo hi : Q) (l : list A) (q : Q) :
  l <> [] ->
  (forall x, In x l -> (lo <= g x <= hi)%Q) ->
  (q == sumQ (map g l))%Q ->
  (lo <= q / inject_Z (Z.of_nat (List.length l)) <= hi)%Q.
Proof.
  intros Hne Hg Hq. pose proof (length_pos_Q l Hne) as Hn.
  destruct (sumQ_bounds g lo hi l Hg) as [Hlo Hhi]. rewrite Hq. split.
  - apply Qle_shift_div_l; [exact Hn|]. now rewrite Qmult_comm.
  - apply Qle_shift_div_r; [exact Hn|]. now rewrite Qmult_comm.
Qed.

Lemma round_isScore (q : Q) :
  (0 <= q <= 100)%Q -> isScore (JSNumber.round (JSNumber.Fin q)).
Proof.
  intros [Hlo Hhi]. exists (Qfloor (q + (1 # 2))). split; [reflexivity|]. split.
  - change 0 with (Qfloor 0). apply Qfloor_resp_le.
    rewrite <- (Qplus_0_r 0). apply Qplus_le_compat; [exact Hlo | discriminate].
  - change 100 with (Qfloor (100 + (1 # 2))). apply Qfloor_resp_le.
    apply Qplus_le_compat; [exact Hhi | apply Qle_refl].
Qed.

Lemma divLength_fin (q : Q) (n : nat) :
  n <> O ->
  JSNumber.divLength (JSNumber.Fin q) n
  = JSNumber.Fin (q / inject_Z (Z.of_nat n)).
Proof. destruct n; [congruence | reflexivity]. Qed.

(** The percentage of a part of a list. *)
Lemma percentage_isScore {A} (f : A -> bool) (l : list A) :
  l <> [] ->
  isScore
    (JSNumber.round
       (JSNumber.mul
          (JSNumber.divLength
             (JSNumber.ofZ (Z.of_nat (List.length (filter f l))))
             (List.length l))
          (JSNumber.ofZ 100))).
Proof.
  intros Hne. unfold JSNumber.ofZ. rewrite divLength_fin
    by (destruct l; [congruence | discriminate]).
  simpl JSNumber.mul. apply round_isScore.
  pose proof (length_pos_Q l Hne) as Hn.
  assert (Hk : (0 <= inject_Z (Z.of_nat (List.length (filter f l)))
                <= inject_Z (Z.of_nat (List.length l)))%Q).
  { split.
    - change 0%Q with (inject_Z 0). rewrite <- Zle_Qle. lia.
    - rewrite <- Zle_Qle. pose proof (filter_length_le f l). lia. }
  split.
  - apply Qmult_le_0_compat; [|discriminate].
    apply Qle_shift_div_l; [exact Hn|]. rewrite Qmult_0_l. tauto.
  - setoid_replace 100%Q with (1 * inject_Z 100)%Q at 2 by reflexivity.
    apply Qmult_le_compat_r; [|discriminate].
    apply Qle_shift_div_r; [exact Hn|]. rewrite Qmult_1_l. tauto.
Qed.

Lemma sliceLast_nonempty {A} (k : nat) (l : list A) :
  l <> [] -> k <> O -> sliceLast k l <> [].
Proof.
  intros Hl Hk Hnil. unfold sliceLast in Hnil.
  apply (f_equal (@List.length A)) in Hnil. rewrite length_skipn in Hnil.
  simpl in Hnil. destruct l; [congruence|]. simpl List.length in Hnil. lia.
Qed.

Lemma positive_length {A} (l : list A) :
  l <> [] -> (0 <? Z.of_nat (List.length l)) = true.
Proof. intros H. apply Z.ltb_lt. destruct l; [congruence | simpl List.length; lia]. Qed.

Lemma focus_isScore (recentFeedback : list SessionFeedback.t) :
  (forall f, In f recentFeedback -> 1 <= SessionFeedback.focusRating f <= 5) ->
  isScore
    (JSNumber.round
       (if (0 <? Z.of_nat (List.length recentFeedback))
        then JSNumber.divLength
               (fold_left
                  (fun sum f =>
                     JSNumber.add sum
                       (JSNumber.ofZ (SessionFeedback.focusRating f * 20)))
                  recentFeedback (JSNumber.ofZ 0))
               (List.length recentFeedback)
        else JSNumber.ofZ 50)).
Proof.
  intros Hr. destruct recentFeedback as [|f0 r] eqn:El.
  - exists 50. split; [reflexivity | lia].
  - rewrite <- El in *. assert (Hne : recentFeedback <> []) by (rewrite El; discriminate).
    rewrite (positive_length _ Hne).
    destruct (fold_add_fin
                (fun f => JSNumber.ofZ (SessionFeedback.focusRating f * 20))
                (fun f => inject_Z (SessionFeedback.focusRating f * 20))
                recentFeedback (fun _ => eq_refl) (inject_Z 0)) as [q [E Hq]].
    change (JSNumber.ofZ 0) with (JSNumber.Fin (inject_Z 0)).
    rewrite E, divLength_fin
      by (destruct recentFeedback; [congruence | discriminate]).
    apply round_isScore.
    apply (mean_bounds (fun f => inject_Z (SessionFeedback.focusRating f * 20))).
    + exact Hne.
    + intros f Hf. specialize (Hr f Hf). split.
      * change 0%Q with (inject_Z 0). rewrite <- Zle_Qle. lia.
      * change 100%Q with (inject_Z 100). rewrite <- Zle_Qle. lia.
    + rewrite Hq. change (inject_Z 0) with 0%Q. ring.
Qed.

Lemma Qsquare_nonneg (x : Q) : (0 <= x * x)%Q.
Proof.
  unfold Qle. simpl. rewrite Z.mul_1_r. apply Z.square_nonneg.
Qed.

Lemma sumQ_squares_nonneg (c : Q) (l : list Z) :
  (0 <= sumQ (map (fun e => (inject_Z e + - c) * (inject_Z e + - c)) l))%Q.
Proof.
  induction l as [|e r IH]; simpl; [apply Qle_refl|].
  rewrite <- (Qplus_0_r 0). apply Qplus_le_compat; [|exact IH].
  apply Qsquare_nonneg.
Qed.

Lemma consistency_isScore (energyValues : list Z) :
  energyValues <> [] ->
  isScore
    (JSNumber.round
       (JSNumber.max (JSNumber.ofZ 0)
          (JSNumber.sub (JSNumber.ofZ 100)
             (JSNumber.mul
                (JSNumber.divLength
                   (fold_left
                      (fun sum e =>
                         JSNumber.add sum
                           (JSNumber.square
                              (JSNumber.sub (JSNumber.ofZ e)
                                 (JSNumber.divLength
                                    (fold_left
                                       (fun sum e => JSNumber.add sum (JSNumber.ofZ e))
                                       energyValues (JSNumber.ofZ 0))
                                    (List.length energyValues)))))
                      energyValues (JSNumber.ofZ 0))
                   (List.length energyValues))
                (JSNumber.ofZ 20))))).
Proof.
  intros Hne.
  assert (Hlen : List.length energyValues <> O)
    by (destruct energyValues; [congruence | discriminate]).
  destruct (fold_add_fin JSNumber.ofZ inject_Z energyValues (fun _ => eq_refl)
              (inject_Z 0)) as [qa [Ea _]].
  change (JSNumber.ofZ 0) with (JSNumber.Fin (inject_Z 0)).
  rewrite Ea, divLength_fin by exact Hlen.
  set (avg := (qa / inject_Z (Z.of_nat (List.length energyValues)))%Q).
  destruct (fold_add_fin
              (fun e => JSNumber.square
                          (JSNumber.sub (JSNumber.ofZ e) (JSNumber.Fin avg)))
              (fun e => ((inject_Z e + - avg) * (inject_Z e + - avg))%Q)
              energyValues (fun _ => eq_refl) (inject_Z 0)) as [qv [Ev Hv]].
  rewrite Ev, divLength_fin by exact Hlen.
  assert (Hvar : (0 <= qv / inject_Z (Z.of_nat (List.length energyValues)))%Q).
  { apply Qle_shift_div_l; [now apply length_pos_Q|]. rewrite Qmult_0_l, Hv.
    change (inject_Z 0) with 0%Q. rewrite Qplus_0_l.
    apply sumQ_squares_nonneg. }
  set (v := (qv / inject_Z (Z.of_nat (List.length energyValues)))%Q) in *.
  simpl JSNumber.mul. unfold JSNumber.sub, JSNumber.ofZ. simpl JSNumber.neg.
  simpl JSNumber.add. simpl JSNumber.max.
  destruct (Qle_bool (inject_Z 0) (inject_Z 100 + - (v * inject_Z 20))) eqn:E.
  - apply Qle_bool_iff in E. apply round_isScore. split; [exact E|].
    setoid_replace 100%Q with (inject_Z 100 + - 0)%Q at 2 by reflexivity.
    apply Qplus_le_compat; [apply Qle_refl|]. apply Qopp_le_compat.
    apply Qmult_le_0_compat; [exact Hvar | discriminate].
  - apply round_isScore. split; discriminate.
Qed.

Lemma utilization_isScore (profile : UserEnergyProfile.t)
    (recentData : list EnergyDataPoint.t) :
  isScore (JSNumber.round (calculateEnergyUtilization profile recentData)).
Proof.
  unfold calculateEnergyUtilization.
  destruct (filter isHighEnergy recentData) as [|a r] eqn:E.
  - exists 50. split; [reflexivity | lia].
  - rewrite positive_length by discriminate.
    apply percentage_isScore. discriminate.
Qed.

(** X5.  When the history is not empty and the focus ratings of the
    feedback are between 1 and 5, every one of the seven metrics is an
    integer between 0 and 100; none of them is [NaN]. *)
Theorem metrics_are_scores {StudyPlan : Type}
    (energyProfile : UserEnergyProfile.t)
    (recentFeedback : list SessionFeedback.t) (studyPlans : list StudyPlan)
    (Hhistory : UserEnergyProfile.energyHistory energyProfile <> [])
    (Hratings : forall f, In f recentFeedback ->
                          1 <= SessionFeedback.focusRating f <= 5) :
  isScore (ProductivityMetrics.focusScore
             (calculateProductivityMetrics energyProfile recentFeedback studyPlans))
  /\ isScore (ProductivityMetrics.completionRate
                (calculateProductivityMetrics energyProfile recentFeedback studyPlans))
  /\ isScore (ProductivityMetrics.consistencyScore
                (calculateProductivityMetrics energyProfile recentFeedback studyPlans))
  /\ isScore (ProductivityMetrics.energyUtilization
                (calculateProductivityMetrics energyProfile recentFeedback studyPlans))
  /\ isScore (ProductivityMetrics.adaptationSuccess
                (calculateProductivityMetrics energyProfile recentFeedback studyPlans))
  /\ isScore (ProductivityMetrics.streakQuality
                (calculateProductivityMetrics energyProfile recentFeedback studyPlans))
  /\ isScore (ProductivityMetrics.timeOptimization
                (calculateProductivityMetrics energyProfile recentFeedback studyPlans)).
Proof.
  pose proof (sliceLast_nonempty 14 _ Hhistory (Nat.neq_succ_0 13)) as Hrecent.
  unfold calculateProductivityMetrics.
  cbn [ProductivityMetrics.focusScore ProductivityMetrics.completionRate
       ProductivityMetrics.consistencyScore ProductivityMetrics.energyUtilization
       ProductivityMetrics.adaptationSuccess ProductivityMetrics.streakQuality
       ProductivityMetrics.timeOptimization].
  split; [now apply focus_isScore|].
  split; [rewrite (positive_length _ Hrecent); now apply percentage_isScore|].
  split.
  { rewrite !length_map. rewrite <- (length_map
      (fun d => energyLevelToNumber (EnergyDataPoint.energyLevel d))).
    apply consistency_isScore. intros H. apply map_eq_nil in H. contradiction. }
  split; [apply utilization_isScore|].
  repeat split; eexists; (split; [reflexivity | lia]).
Qed.

Lemma metrics_are_scores_witness :
  isScore (ProductivityMetrics.focusScore
             (calculateProductivityMetrics sevenSamplesProfile
                [feedbackWithFocus 4] (@nil unit)))
  /\ isScore (ProductivityMetrics.completionRate
                (calculateProductivityMetrics sevenSamplesProfile
                   [feedbackWithFocus 4] (@nil unit)))
  /\ isScore (ProductivityMetrics.consistencyScore
                (calculateProductivityMetrics sevenSamplesProfile
                   [feedbackWithFocus 4] (@nil unit)))
  /\ isScore (ProductivityMetrics.energyUtilization
                (calculateProductivityMetrics sevenSamplesProfile
                   [feedbackWithFocus 4] (@nil unit)))
  /\ isScore (ProductivityMetrics.adaptationSuccess
                (calculateProductivityMetrics sevenSamplesProfile
                   [feedbackWithFocus 4] (@nil unit)))
  /\ isScore (ProductivityMetrics.streakQuality
                (calculateProductivityMetrics sevenSamplesProfile
                   [feedbackWithFocus 4] (@nil unit)))
  /\ isScore (ProductivityMetrics.timeOptimization
                (calculateProductivityMetrics sevenSamplesProfile
                   [feedbackWithFocus 4] (@nil unit))).
Proof.
  apply (metrics_are_scores sevenSamplesProfile [feedbackWithFocus 4] (@nil unit)).
  - simpl. discriminate.
  - intros f [Hf|[]]. subst f. simpl. lia.
Defined.

Lemma sliceLast_app_exact {A} (older recent : list A) :
  sliceLast (List.length recent) (older ++ recent) = recent.
Proof.
  unfold sliceLast. rewrite length_app.
  replace (List.length older + List.length recent - List.length recent)%nat
    with (List.length older + 0)%nat by lia.
  rewrite skipn_app, Nat.add_0_r, skipn_all.
  replace (List.length older - List.length older)%nat with O by lia.
  reflexivity.
Qed.

(** X6.  Only the last fourteen samples of the history count: samples
    older than these change none of the metrics. *)
Theorem metrics_use_last_fourteen_samples {StudyPlan : Type}
    (energyProfile : UserEnergyProfile.t)
    (recentFeedback : list SessionFeedback.t) (studyPlans : list StudyPlan)
    (older recent : list EnergyDataPoint.t)
    (Hfourteen : List.length recent = 14%nat) :
  calculateProductivityMetrics (withHistory energyProfile (older ++ recent))
    recentFeedback studyPlans
  = calculateProductivityMetrics (withHistory energyProfile recent)
      recentFeedback studyPlans.
Proof.
  assert (E1 : sliceLast 14 (older ++ recent) = recent)
    by (rewrite <- Hfourteen; apply sliceLast_app_exact).
  assert (E2 : sliceLast 14 recent = recent)
    by (rewrite <- Hfourteen; apply (sliceLast_app_exact [] recent)).
  unfold calculateProductivityMetrics, calculateEnergyUtilization.
  cbn [withHistory UserEnergyProfile.energyHistory].
  now rewrite E1, E2.
Qed.

Lemma metrics_use_last_fourteen_samples_witness :
  calculateProductivityMetrics
    (withHistory (profileWithPatterns []) (threeOlder ++ fourteenCompleted))
    [feedbackWithFocus 4] (@nil unit)
  = calculateProductivityMetrics
      (withHistory (profileWithPatterns []) fourteenCompleted)
      [feedbackWithFocus 4] (@nil unit).
Proof.
  apply (metrics_use_last_fourteen_samples (profileWithPatterns [])
           [feedbackWithFocus 4] (@nil unit) threeOlder fourteenCompleted).
  reflexivity.
Defined.

Lemma filter_all_true {A} (f : A -> bool) (l : list A) :
  (forall x, In x l -> f x = true) -> filter f l = l.
Proof.
  induction l as [|a r IH]; simpl; [reflexivity|].
  intros H. rewrite (H a (or_introl eq_refl)). f_equal. apply IH. auto.
Qed.

(** X7.  When the history is not empty and every sample among its last
    fourteen was completed, the completion rate is 100. *)
Theorem completion_rate_is_100_when_all_completed {StudyPlan : Type}
    (energyProfile : UserEnergyProfile.t)
    (recentFeedback : list SessionFeedback.t) (studyPlans : list StudyPlan)
    (Hhistory : UserEnergyProfile.energyHistory energyProfile <> [])
    (Hcompleted : forall d,
        In d (sliceLast 14 (UserEnergyProfile.energyHistory energyProfile)) ->
        EnergyDataPoint.sessionCompleted d = Some true) :
  ProductivityMetrics.completionRate
    (calculateProductivityMetrics energyProfile recentFeedback studyPlans)
  = JSNumber.ofZ 100.
Proof.
  pose proof (sliceLast_nonempty 14 _ Hhistory (Nat.neq_succ_0 13)) as Hrecent.
  unfold calculateProductivityMetrics. cbn [ProductivityMetrics.completionRate].
  rewrite (positive_length _ Hrecent).
  rewrite filter_all_true
    by (intros d Hd; unfold isCompleted; now rewrite (Hcompleted d Hd)).
  unfold JSNumber.ofZ at 1. rewrite divLength_fin
    by (destruct (sliceLast 14 _); [congruence | discriminate]).
  simpl JSNumber.mul. unfold JSNumber.round. f_equal.
  assert (E : (inject_Z (Z.of_nat (List.length
                  (sliceLast 14 (UserEnergyProfile.energyHistory energyProfile))))
               / inject_Z (Z.of_nat (List.length
                  (sliceLast 14 (UserEnergyProfile.energyHistory energyProfile))))
               * inject_Z 100 + (1 # 2) == 100 + (1 # 2))%Q).
  { pose proof (length_pos_Q _ Hrecent) as Hpos.
    change (inject_Z 100) with 100%Q. field.
    intros H. rewrite H in Hpos. discriminate. }
  now rewrite (Qfloor_comp _ _ E).
Qed.

Lemma completion_rate_is_100_when_all_completed_witness :
  ProductivityMetrics.completionRate
    (calculateProductivityMetrics sevenSamplesProfile [] (@nil unit))
  = JSNumber.ofZ 100.
Proof.
  apply (completion_rate_is_100_when_all_completed sevenSamplesProfile []
           (@nil unit)).
  - simpl. discriminate.
  - intros d Hd. vm_compute in Hd.
    repeat (destruct Hd as [Hd|Hd]; [subst d; reflexivity|]). contradiction.
Defined.

(** ** Recording and the persona *)

(** X8.  The persona of the profile that [recordEnergyData] returns is
    inconsistent exactly when fewer than seven samples are retained in its
    history. *)
Theorem persona_after_recording
    (tz : TimeZone) (p : UserEnergyProfile.t) (level : EnergyLevel)
    (context : option EnergyContext.t) (productivity : option Q)
    (completed : option bool) (clock : Clock) (n : nat) :
  UserPersona.type
    (determineUserPersona
       (fst (recordEnergyData tz p level context productivity completed clock n)))
  = Inconsistent
  <-> (List.length
         (UserEnergyProfile.energyHistory
            (fst (recordEnergyData tz p level context productivity completed
                    clock n))) < 7)%nat.
Proof.
  rewrite recordEnergyData_run. cbn [fst UserEnergyProfile.energyHistory].
  set (h := filter _ _). unfold determineUserPersona.
  cbn [UserEnergyProfile.energyPatterns]. rewrite analyzer_patterns_eq.
  destruct (Z.ltb_spec (Z.of_nat (List.length h)) 7) as [Hlt|Hge].
  - simpl. split; [lia | reflexivity].
  - cbn [find isDaily EnergyPattern.type PatternType_eqb].
    split; [|lia]. intros H. exfalso. revert H.
    destruct (Qgtb _ _); [discriminate|].
    destruct (Qgtb _ _); discriminate.
Qed.

(** ** Chronological order of the recorded history *)

Lemma filter_sorted {A} (R : A -> A -> Prop) (f : A -> bool) (l : list A) :
  StronglySorted R l -> StronglySorted R (filter f l).
Proof.
  induction 1 as [|a r Hr IH Ha]; simpl; [constructor|].
  destruct (f a); [|exact IH]. constructor; [exact IH|].
  rewrite Forall_forall in *. intros x Hx. apply filter_In in Hx. now apply Ha.
Qed.

Lemma snoc_sorted {A} (R : A -> A -> Prop) (l : list A) (x : A) :
  StronglySorted R l -> (forall y, In y l -> R y x) ->
  StronglySorted R (l ++ [x]).
Proof.
  induction 1 as [|a r Hr IH Ha]; intros Hx; simpl.
  - repeat constructor.
  - constructor; [apply IH; intros y Hy; apply Hx; now right|].
    rewrite Forall_forall in *. intros y Hy. apply in_app_iff in Hy.
    destruct Hy as [Hy|[<-|[]]]; [now apply Ha | apply Hx; now left].
Qed.

Lemma recordSequence_chronological (tz : TimeZone) (clock : Clock)
    (Hmono : forall k, clock k <= clock (S k)) (rs : list Recording.t) :
  forall (p : UserEnergyProfile.t) (n : nat),
    StronglySorted chronological (UserEnergyProfile.energyHistory p) ->
    (forall s, In s (UserEnergyProfile.energyHistory p) ->
               EnergyDataPoint.timestamp s <= clock n) ->
    StronglySorted chronological
      (UserEnergyProfile.energyHistory (fst (recordSequence tz p rs clock n))).
Proof.
  assert (Hle : forall a b, (a <= b)%nat -> clock a <= clock b).
  { intros a b Hab. induction Hab; [lia|]. specialize (Hmono m). lia. }
  induction rs as [|r rest IH]; intros p n Hsorted Hbound; [exact Hsorted|].
  cbn [recordSequence]. unfold bind. rewrite recordEnergyData_run.
  apply IH; cbn [UserEnergyProfile.energyHistory].
  - apply filter_sorted, snoc_sorted; [exact Hsorted|].
    intros y Hy. unfold chronological. simpl. now apply Hbound.
  - intros s Hs. apply filter_In in Hs. destruct Hs as [Hs _].
    apply in_app_iff in Hs. destruct Hs as [Hs|[<-|[]]].
    + specialize (Hbound s Hs). specialize (Hle n (S (S (S n)))). lia.
    + simpl. apply Hle. lia.
Qed.

(** X9.  Under a clock that never runs backwards, the history built by
    successive recordings from an empty history is in chronological order,
    the newest sample last. *)
Theorem recorded_history_is_chronological
    (tz : TimeZone) (clock : Clock) (rs : list Recording.t)
    (p : UserEnergyProfile.t) (n : nat)
    (Hmono : forall k, clock k <= clock (S k))
    (Hempty : UserEnergyProfile.energyHistory p = []) :
  StronglySorted chronological
    (UserEnergyProfile.energyHistory (fst (recordSequence tz p rs clock n))).
Proof.
  apply recordSequence_chronological; [exact Hmono| |]; rewrite Hempty.
  - constructor.
  - intros s [].
Qed.

Lemma recorded_history_is_chronological_witness :
  StronglySorted chronological
    (UserEnergyProfile.energyHistory
       (fst (recordSequence UTC (profileWithPatterns []) twoRecordings
               tickingClock 0%nat))).
Proof.
  apply (recorded_history_is_chronological UTC tickingClock twoRecordings
           (profileWithPatterns []) 0%nat).
  - intros k. unfold tickingClock. lia.
  - reflexivity.
Defined.

(** ** Number and priority of the generated suggestions *)

(** X10.  Whatever the clock, the generator returns at most three
    suggestions, each of priority high or medium, and a suggestion of
    priority high is among them exactly when the current level is very-low
    or low. *)
Theorem generated_suggestions_bounded {StudyPlan : Type}
    (tz : TimeZone) (ux : RealTimeUserExperience.t) (tasks : list Task.t)
    (studyPlans : list StudyPlan) (clock : Clock) (n : nat) :
  (List.length (fst (generateSmartSuggestions tz ux tasks studyPlans clock n)) <= 3)%nat
  /\ (forall s, In s (fst (generateSmartSuggestions tz ux tasks studyPlans clock n)) ->
                SmartSuggestion.priority s = PriorityHigh
                \/ SmartSuggestion.priority s = PriorityMedium)
  /\ ((exists s, In s (fst (generateSmartSuggestions tz ux tasks studyPlans clock n))
                 /\ SmartSuggestion.priority s = PriorityHigh)
      <-> (UserEnergyProfile.currentEnergyLevel
             (RealTimeUserExperience.energyProfile ux) = VeryLow
           \/ UserEnergyProfile.currentEnergyLevel
                (RealTimeUserExperience.energyProfile ux) = Low)).
Proof.
  destruct (generateSmartSuggestions_shape tz ux tasks studyPlans clock n)
    as (na & nb & nc & E).
  rewrite E. clear E.
  unfold lowEnergyRule, highEnergyRule, optimalTimeRule, breakRuleOn.
  destruct (UserEnergyProfile.currentEnergyLevel
              (RealTimeUserExperience.energyProfile ux));
    cbn [EnergyLevel_eqb orb andb];
    destruct (0 <? Z.of_nat (List.length (filter isDifficultTask tasks)));
    destruct (find _ _);
    destruct ((4 <=? _) && negb (existsb isLow _));
    cbn [app List.length];
    (split; [lia|]);
    (split;
     [ intros s Hs; simpl in Hs;
       repeat (destruct Hs as [Hs|Hs]; [subst s; simpl; auto|]); contradiction
     | split;
       [ intros [s [Hs Hp]]; simpl in Hs;
         repeat (destruct Hs as [Hs|Hs];
                 [subst s; simpl in Hp; first [discriminate | auto]|]);
         contradiction
       | intros [H|H]; try discriminate;
         exists (lowEnergySuggestion (clock n));
         split; solve [reflexivity | left; reflexivity] ] ]).
Qed.

(** ** The classifier on the analyzer's patterns *)







(** * Properties of the context provider *)

(** ** The stable sort *)

Section StableSortFacts.
Context {A : Type}.
Variables (before : A -> A -> bool) (R : A -> A -> Prop).
Hypothesis before_R : forall x y, before x y = true -> R x y.
Hypothesis not_before_R : forall x y, before x y = false -> R y x.
Hypothesis R_trans : forall x y z, R x y -> R y z -> R x z.

Lemma insertBy_perm (x : A) (l : list A) :
  Permutation (insertBy before x l) (x :: l).
Proof.
  induction l as [|y r IH]; simpl; [reflexivity|].
  destruct (before x y); [reflexivity|]. rewrite IH. apply perm_swap.
Qed.

Lemma sortBy_perm (l : list A) : Permutation (sortBy before l) l.
Proof.
  unfold sortBy. induction l as [|x r IH]; simpl; [reflexivity|].
  rewrite insertBy_perm. now constructor.
Qed.

Lemma insertBy_sorted (x : A) (l : list A) :
  StronglySorted R l -> StronglySorted R (insertBy before x l).
Proof.
  induction 1 as [|y r Hr IH Hy]; simpl.
  - repeat constructor.
  - destruct (before x y) eqn:E.
    + constructor; [now constructor|]. constructor; [now apply before_R|].
      rewrite Forall_forall in *. intros z Hz.
      apply R_trans with y; [now apply before_R | now apply Hy].
    + constructor; [exact IH|].
      rewrite Forall_forall in *. intros z Hz.
      apply (Permutation_in _ (insertBy_perm x r)) in Hz.
      destruct Hz as [<-|Hz]; [now apply not_before_R | now apply Hy].
Qed.

Lemma sortBy_sorted (l : list A) : StronglySorted R (sortBy before l).
Proof.
  unfold sortBy. induction l as [|x r IH]; simpl; [constructor|].
  now apply insertBy_sorted.
Qed.

Lemma sortBy_snoc (l : list A) (x : A) :
  sortBy before (l ++ [x]) = fold_right (insertBy before) [x] l.
Proof. unfold sortBy. now rewrite fold_right_app. Qed.

End StableSortFacts.

Lemma In_firstn {A} (k : nat) (l : list A) (x : A) :
  In x (firstn k l) -> In x l.
Proof.
  revert k. induction l as [|a r IH]; intros [|k]; simpl; try tauto.
  intros [H|H]; [now left | right; now apply (IH k)].
Qed.

Lemma firstn_sorted {A} (R : A -> A -> Prop) (k : nat) (l : list A) :
  StronglySorted R l -> StronglySorted R (firstn k l).
Proof.
  intros H. revert k. induction H as [|a r Hr IH Ha]; intros [|k]; simpl;
    try constructor.
  - apply IH.
  - rewrite Forall_forall in *. intros x Hx. apply Ha.
    now apply (In_firstn k).
Qed.

Lemma firstn_NoDup_map {A B} (f : A -> B) (k : nat) (l : list A) :
  NoDup (map f l) -> NoDup (map f (firstn k l)).
Proof.
  revert k. induction l as [|a r IH]; intros [|k] H; simpl; try constructor.
  - simpl in H. inversion H as [|? ? Hnotin Hnd]; subst.
    intros Hin. apply Hnotin. apply in_map_iff in Hin.
    destruct Hin as [x [Hx Hin]]. apply in_map_iff. exists x.
    split; [exact Hx | now apply (In_firstn k)].
  - simpl in H. inversion H; subst. now apply IH.
Qed.

Lemma filtered_ids_distinct (keep : ProviderSuggestion.t -> bool)
    (l : list ProviderSuggestion.t) :
  NoDup (suggestionIds l) -> NoDup (suggestionIds (filter keep l)).
Proof.
  unfold suggestionIds. induction l as [|s rest IH]; cbn [filter map].
  - intros _. constructor.
  - intros Hnd. apply NoDup_cons_iff in Hnd. destruct Hnd as [Hfresh Hrest].
    destruct (keep s); cbn [map]; [|exact (IH Hrest)].
    apply NoDup_cons; [|exact (IH Hrest)].
    contradict Hfresh. apply in_map_iff in Hfresh.
    destruct Hfresh as (x & Hx & Hin). apply filter_In in Hin.
    apply in_map_iff. exists x. tauto.
Qed.

(** ** The suggestion list stays well formed *)

Lemma priorityBefore_true (x y : ProviderSuggestion.t) :
  priorityBefore x y = true -> byPriority x y.
Proof. unfold priorityBefore, byPriority. intros H. apply Z.leb_le in H. lia. Qed.

Lemma priorityBefore_false (x y : ProviderSuggestion.t) :
  priorityBefore x y = false -> byPriority y x.
Proof. unfold priorityBefore, byPriority. intros H. apply Z.leb_gt in H. lia. Qed.

Lemma byPriority_trans (x y z : ProviderSuggestion.t) :
  byPriority x y -> byPriority y z -> byPriority x z.
Proof. unfold byPriority. lia. Qed.

Lemma existsb_hasId_false (id : string) (l : list ProviderSuggestion.t) :
  existsb (hasId id) l = false <-> ~ In id (suggestionIds l).
Proof.
  unfold suggestionIds, hasId. induction l as [|a r IH]; simpl; [tauto|].
  rewrite orb_false_iff, IH. split.
  - intros [Ha Hr] [H|H]; [|tauto]. apply String.eqb_neq in Ha. congruence.
  - intros H. split; [|tauto]. apply String.eqb_neq. tauto.
Qed.

Lemma addToSuggestions_wellFormed (s : ProviderSuggestion.t)
    (prev : list ProviderSuggestion.t) :
  wellFormedSuggestions prev -> wellFormedSuggestions (addToSuggestions s prev).
Proof.
  intros (Hlen & Hnd & Hsorted). unfold addToSuggestions.
  destruct (existsb (hasId (ProviderSuggestion.id s)) prev) eqn:E;
    [now repeat split|].
  apply existsb_hasId_false in E. repeat split.
  - rewrite length_firstn. lia.
  - apply firstn_NoDup_map.
    apply (Permutation_NoDup (l := suggestionIds (prev ++ [s]))).
    + apply Permutation_map. symmetry. apply sortBy_perm.
    + unfold suggestionIds in *. rewrite map_app. simpl.
      apply NoDup_app; [exact Hnd | repeat constructor; simpl; tauto |].
      intros x Hx [Hs|[]]. subst x. contradiction.
  - apply firstn_sorted.
    apply (sortBy_sorted priorityBefore byPriority priorityBefore_true
             priorityBefore_false byPriority_trans).
Qed.

Lemma filter_wellFormed (p : ProviderSuggestion.t -> bool)
    (l : list ProviderSuggestion.t) :
  wellFormedSuggestions l -> wellFormedSuggestions (filter p l).
Proof.
  intros (Hlen & Hnd & Hsorted). repeat split.
  - pose proof (filter_length_le p l). lia.
  - now apply filtered_ids_distinct.
  - now apply filter_sorted.
Qed.

(** ** Invariants of the provider's state *)

Ltac provider_wf :=
  unfold removeSuggestion, dropExpired;
  repeat first [ apply addToSuggestions_wellFormed | apply filter_wellFormed ];
  assumption.

Ltac provider_step :=
  intros [Hwf Hctx]; split;
  [ simpl; provider_wf
  | simpl; unfold producedContext in *; simpl; repeat split;
    first [ discriminate | tauto | idtac ] ].

Lemma getCurrentContext_produced (tz : TimeZone) (host : Host.t)
    (clock : Clock) (n : nat) :
  producedContext (fst (getCurrentContext tz host clock n)).
Proof.
  unfold getCurrentContext, bind, ret, Date_now, producedContext. simpl.
  repeat split; try discriminate.
  - destruct (occursIn "Mobile" _ || occursIn "Tablet" _); discriminate.
  - destruct (Host.onLine host); discriminate.
Qed.

Lemma recordActivity_invariant (st : ProviderState.t) (clock : Clock) (n : nat) :
  providerInvariant st -> providerInvariant (fst (recordActivity st clock n)).
Proof. unfold recordActivity, bind, ret, Date_now. provider_step. Qed.

Lemma startSession_invariant (st : ProviderState.t) (clock : Clock) (n : nat) :
  providerInvariant st -> providerInvariant (fst (startSession st clock n)).
Proof.
  unfold startSession, recordActivity, bind, ret, Date_now. provider_step.
Qed.

Lemma endSession_invariant (st : ProviderState.t) :
  providerInvariant st -> providerInvariant (endSession st).
Proof. unfold endSession. provider_step. Qed.

Lemma addSuggestion_invariant (s : ProviderSuggestion.t) (st : ProviderState.t) :
  providerInvariant st -> providerInvariant (addSuggestion s st).
Proof. unfold addSuggestion. provider_step. Qed.

Lemma dismissSuggestion_invariant (id : string) (st : ProviderState.t) :
  providerInvariant st -> providerInvariant (dismissSuggestion id st).
Proof. unfold dismissSuggestion. provider_step. Qed.

Lemma runAction_invariant (a : Action) (st : ProviderState.t)
    (clock : Clock) (n : nat) :
  providerInvariant st -> providerInvariant (fst (runAction a st clock n)).
Proof.
  destruct a; simpl.
  - apply startSession_invariant.
  - apply endSession_invariant.
  - unfold bind, ret, Date_now. simpl. apply dismissSuggestion_invariant.
Qed.

Lemma runCallback_invariant (actions : list Action) :
  forall (st : ProviderState.t) (clock : Clock) (n : nat),
    providerInvariant st -> providerInvariant (fst (runCallback actions st clock n)).
Proof.
  induction actions as [|a rest IH]; intros st clock n Hinv; [exact Hinv|].
  cbn [runCallback]. unfold bind.
  pose proof (runAction_invariant a st clock n Hinv) as H.
  destruct (runAction a st clock n) as [st' n']. now apply IH.
Qed.

Lemma contextTick_invariant (tz : TimeZone) (host : Host.t)
    (st : ProviderState.t) (clock : Clock) (n : nat) :
  providerInvariant st -> providerInvariant (fst (contextTick tz host st clock n)).
Proof.
  intros [Hwf _]. unfold contextTick, bind.
  pose proof (getCurrentContext_produced tz host clock n) as H.
  destruct (getCurrentContext tz host clock n) as [c n']. simpl in *.
  split; assumption.
Qed.

Lemma idleTick_invariant (st : ProviderState.t) (clock : Clock) (n : nat) :
  providerInvariant st -> providerInvariant (fst (idleTick st clock n)).
Proof.
  unfold idleTick, bind, ret, Date_now. cbn [fst].
  destruct (5 <? (clock n - ProviderState.lastActivity st) / msPerMinute) eqn:E5;
    [provider_step|].
  destruct (15 <? (clock n - ProviderState.lastActivity st) / msPerMinute) eqn:E15;
    [|provider_step].
  apply Z.ltb_ge in E5. apply Z.ltb_lt in E15. lia.
Qed.

Lemma sessionTick_invariant (st : ProviderState.t) :
  providerInvariant st -> providerInvariant (sessionTick st).
Proof.
  unfold sessionTick. destruct (ProviderState.isInSession st); [|tauto].
  provider_step.
Qed.

Lemma cleanupTick_invariant (st : ProviderState.t) (clock : Clock) (n : nat) :
  providerInvariant st -> providerInvariant (fst (cleanupTick st clock n)).
Proof. unfold cleanupTick, bind, ret, Date_now. provider_step. Qed.

Lemma contextualEffect_invariant (st : ProviderState.t) (clock : Clock) (n : nat) :
  providerInvariant st -> providerInvariant (fst (contextualEffect st clock n)).
Proof.
  unfold contextualEffect, bind, ret, Date_now, addSuggestion.
  destruct (ProviderState.isUserActive st), (ProviderState.isInSession st);
    cbn [andb negb];
    try destruct ((2 <=? ProviderState.idleTime st)
                  && (ProviderState.idleTime st <? 5));
    try destruct (45 <=? ProviderState.sessionDuration st);
    provider_step.
Qed.

Lemma updateBatteryInfo_invariant (level : Q) (st : ProviderState.t)
    (clock : Clock) (n : nat) :
  providerInvariant st ->
  providerInvariant (fst (updateBatteryInfo level st clock n)).
Proof.
  unfold updateBatteryInfo, bind, ret, Date_now, addSuggestion.
  destruct (Qle_bool (2 # 10) level); provider_step.
Qed.

Lemma updateOnlineStatus_invariant (host : Host.t) (st : ProviderState.t)
    (clock : Clock) (n : nat) :
  providerInvariant st ->
  providerInvariant (fst (updateOnlineStatus host st clock n)).
Proof.
  unfold updateOnlineStatus, bind, ret, Date_now, addSuggestion.
  destruct (Host.onLine host); provider_step.
Qed.

Lemma timeBasedTick_invariant (tz : TimeZone) (st : ProviderState.t)
    (clock : Clock) (n : nat) :
  providerInvariant st -> providerInvariant (fst (timeBasedTick tz st clock n)).
Proof.
  unfold timeBasedTick, bind, ret, Date_now, addSuggestion.
  destruct ((23 <=? getHours tz (clock n)) || (getHours tz (clock n) <=? 5));
    destruct (existsb (Z.eqb (getHours tz (clock n))) [12; 18]);
    provider_step.
Qed.

Lemma handleEvent_invariant (tz : TimeZone) (e : ProviderEvent)
    (st : ProviderState.t) (clock : Clock) (n : nat) :
  providerInvariant st -> providerInvariant (fst (handleEvent tz e st clock n)).
Proof.
  destruct e; cbn [handleEvent].
  - apply recordActivity_invariant.
  - apply startSession_invariant.
  - apply endSession_invariant.
  - apply addSuggestion_invariant.
  - apply dismissSuggestion_invariant.
  - apply runCallback_invariant.
  - apply runCallback_invariant.
  - apply contextTick_invariant.
  - apply idleTick_invariant.
  - apply sessionTick_invariant.
  - apply cleanupTick_invariant.
  - apply contextualEffect_invariant.
  - apply updateBatteryInfo_invariant.
  - apply updateOnlineStatus_invariant.
  - apply timeBasedTick_invariant.
Qed.

Lemma runProvider_invariant (tz : TimeZone) (events : list ProviderEvent) :
  forall (st : ProviderState.t) (clock : Clock) (n : nat),
    providerInvariant st ->
    providerInvariant (fst (runProvider tz events st clock n)).
Proof.
  induction events as [|e rest IH]; intros st clock n Hinv; [exact Hinv|].
  cbn [runProvider]. unfold bind.
  pose proof (handleEvent_invariant tz e st clock n Hinv) as H.
  destruct (handleEvent tz e st clock n) as [st' n']. now apply IH.
Qed.

Lemma mountedProvider_invariant (tz : TimeZone) (host : Host.t)
    (events : list ProviderEvent) (clock : Clock) (n : nat) :
  providerInvariant (fst (mountedProvider tz host events clock n)).
Proof.
  unfold mountedProvider, bind at 1.
  destruct (initialProviderState tz host clock n) as [st n'] eqn:E.
  apply runProvider_invariant.
  unfold initialProviderState, bind in E.
  pose proof (getCurrentContext_produced tz host clock n) as H.
  destruct (getCurrentContext tz host clock n) as [c n1].
  unfold ret, Date_now in E. inversion E; subst. split; [|exact H].
  simpl. repeat split; [cbn; lia | constructor | constructor].
Qed.

(** X12.  In every state that a mounted provider reaches, whatever the
    events and the clock, the list of suggestions holds at most five
    suggestions, no two of them with the same id, in descending order of
    priority. *)
Theorem provider_suggestions_well_formed
    (tz : TimeZone) (host : Host.t) (events : list ProviderEvent)
    (clock : Clock) (n : nat) :
  (List.length
     (ProviderState.suggestions
        (fst (mountedProvider tz host events clock n))) <= 5)%nat
  /\ NoDup (suggestionIds
              (ProviderState.suggestions
                 (fst (mountedProvider tz host events clock n))))
  /\ StronglySorted byPriority
       (ProviderState.suggestions (fst (mountedProvider tz host events clock n))).
Proof. exact (proj1 (mountedProvider_invariant tz host events clock n)). Qed.

(** X13.  In every state that a mounted provider reaches, the user
    presence is active or idle and never away, the device type is never
    tablet, and the network status is never slow. *)
Theorem provider_context_values
    (tz : TimeZone) (host : Host.t) (events : list ProviderEvent)
    (clock : Clock) (n : nat) :
  RealTimeContext.userPresence
    (ProviderState.context (fst (mountedProvider tz host events clock n)))
  <> PresenceAway
  /\ RealTimeContext.deviceType
       (ProviderState.context (fst (mountedProvider tz host events clock n)))
     <> Tablet
  /\ RealTimeContext.networkStatus
       (ProviderState.context (fst (mountedProvider tz host events clock n)))
     <> Slow.
Proof. exact (proj2 (mountedProvider_invariant tz host events clock n)). Qed.

(** ** Idle tracking *)

Lemma idle_minutes_threshold (elapsed : Z) :
  (5 <? elapsed / msPerMinute) = (360000 <=? elapsed).
Proof.
  unfold msPerMinute.
  destruct (Z.leb_spec 360000 elapsed) as [H|H].
  - apply Z.ltb_lt.
    assert (6 <= elapsed / 60000) by (apply Z.div_le_lower_bound; lia). lia.
  - apply Z.ltb_ge.
    assert (elapsed / 60000 < 6) by (apply Z.div_lt_upper_bound; lia). lia.
Qed.

(** X14.  The idle timer stores the whole minutes since the last activity
    as the idle time.  It marks the user idle and inactive when at least
    360000 ms, six whole minutes, have passed since the last activity;
    otherwise it marks the presence active and leaves the activity flag as
    it was.  It never marks the user away. *)
Theorem idle_tick_threshold (st : ProviderState.t) (clock : Clock) (n : nat) :
  ProviderState.idleTime (fst (idleTick st clock n))
  = (clock n - ProviderState.lastActivity st) / 60000
  /\ RealTimeContext.userPresence
       (ProviderState.context (fst (idleTick st clock n)))
     = (if 360000 <=? clock n - ProviderState.lastActivity st
        then PresenceIdle else PresenceActive)
  /\ ProviderState.isUserActive (fst (idleTick st clock n))
     = (if 360000 <=? clock n - ProviderState.lastActivity st
        then false else ProviderState.isUserActive st).
Proof.
  unfold idleTick, bind, ret, Date_now. cbn [fst].
  rewrite idle_minutes_threshold.
  destruct (Z.leb_spec 360000 (clock n - ProviderState.lastActivity st)) as [H|H].
  - repeat split.
  - assert (E : (15 <? (clock n - ProviderState.lastActivity st) / msPerMinute)
                = false).
    { apply Z.ltb_ge. unfold msPerMinute.
      assert ((clock n - ProviderState.lastActivity st) / 60000 < 6)
        by (apply Z.div_lt_upper_bound; lia). lia. }
    rewrite E. repeat split.
Qed.

(** ** Adding and dismissing suggestions *)

Lemma below_priority_filters (s y : ProviderSuggestion.t)
    (r : list ProviderSuggestion.t) :
  Forall (byPriority y) r -> atLeastPriority s y = false ->
  filter (atLeastPriority s) r = []
  /\ filter (fun z => negb (atLeastPriority s z)) r = r.
Proof.
  intros Hy Hs. unfold atLeastPriority, byPriority in *. apply Z.leb_gt in Hs.
  induction r as [|z r IH]; simpl; [split; reflexivity|].
  inversion Hy as [|? ? Hz Hr]; subst. destruct (IH Hr) as [IH1 IH2].
  assert (E : (priorityOrder (ProviderSuggestion.priority s)
               <=? priorityOrder (ProviderSuggestion.priority z)) = false)
    by (apply Z.leb_gt; lia).
  rewrite E. simpl. now rewrite IH1, IH2.
Qed.

Lemma sorted_partition (s : ProviderSuggestion.t) (prev : list ProviderSuggestion.t) :
  StronglySorted byPriority prev ->
  filter (atLeastPriority s) prev
  ++ filter (fun z => negb (atLeastPriority s z)) prev = prev.
Proof.
  induction 1 as [|y r Hr IH Hy]; simpl; [reflexivity|].
  destruct (atLeastPriority s y) eqn:E; simpl.
  - now rewrite IH.
  - destruct (below_priority_filters s y r Hy E) as [H1 H2].
    now rewrite H1, H2.
Qed.

Lemma insert_in_front (y : ProviderSuggestion.t) (l : list ProviderSuggestion.t) :
  (forall z, In z l -> byPriority y z) ->
  insertBy priorityBefore y l = y :: l.
Proof.
  destruct l as [|z r]; [reflexivity|]. intros H. simpl.
  assert (E : priorityBefore y z = true).
  { unfold priorityBefore. apply Z.leb_le.
    specialize (H z (or_introl eq_refl)). unfold byPriority in H. lia. }
  now rewrite E.
Qed.

(** Sorting a sorted list with one more suggestion at its end puts the
    newcomer behind the suggestions of at least its priority. *)
Lemma sort_with_newcomer (s : ProviderSuggestion.t)
    (prev : list ProviderSuggestion.t) :
  StronglySorted byPriority prev ->
  sortBy priorityBefore (prev ++ [s])
  = filter (atLeastPriority s) prev
    ++ s :: filter (fun z => negb (atLeastPriority s z)) prev.
Proof.
  rewrite sortBy_snoc. induction 1 as [|y r Hr IH Hy]; [reflexivity|].
  cbn [fold_right filter]. rewrite IH. rewrite Forall_forall in Hy.
  destruct (atLeastPriority s y) eqn:E; cbn [negb app].
  - apply insert_in_front. intros z Hz. apply in_app_iff in Hz.
    destruct Hz as [Hz|[<-|Hz]].
    + apply filter_In in Hz. now apply Hy.
    + unfold atLeastPriority in E. unfold byPriority. now apply Z.leb_le.
    + apply filter_In in Hz. now apply Hy.
  - destruct (below_priority_filters s y r (proj2 (Forall_forall _ _) Hy) E)
      as [H1 H2].
    rewrite H1, H2. cbn [app insertBy].
    assert (Eb : priorityBefore y s = false).
    { unfold priorityBefore. unfold atLeastPriority in E.
      apply Z.leb_gt in E. apply Z.leb_gt. lia. }
    rewrite Eb. f_equal. apply insert_in_front. exact Hy.
Qed.

Lemma fresh_id_not_in (s : ProviderSuggestion.t) (l : list ProviderSuggestion.t) :
  ~ In (ProviderSuggestion.id s) (suggestionIds l) -> ~ In s l.
Proof.
  intros H Hin. apply H. unfold suggestionIds. now apply in_map.
Qed.

(** X15.  A suggestion with a new id, added to a list in descending order
    of priority, is kept exactly when fewer than five suggestions of the
    list have at least its priority; otherwise it is dropped at once and the
    first five suggestions of the list stay. *)
Theorem new_suggestion_kept_iff
    (s : ProviderSuggestion.t) (prev : list ProviderSuggestion.t)
    (Hsorted : StronglySorted byPriority prev)
    (Hfresh : ~ In (ProviderSuggestion.id s) (suggestionIds prev)) :
  (In s (addToSuggestions s prev)
   <-> (List.length (filter (atLeastPriority s) prev) < 5)%nat)
  /\ ((5 <= List.length (filter (atLeastPriority s) prev))%nat ->
      addToSuggestions s prev = firstn 5 prev).
Proof.
  unfold addToSuggestions.
  rewrite (proj2 (existsb_hasId_false _ _) Hfresh).
  cbv zeta. rewrite (sort_with_newcomer s prev Hsorted).
  set (G := filter (atLeastPriority s) prev).
  set (L := filter (fun z => negb (atLeastPriority s z)) prev).
  assert (HG : ~ In s G).
  { intros H. apply filter_In in H. now apply (fresh_id_not_in s prev Hfresh). }
  assert (Hfull : (5 <= List.length G)%nat ->
                  firstn 5 (G ++ s :: L) = firstn 5 prev).
  { intros H5. rewrite <- (sorted_partition s prev Hsorted). fold G L.
    rewrite !firstn_app.
    replace (5 - List.length G)%nat with O by lia. reflexivity. }
  split; [|exact Hfull]. split.
  - intros Hin. destruct (Nat.lt_ge_cases (List.length G) 5) as [Hlt|Hge];
      [exact Hlt|].
    exfalso. rewrite (Hfull Hge) in Hin. apply In_firstn in Hin.
    now apply (fresh_id_not_in s prev Hfresh).
  - intros Hlt. rewrite firstn_app.
    apply in_app_iff. right.
    destruct (5 - List.length G)%nat as [|k] eqn:E; [lia|]. now left.
Qed.

Lemma new_suggestion_kept_iff_witness :
  (In (idleEndSuggestion (t0 + 1))
      (addToSuggestions (idleEndSuggestion (t0 + 1)) [idleEndSuggestion t0])
   <-> (List.length
          (filter (atLeastPriority (idleEndSuggestion (t0 + 1)))
                  [idleEndSuggestion t0]) < 5)%nat)
  /\ ((5 <= List.length
              (filter (atLeastPriority (idleEndSuggestion (t0 + 1)))
                      [idleEndSuggestion t0]))%nat ->
      addToSuggestions (idleEndSuggestion (t0 + 1)) [idleEndSuggestion t0]
      = firstn 5 [idleEndSuggestion t0]).
Proof.
  apply (new_suggestion_kept_iff (idleEndSuggestion (t0 + 1)) [idleEndSuggestion t0]).
  - repeat constructor.
  - vm_compute. intros [H|[]]. discriminate H.
Defined.

(** X16.  Adding a suggestion with a new id to a list of fewer than five
    suggestions in descending order of priority, and dismissing it by its
    id, gives the list back. *)
Theorem add_then_dismiss_restores
    (s : ProviderSuggestion.t) (prev : list ProviderSuggestion.t)
    (Hsorted : StronglySorted byPriority prev)
    (Hfresh : ~ In (ProviderSuggestion.id s) (suggestionIds prev))
    (Hroom : (List.length prev < 5)%nat) :
  removeSuggestion (ProviderSuggestion.id s) (addToSuggestions s prev) = prev.
Proof.
  unfold addToSuggestions.
  rewrite (proj2 (existsb_hasId_false _ _) Hfresh).
  cbv zeta. rewrite (sort_with_newcomer s prev Hsorted).
  assert (Hlen : (List.length
                    (filter (atLeastPriority s) prev
                     ++ s :: filter (fun z => negb (atLeastPriority s z)) prev)
                  <= 5)%nat).
  { rewrite length_app. simpl List.length.
    pose proof (f_equal (@List.length _) (sorted_partition s prev Hsorted)) as H.
    rewrite length_app in H. lia. }
  rewrite firstn_all2 by exact Hlen.
  unfold removeSuggestion. rewrite filter_app. simpl filter.
  unfold hasId at 2. rewrite String.eqb_refl. simpl negb. cbv iota.
  assert (Hkeep : forall l, (forall z, In z l -> In z prev) ->
                            filter (fun z => negb (hasId (ProviderSuggestion.id s) z)) l
                            = l).
  { intros l Hl. apply filter_all_true. intros z Hz. unfold hasId.
    apply negb_true_iff, String.eqb_neq. intros Heq. apply Hfresh.
    rewrite <- Heq. unfold suggestionIds. apply in_map. now apply Hl. }
  rewrite !Hkeep.
  - apply sorted_partition. exact Hsorted.
  - intros z Hz. now apply filter_In in Hz.
  - intros z Hz. now apply filter_In in Hz.
Qed.

Lemma add_then_dismiss_restores_witness :
  removeSuggestion (ProviderSuggestion.id (idleEndSuggestion (t0 + 1)))
    (addToSuggestions (idleEndSuggestion (t0 + 1)) [idleEndSuggestion t0])
  = [idleEndSuggestion t0].
Proof.
  apply (add_then_dismiss_restores (idleEndSuggestion (t0 + 1))
           [idleEndSuggestion t0]).
  - repeat constructor.
  - vm_compute. intros [H|[]]. discriminate H.
  - simpl. lia.
Defined.

(** ** Dismissal through the callbacks *)

Lemma to_int_not_nil (z : Z) :
  Z.to_int z <> Decimal.Pos Decimal.Nil /\ Z.to_int z <> Decimal.Neg Decimal.Nil.
Proof.
  split; intros H; pose proof (f_equal Z.of_int H) as H';
    rewrite DecimalZ.of_to in H'; simpl in H'; subst z;
    vm_compute in H; discriminate H.
Qed.

Lemma showZ_injective (a b : Z) : showZ a = showZ b -> a = b.
Proof.
  unfold showZ. intros H.
  destruct (to_int_not_nil a) as [Ha1 Ha2]. destruct (to_int_not_nil b) as [Hb1 Hb2].
  pose proof (NilZero.isi (Z.to_int a) Ha1 Ha2) as Ea.
  pose proof (NilZero.isi (Z.to_int b) Hb1 Hb2) as Eb.
  rewrite H in Ea. rewrite Ea in Eb. inversion Eb as [E].
  now apply DecimalZ.to_int_inj.
Qed.

Lemma append_injective (prefix a b : string) :
  (prefix ++ a)%string = (prefix ++ b)%string -> a = b.
Proof.
  induction prefix as [|c r IH]; simpl; [tauto|].
  intros H. inversion H. now apply IH.
Qed.

(** X17.  The dismiss callback of a suggestion stamps the id it dismisses
    with the clock of the instant at which it runs.  For a suggestion of
    the list whose id was stamped at the instant [t], the callback removes
    the suggestion when the clock still shows [t], and leaves it in the
    list when the clock shows any other instant. *)
Theorem dismiss_callback_removes_only_at_creation_instant
    (tz : TimeZone) (st : ProviderState.t) (s : ProviderSuggestion.t)
    (prefix : string) (t : Z) (clock : Clock) (n : nat)
    (Hin : In s (ProviderState.suggestions st))
    (Hid : ProviderSuggestion.id s = (prefix ++ showZ t)%string)
    (Hcallback : ProviderSuggestion.onDismiss s = [DismissStamped prefix]) :
  In s (ProviderState.suggestions (fst (handleEvent tz (EvDismiss s) st clock n)))
  <-> clock n <> t.
Proof.
  cbn [handleEvent]. rewrite Hcallback.
  unfold runCallback, runAction, bind, ret, Date_now, dismissSuggestion.
  cbn [fst ProviderState.suggestions setSuggestions].
  unfold removeSuggestion. rewrite filter_In. unfold hasId. rewrite Hid.
  split.
  - intros [_ H] Heq. rewrite Heq, String.eqb_refl in H. discriminate.
  - intros Hne. split; [exact Hin|].
    apply negb_true_iff, String.eqb_neq. intros Heq.
    apply append_injective, showZ_injective in Heq. congruence.
Qed.

Lemma dismiss_callback_removes_only_at_creation_instant_witness :
  In (idleEndSuggestion t0)
     (ProviderState.suggestions
        (fst (handleEvent UTC (EvDismiss (idleEndSuggestion t0)) idleSessionState
                (frozen (t0 + 2000)) 0%nat)))
  <-> frozen (t0 + 2000) 0%nat <> t0.
Proof.
  apply (dismiss_callback_removes_only_at_creation_instant UTC idleSessionState
           (idleEndSuggestion t0) "idle-end-" t0 (frozen (t0 + 2000)) 0%nat).
  - left. reflexivity.
  - reflexivity.
  - reflexivity.
Defined.

(** * Properties of the personalized insights *)

Lemma energyBefore_le (x y : PatternEntry.t) :
  energyBefore x y = true <-> byAverageDescending x y.
Proof.
  unfold energyBefore, byAverageDescending. rewrite Qle_bool_iff. split; intros H.
  - apply Qplus_le_l with (z := (- PatternEntry.averageEnergy x)%Q).
    rewrite Qplus_opp_r. exact H.
  - apply Qplus_le_l with (z := PatternEntry.averageEnergy x).
    rewrite Qplus_0_l. unfold Qminus. rewrite <- Qplus_assoc.
    rewrite (Qplus_comm (- PatternEntry.averageEnergy x)), Qplus_opp_r, Qplus_0_r.
    exact H.
Qed.

Lemma energyBefore_true (x y : PatternEntry.t) :
  energyBefore x y = true -> byAverageDescending x y.
Proof. apply energyBefore_le. Qed.

Lemma energyBefore_false (x y : PatternEntry.t) :
  energyBefore x y = false -> byAverageDescending y x.
Proof.
  intros H. unfold byAverageDescending.
  destruct (Qlt_le_dec (PatternEntry.averageEnergy x) (PatternEntry.averageEnergy y))
    as [Hlt|Hle]; [now apply Qlt_le_weak|].
  apply (proj2 (energyBefore_le x y)) in Hle. congruence.
Qed.

Lemma byAverageDescending_trans (x y z : PatternEntry.t) :
  byAverageDescending x y -> byAverageDescending y z -> byAverageDescending x z.
Proof.
  unfold byAverageDescending. intros H1 H2.
  now apply Qle_trans with (PatternEntry.averageEnergy y).
Qed.

Lemma sorted_app_related {A} (R : A -> A -> Prop) (l1 l2 : list A) :
  StronglySorted R (l1 ++ l2) ->
  forall x y, In x l1 -> In y l2 -> R x y.
Proof.
  induction l1 as [|a r IH]; simpl; intros H x y Hx Hy; [contradiction|].
  inversion H as [|? ? Hr Ha]; subst. destruct Hx as [<-|Hx].
  - rewrite Forall_forall in Ha. apply Ha. apply in_app_iff. now right.
  - now apply IH.
Qed.

(** The insights under any clock: one about the peak hours when there are
    any, then one about the completion rate when it is below 70. *)
Lemma generatePersonalizedInsights_shape (showNumber : JSNumber.t -> string)
    (ux : InsightInput.t) (tasks : list Task.t) (clock : Clock) (n : nat)
    (dailyPattern : EnergyPattern.t) :
  find isDaily (UserEnergyProfile.energyPatterns (InsightInput.energyProfile ux))
  = Some dailyPattern ->
  exists m,
    fst (generatePersonalizedInsights showNumber ux tasks clock n)
    = (if (0 <? Z.of_nat (List.length (peakHoursOf dailyPattern)))
       then [peakHoursInsight (clock n) (clock (S n)) (peakHoursOf dailyPattern)]
       else [])
      ++ (if numberLtb
               (ProductivityMetrics.completionRate (InsightInput.productivityMetrics ux))
               (JSNumber.ofZ 70)
          then [completionRateInsight showNumber (clock m) (clock (S m))
                  (ProductivityMetrics.completionRate
                     (InsightInput.productivityMetrics ux))]
          else []).
Proof.
  intros Hd. unfold generatePersonalizedInsights. rewrite Hd.
  destruct (0 <? Z.of_nat (List.length (peakHoursOf dailyPattern)));
    destruct (numberLtb _ _); unfold bind, ret, Date_now; cbn [fst app].
  - exists (S (S n)). reflexivity.
  - exists n. reflexivity.
  - exists n. reflexivity.
  - exists n. reflexivity.
Qed.

(** X18.  For a profile with a daily pattern, an insight about the peak
    hours is given exactly when an entry of the daily pattern has an average
    energy of at least 4.  The hours it lists are at most three entries of
    the daily pattern, each with an average of at least 4, in descending
    order of average, and no entry of at least 4 that is left out has a
    greater average than a listed one.  At most two insights are given. *)
Theorem peak_hours_insight_lists_the_top_three
    (showNumber : JSNumber.t -> string) (ux : InsightInput.t)
    (tasks : list Task.t) (clock : Clock) (n : nat)
    (dailyPattern : EnergyPattern.t)
    (Hdaily : find isDaily
                (UserEnergyProfile.energyPatterns (InsightInput.energyProfile ux))
              = Some dailyPattern) :
  (List.length (fst (generatePersonalizedInsights showNumber ux tasks clock n)) <= 2)%nat
  /\ ((exists i peak,
          In i (fst (generatePersonalizedInsights showNumber ux tasks clock n))
          /\ PersonalizedInsight.data i = PeakHoursData peak)
      <-> exists e, In e (EnergyPattern.pattern dailyPattern)
                    /\ (4 <= PatternEntry.averageEnergy e)%Q)
  /\ (forall i peak,
        In i (fst (generatePersonalizedInsights showNumber ux tasks clock n)) ->
        PersonalizedInsight.data i = PeakHoursData peak ->
        (0 < List.length peak <= 3)%nat
        /\ StronglySorted byAverageDescending peak
        /\ (forall e, In e peak ->
                      In e (EnergyPattern.pattern dailyPattern)
                      /\ (4 <= PatternEntry.averageEnergy e)%Q)
        /\ (forall e x, In e (EnergyPattern.pattern dailyPattern) ->
                        (4 <= PatternEntry.averageEnergy e)%Q ->
                        ~ In e peak -> In x peak ->
                        (PatternEntry.averageEnergy e
                         <= PatternEntry.averageEnergy x)%Q)).
Proof.
  destruct (generatePersonalizedInsights_shape showNumber ux tasks clock n
              dailyPattern Hdaily) as [m E].
  rewrite E. clear E.
  set (qualifying := filter (fun p => Qgeb (PatternEntry.averageEnergy p) 4)
                            (EnergyPattern.pattern dailyPattern)).
  set (sorted := sortBy energyBefore qualifying).
  assert (Hperm : Permutation sorted qualifying) by apply sortBy_perm.
  assert (Hsorted : StronglySorted byAverageDescending sorted)
    by apply (sortBy_sorted energyBefore byAverageDescending energyBefore_true
                energyBefore_false byAverageDescending_trans).
  assert (Hqual : forall e, In e qualifying <->
                            In e (EnergyPattern.pattern dailyPattern)
                            /\ (4 <= PatternEntry.averageEnergy e)%Q).
  { intros e. unfold qualifying. rewrite filter_In. unfold Qgeb.
    now rewrite Qle_bool_iff. }
  assert (Hpeak : peakHoursOf dailyPattern = firstn 3 sorted) by reflexivity.
  assert (Hfacts :
            (List.length (peakHoursOf dailyPattern) <= 3)%nat
            /\ StronglySorted byAverageDescending (peakHoursOf dailyPattern)
            /\ (forall e, In e (peakHoursOf dailyPattern) ->
                          In e (EnergyPattern.pattern dailyPattern)
                          /\ (4 <= PatternEntry.averageEnergy e)%Q)
            /\ (forall e x, In e (EnergyPattern.pattern dailyPattern) ->
                            (4 <= PatternEntry.averageEnergy e)%Q ->
                            ~ In e (peakHoursOf dailyPattern) ->
                            In x (peakHoursOf dailyPattern) ->
                            (PatternEntry.averageEnergy e
                             <= PatternEntry.averageEnergy x)%Q)).
  { rewrite Hpeak. split; [rewrite length_firstn; lia|].
    split; [now apply firstn_sorted|]. split.
    - intros e He. apply Hqual. apply (Permutation_in _ Hperm).
      now apply (In_firstn 3).
    - intros e x He H4 Hnot Hx.
      assert (Hes : In e sorted)
        by (apply (Permutation_in _ (Permutation_sym Hperm)); now apply Hqual).
      rewrite <- (firstn_skipn 3 sorted) in Hes, Hsorted.
      apply in_app_iff in Hes. destruct Hes as [Hes|Hes]; [contradiction|].
      exact (sorted_app_related _ _ _ Hsorted x e Hx Hes). }
  assert (Hnonempty : (0 <? Z.of_nat (List.length (peakHoursOf dailyPattern))) = true
                      <-> exists e, In e (EnergyPattern.pattern dailyPattern)
                                    /\ (4 <= PatternEntry.averageEnergy e)%Q).
  { rewrite Z.ltb_lt, Hpeak. split.
    - intros Hlen. destruct (firstn 3 sorted) as [|e r] eqn:F;
        [simpl in Hlen; lia|].
      exists e. apply Hqual, (Permutation_in _ Hperm), (In_firstn 3).
      rewrite F. now left.
    - intros [e He]. apply Hqual in He.
      apply (Permutation_in _ (Permutation_sym Hperm)) in He.
      destruct sorted as [|a r]; [contradiction|]. simpl List.length. lia. }
  destruct (0 <? Z.of_nat (List.length (peakHoursOf dailyPattern))) eqn:Epos;
    destruct (numberLtb _ _); cbn [app List.length];
    (split; [lia|]); split.
  all: try (split;
            [ intros _; now apply Hnonempty
            | intros _; eexists; eexists; split; [left; reflexivity | reflexivity] ]).
  all: try (split;
            [ intros [i [peak [Hi Hdata]]]; exfalso; simpl in Hi;
              repeat (destruct Hi as [Hi|Hi]; [subst i; discriminate Hdata|]);
              contradiction
            | intros H; apply Hnonempty in H; discriminate H ]).
  all: intros i peak Hi Hdata; simpl in Hi;
    repeat (destruct Hi as [Hi|Hi];
            [ subst i; simpl in Hdata;
              first [ discriminate Hdata
                    | inversion Hdata; subst peak;
                      apply Z.ltb_lt in Epos;
                      destruct Hfacts as (H1 & H2 & H3 & H4);
                      repeat split; try assumption; try lia;
                      [ now apply H3 | now apply H3 ] ]
            |]);
    contradiction.
Qed.

Lemma peak_hours_insight_lists_the_top_three_witness :
  (List.length
     (fst (generatePersonalizedInsights (fun _ => "80"%string) morningInsightInput []
             tickingClock 0%nat)) <= 2)%nat
  /\ ((exists i peak,
          In i (fst (generatePersonalizedInsights (fun _ => "80"%string)
                       morningInsightInput [] tickingClock 0%nat))
          /\ PersonalizedInsight.data i = PeakHoursData peak)
      <-> exists e, In e (EnergyPattern.pattern morningDaily)
                    /\ (4 <= PatternEntry.averageEnergy e)%Q)
  /\ (forall i peak,
        In i (fst (generatePersonalizedInsights (fun _ => "80"%string)
                     morningInsightInput [] tickingClock 0%nat)) ->
        PersonalizedInsight.data i = PeakHoursData peak ->
        (0 < List.length peak <= 3)%nat
        /\ StronglySorted byAverageDescending peak
        /\ (forall e, In e peak ->
                      In e (EnergyPattern.pattern morningDaily)
                      /\ (4 <= PatternEntry.averageEnergy e)%Q)
        /\ (forall e x, In e (EnergyPattern.pattern morningDaily) ->
                        (4 <= PatternEntry.averageEnergy e)%Q ->
                        ~ In e peak -> In x peak ->
                        (PatternEntry.averageEnergy e
                         <= PatternEntry.averageEnergy x)%Q)).
Proof.
  apply (peak_hours_insight_lists_the_top_three (fun _ => "80"%string)
           morningInsightInput [] tickingClock 0%nat morningDaily).
  reflexivity.
Defined.

(** * A long session *)





(** * Suitability scores *)

(** X20.  For an energy and a productivity that are not negative, each of
    the five suitability scores lies between 0 and 100, the score for
    problem solving is at least the score for creative work, which is at
    least the score for writing, which is at least the scores for reading
    and for review. *)
Theorem suitability_scores_ordered (energy productivity : Q)
    (Henergy : (0 <= energy)%Q) (Hproductivity : (0 <= productivity)%Q) :
  let scores := calculateSuitabilityScores energy productivity in
  (0 <= SuitabilityScores.review scores <= 100)%Q
  /\ (0 <= SuitabilityScores.reading scores <= 100)%Q
  /\ (SuitabilityScores.review scores <= SuitabilityScores.writing scores)%Q
  /\ (SuitabilityScores.reading scores <= SuitabilityScores.writing scores)%Q
  /\ (SuitabilityScores.writing scores <= SuitabilityScores.creative scores)%Q
  /\ (SuitabilityScores.creative scores
      <= SuitabilityScores.problemSolving scores <= 100)%Q.
Proof.
  cbv zeta. unfold calculateSuitabilityScores. simpl.
  assert (Hmono : forall a b c d : Q,
             (0 <= a <= b)%Q -> (0 <= c <= d)%Q ->
             (energy * a + productivity * c <= energy * b + productivity * d)%Q).
  { intros a b c d [_ Hab] [_ Hcd]. apply Qplus_le_compat.
    - rewrite (Qmult_comm energy a), (Qmult_comm energy b).
      now apply Qmult_le_compat_r.
    - rewrite (Qmult_comm productivity c), (Qmult_comm productivity d).
      now apply Qmult_le_compat_r. }
  assert (Hpos : forall a c : Q, (0 <= a)%Q -> (0 <= c)%Q ->
                                 (0 <= energy * a + productivity * c)%Q).
  { intros a c Ha Hc. rewrite <- (Qplus_0_r 0).
    apply Qplus_le_compat; now apply Qmult_le_0_compat. }
  repeat split.
  - apply Q.min_glb; [discriminate | apply Hpos; discriminate].
  - apply Q.le_min_l.
  - apply Q.min_glb; [discriminate | apply Hpos; discriminate].
  - apply Q.le_min_l.
  - apply Q.min_le_compat_l. apply Hmono; split; discriminate.
  - apply Q.min_le_compat_l. apply Hmono; split; discriminate.
  - apply Q.min_le_compat_l. apply Hmono; split; discriminate.
  - apply Q.min_le_compat_l. apply Hmono; split; discriminate.
  - apply Q.le_min_l.
Qed.

Lemma suitability_scores_ordered_witness :
  (0 <= SuitabilityScores.review (calculateSuitabilityScores 4 6) <= 100)%Q
  /\ (0 <= SuitabilityScores.reading (calculateSuitabilityScores 4 6) <= 100)%Q
  /\ (SuitabilityScores.review (calculateSuitabilityScores 4 6)
      <= SuitabilityScores.writing (calculateSuitabilityScores 4 6))%Q
  /\ (SuitabilityScores.reading (calculateSuitabilityScores 4 6)
      <= SuitabilityScores.writing (calculateSuitabilityScores 4 6))%Q
  /\ (SuitabilityScores.writing (calculateSuitabilityScores 4 6)
      <= SuitabilityScores.creative (calculateSuitabilityScores 4 6))%Q
  /\ (SuitabilityScores.creative (calculateSuitabilityScores 4 6)
      <= SuitabilityScores.problemSolving (calculateSuitabilityScores 4 6) <= 100)%Q.
Proof.
  apply (suitability_scores_ordered 4 6); discriminate.
Defined.

(** * A fresh profile *)

(** X21.  The profile that [initializeEnergyProfile] returns has the
    inconsistent persona, and the generator gives it no suggestion, whatever
    the context, the tasks and the clock. *)
Theorem fresh_profile_gets_no_suggestion {StudyPlan : Type}
    (tz : TimeZone) (clock : Clock) (n m : nat)
    (currentContext : RealTimeContext.t) (tasks : list Task.t)
    (studyPlans : list StudyPlan) :
  UserPersona.type (determineUserPersona (fst (initializeEnergyProfile clock n)))
  = Inconsistent
  /\ fst (generateSmartSuggestions tz
            {| RealTimeUserExperience.energyProfile :=
                 fst (initializeEnergyProfile clock n);
               RealTimeUserExperience.currentContext := currentContext |}
            tasks studyPlans clock m)
     = [].
Proof.
  split; [reflexivity|].
  destruct (generateSmartSuggestions_shape tz
              {| RealTimeUserExperience.energyProfile :=
                   fst (initializeEnergyProfile clock n);
                 RealTimeUserExperience.currentContext := currentContext |}
              tasks studyPlans clock m) as (na & nb & nc & E).
  rewrite E. reflexivity.
Qed.
